(** * Wattpilot session engine: a shallow embedding of [wattpilot.go]

    The Go client keeps one [Wattpilot] struct per device and mutates it from
    the handlers that the receive loop dispatches to.  The embedding keeps
    the struct as a record, threads it through a small state monad whose
    outcomes are a normal return, a Go panic, or a goroutine parked on a
    channel, and records every externally visible effect (log calls,
    frames written to the transport, channel handoffs, notification
    publishes) in a trace.

    What the file imports -- the hash functions, [encoding/json], the
    websocket transport, the generated alias tables -- is an operation of
    the [Externals] interface; [strconv.Atoi], [strconv.ParseBool],
    [hex.EncodeToString] and [base64.StdEncoding.EncodeToString] are
    written out, and so is the JSON text of the flat messages this client
    sends.  The handlers, the teardown and the property facade are
    embedded statement by statement.  Of [Connect] the part after it has
    started the receive handler is embedded, as the receiving end of the
    two unbuffered channels the handlers send on; its dialing, [reconnect]
    and [processLoop] are not. *)

From Stdlib Require Import ZArith String Ascii List Bool Lia.
From Stdlib Require Import Floats.PrimFloat Floats.FloatOps Floats.SpecFloat.
From stdpp Require Import base option gmap strings list fin_maps pretty sorting.

Set Warnings "-register-all".

Local Open Scope Z_scope.
Local Open Scope string_scope.

(** ** Dynamic values

    [interface{}] values as they occur in this program: what
    [encoding/json] decodes into, plus the Go integers that the client
    itself puts into outbound messages. *)

Inductive GoValue : Type :=
| VNil
| VBool (b : bool)
| VInt (n : Z)
| VInt64 (n : Z)
| VFloat64 (f : float)
| VString (s : string)
| VMap (m : gmap string GoValue)
| VSlice (l : list GoValue).

(** A Go [error] value is represented by its message. *)
Inductive error : Type := errors_New (msg : string).

(** ** strconv and fmt, as far as [transformValue] and the envelope use them *)

Module strconv.

Definition digit_of (c : ascii) : option Z :=
  let n := Z.of_nat (nat_of_ascii c) in
  if ((48 <=? n) && (n <=? 57))%Z then Some (n - 48) else None.

Fixpoint parse_digits (acc : Z) (s : string) : option Z :=
  match s with
  | EmptyString => Some acc
  | String c rest =>
      match digit_of c with
      | Some d => parse_digits (acc * 10 + d) rest
      | None => None
      end
  end.

Definition minInt : Z := - 2 ^ 63.
Definition maxInt : Z := 2 ^ 63 - 1.

Definition split_sign (s : string) : bool * string :=
  match s with
  | String "+"%char rest => (false, rest)
  | String "-"%char rest => (true, rest)
  | _ => (false, s)
  end.

(** [strconv.Atoi]: an optional sign, at least one decimal digit, nothing
    else, and the value must fit the 64-bit [int]. *)
Definition Atoi (s : string) : option Z :=
  let '(neg, body) := split_sign s in
  match body with
  | EmptyString => None
  | _ =>
      match parse_digits 0 body with
      | Some n =>
          let z := if neg then - n else n in
          if ((minInt <=? z) && (z <=? maxInt))%Z then Some z else None
      | None => None
      end
  end.

(** [strconv.ParseBool]: exactly the twelve spellings Go accepts. *)
Definition ParseBool (s : string) : option bool :=
  if bool_decide (s ∈ ["1"; "t"; "T"; "TRUE"; "true"; "True"]) then Some true
  else if bool_decide (s ∈ ["0"; "f"; "F"; "FALSE"; "false"; "False"]) then Some false
  else None.

End strconv.

Module hex.

Definition hextable : string := "0123456789abcdef".

Definition nibble (n : nat) : ascii :=
  match String.get n hextable with Some c => c | None => "0"%char end.

(** [hex.EncodeToString]: two lowercase digits per byte, high nibble first. *)
Fixpoint EncodeToString (src : string) : string :=
  match src with
  | EmptyString => EmptyString
  | String c rest =>
      let v := nat_of_ascii c in
      String (nibble (Nat.div v 16)) (String (nibble (Nat.modulo v 16)) (EncodeToString rest))
  end.

Definition is_lower_hex (c : ascii) : bool :=
  bool_decide (c ∈ list_ascii_of_string hextable).

End hex.

Module base64.

Definition encodeStd : string :=
  "ABCDEFGHIJKLMNOPQRSTUVWXYZabcdefghijklmnopqrstuvwxyz0123456789+/".

Definition sextet (v : Z) : ascii :=
  match String.get (Z.to_nat (v mod 64)) encodeStd with Some c => c | None => "="%char end.

(** Three bytes give four characters; a last group of one or two bytes
    is padded with "=". *)
Fixpoint encode (src : list Z) : list ascii :=
  match src with
  | [] => []
  | [b0] =>
      let v := b0 * 65536 in
      [sextet (v / 262144); sextet (v / 4096); "="%char; "="%char]
  | [b0; b1] =>
      let v := b0 * 65536 + b1 * 256 in
      [sextet (v / 262144); sextet (v / 4096); sextet (v / 64); "="%char]
  | b0 :: b1 :: b2 :: rest =>
      let v := b0 * 65536 + b1 * 256 + b2 in
      sextet (v / 262144) :: sextet (v / 4096) :: sextet (v / 64) :: sextet v :: encode rest
  end.

(** [base64.StdEncoding.EncodeToString]. *)
Definition EncodeToString (src : string) : string :=
  string_of_list_ascii
    (encode (map (fun c => Z.of_nat (nat_of_ascii c)) (list_ascii_of_string src))).

End base64.

(** [fmt.Sprintf("%d", n)] for an [int64]. *)
Definition Sprintf_d (n : Z) : string := pretty n.

(** ** JSON texts *)

Module JSON.

(** The JSON texts this client puts on the wire are flat objects of
    scalars.  [print] is the compact text [encoding/json] emits for such
    an object: members sorted by key, strings in double quotes with the
    quote and the backslash escaped and [<], [>], [&] written as
    [\u003c], [\u003e], [\u0026]; a number is its literal.  [parse] reads
    such a text back. *)

Inductive scalar : Type :=
| Null
| Bool (b : bool)
| Number (literal : string)
| Text (s : string).

Definition quote : ascii := ascii_of_nat 34.
Definition backslash : ascii := ascii_of_nat 92.

Definition printable (c : ascii) : bool :=
  (32 <=? nat_of_ascii c)%nat && (nat_of_ascii c <? 127)%nat.

Fixpoint plain (s : string) : bool :=
  match s with
  | EmptyString => true
  | String c rest => printable c && plain rest
  end.

Definition escape_char (c : ascii) : string :=
  if (c =? quote)%char then String backslash (String quote EmptyString)
  else if (c =? backslash)%char then String backslash (String backslash EmptyString)
  else if (c =? "<")%char then "\u003c"
  else if (c =? ">")%char then "\u003e"
  else if (c =? "&")%char then "\u0026"
  else String c EmptyString.

Fixpoint escape (s : string) : string :=
  match s with
  | EmptyString => EmptyString
  | String c rest => escape_char c +:+ escape rest
  end.

Definition print_text (s : string) : string :=
  String quote (escape s +:+ String quote EmptyString).

Definition print_scalar (v : scalar) : string :=
  match v with
  | Null => "null"
  | Bool true => "true"
  | Bool false => "false"
  | Number literal => literal
  | Text s => print_text s
  end.

Definition print_member (kv : string * scalar) : string :=
  print_text kv.1 +:+ ":" +:+ print_scalar kv.2.

Fixpoint print_members (l : list (string * scalar)) : string :=
  match l with
  | [] => EmptyString
  | [kv] => print_member kv
  | kv :: rest => print_member kv +:+ "," +:+ print_members rest
  end.

Definition key_le (a b : string * scalar) : Prop := String.leb a.1 b.1 = true.

#[global] Instance key_le_dec (a b : string * scalar) : Decision (key_le a b).
Proof. unfold key_le. apply _. Defined.

Definition print (j : gmap string scalar) : string :=
  "{" +:+ print_members (merge_sort key_le (map_to_list j)) +:+ "}".

(** Reading a text back.  Each reader returns what it read and the rest
    of the input. *)

Definition is_digit (c : ascii) : bool :=
  (48 <=? nat_of_ascii c)%nat && (nat_of_ascii c <=? 57)%nat.

Definition hex_digit (c : ascii) : option nat :=
  let n := nat_of_ascii c in
  if is_digit c then Some (n - 48)%nat
  else if (97 <=? n)%nat && (n <=? 102)%nat then Some (n - 87)%nat
  else if (65 <=? n)%nat && (n <=? 70)%nat then Some (n - 55)%nat
  else None.

Definition hex4 (h1 h2 h3 h4 : ascii) : option nat :=
  match hex_digit h1, hex_digit h2, hex_digit h3, hex_digit h4 with
  | Some a, Some b, Some c, Some d => Some (((a * 16 + b) * 16 + c) * 16 + d)%nat
  | _, _, _, _ => None
  end.

Definition unescape (e : ascii) : option ascii :=
  if (e =? quote)%char then Some quote
  else if (e =? backslash)%char then Some backslash
  else if (e =? "/")%char then Some "/"%char
  else if (e =? "b")%char then Some (ascii_of_nat 8)
  else if (e =? "f")%char then Some (ascii_of_nat 12)
  else if (e =? "n")%char then Some (ascii_of_nat 10)
  else if (e =? "r")%char then Some (ascii_of_nat 13)
  else if (e =? "t")%char then Some (ascii_of_nat 9)
  else None.

Definition prepend (c : ascii) (r : option (string * string)) : option (string * string) :=
  match r with
  | Some (t, rest) => Some (String c t, rest)
  | None => None
  end.

(** A string after its opening quote, up to the closing one: escapes are
    undone, a raw control character is refused, an escaped code point
    beyond ASCII is outside the fragment. *)
Fixpoint text_body (s : string) : option (string * string) :=
  match s with
  | EmptyString => None
  | String c rest =>
      if (c =? quote)%char then Some (EmptyString, rest)
      else if (c =? backslash)%char then
        match rest with
        | String e rest1 =>
            if (e =? "u")%char then
              match rest1 with
              | String h1 (String h2 (String h3 (String h4 rest2))) =>
                  match hex4 h1 h2 h3 h4 with
                  | Some n =>
                      if (n <? 128)%nat then prepend (ascii_of_nat n) (text_body rest2)
                      else None
                  | None => None
                  end
              | _ => None
              end
            else
              match unescape e with
              | Some c' => prepend c' (text_body rest1)
              | None => None
              end
        | EmptyString => None
        end
      else if (nat_of_ascii c <? 32)%nat then None
      else prepend c (text_body rest)
  end.

(** The longest run of digits, and an integer literal: an optional minus
    sign and digits without a leading zero. *)
Fixpoint digits (s : string) : string * string :=
  match s with
  | EmptyString => (EmptyString, EmptyString)
  | String c rest =>
      if is_digit c then let '(d, rest') := digits rest in (String c d, rest')
      else (EmptyString, s)
  end.

Definition natural (s : string) : option (string * string) :=
  match digits s with
  | (EmptyString, _) => None
  | (String c EmptyString, rest) => Some (String c EmptyString, rest)
  | (String c d, rest) => if (c =? "0")%char then None else Some (String c d, rest)
  end.

Definition number (s : string) : option (string * string) :=
  match s with
  | String c rest =>
      if (c =? "-")%char then prepend c (natural rest) else natural s
  | EmptyString => None
  end.

Fixpoint strip (prefix s : string) : option string :=
  match prefix with
  | EmptyString => Some s
  | String c prefix' =>
      match s with
      | String c' s' => if (c =? c')%char then strip prefix' s' else None
      | EmptyString => None
      end
  end.

Definition tag (f : string -> scalar) (r : option (string * string))
  : option (scalar * string) :=
  match r with
  | Some (a, rest) => Some (f a, rest)
  | None => None
  end.

Definition keyword (word : string) (v : scalar) (s : string) : option (scalar * string) :=
  match strip word s with
  | Some rest => Some (v, rest)
  | None => None
  end.

Definition value (s : string) : option (scalar * string) :=
  match s with
  | EmptyString => None
  | String c rest =>
      if (c =? quote)%char then tag Text (text_body rest)
      else if (c =? "t")%char then keyword "rue" (Bool true) rest
      else if (c =? "f")%char then keyword "alse" (Bool false) rest
      else if (c =? "n")%char then keyword "ull" Null rest
      else tag Number (number s)
  end.

Definition text (s : string) : option (string * string) :=
  match s with
  | String c rest => if (c =? quote)%char then text_body rest else None
  | EmptyString => None
  end.










End JSON.


(** ** What the file imports

    [Conn] stands for the [net.Conn] behind [_currentConnection]. *)

Inductive Conn : Type := mkConn (fd : nat).

Module PostProc.
(** An entry of the generated [PostProcess] table: the wire key to read and
    the transform [f] applied to the stored value. *)
Record t : Type := mk { key : string; f : GoValue -> GoValue * option error }.
End PostProc.

Class Externals : Type := {
  (** [wsutil.WriteClientMessage(conn, ws.OpText, data)]: [None] is a nil error. *)
  WriteClientMessage : Conn -> string -> option error;
  (** [conn.Close()]. *)
  conn_Close : Conn -> option error;
  (** [pbkdf2.Key(password, salt, iter, keyLen, sha512.New)]. *)
  pbkdf2_Key : string -> string -> Z -> Z -> string;
  (** [sha256sum], the helper of this package that hashes a string with
      SHA-256 and returns the digest as text. *)
  sha256sum : string -> string;
  (** [hmac.New(sha256.New, key)] followed by [Write(data)] and [Sum(nil)]. *)
  hmac_sha256 : string -> string -> string;
  (** [json.Marshal]: [None] when it returns an error. *)
  json_Marshal : GoValue -> option string;
  (** [json.Unmarshal] into an [interface{}]: [None] when it returns an error. *)
  json_Unmarshal : string -> option GoValue;
  (** [strconv.ParseFloat(s, 64)]: [None] when it returns an error. *)
  ParseFloat : string -> option float;
  (** [fmt.Sprintf("%v", v)] for the values it is not spelled out for below
      (maps, slices, and floats outside the short integral range). *)
  Sprint_rest : GoValue -> string;
  (** The generated alias table [propertyMap]. *)
  propertyMap : gmap string string;
  (** The generated table [PostProcess]. *)
  PostProcess : gmap string PostProc.t;
}.

(** ** The session struct

    The fields of [Wattpilot] that hold data.  The channels
    ([connected], [initialized], [_sendResponse], [_interrupt], [_done])
    appear as [Chan] names in the trace; the contexts, the mutex, the
    logger and the handler table carry no data of their own. *)

Record Wattpilot : Type := mkWattpilot {
  _requestId : Z;
  _secured : bool;
  _name : string;
  _hostname : string;
  _serial : string;
  _version : string;
  _manufacturer : string;
  _devicetype : string;
  _protocol : float;
  _token3 : string;
  _hashedpassword : string;
  _host : string;
  _password : string;
  _isInitialized : bool;
  _isConnected : bool;
  _status : gmap string GoValue;
  _currentConnection : option Conn;
}.

Definition set_requestId (x : Z) (w : Wattpilot) : Wattpilot :=
  let 'mkWattpilot _ b c d e f g h i j k l m n o p q := w in mkWattpilot x b c d e f g h i j k l m n o p q.
Definition set_secured (x : bool) (w : Wattpilot) : Wattpilot :=
  let 'mkWattpilot a _ c d e f g h i j k l m n o p q := w in mkWattpilot a x c d e f g h i j k l m n o p q.
Definition set_name (x : string) (w : Wattpilot) : Wattpilot :=
  let 'mkWattpilot a b _ d e f g h i j k l m n o p q := w in mkWattpilot a b x d e f g h i j k l m n o p q.
Definition set_hostname (x : string) (w : Wattpilot) : Wattpilot :=
  let 'mkWattpilot a b c _ e f g h i j k l m n o p q := w in mkWattpilot a b c x e f g h i j k l m n o p q.
Definition set_serial (x : string) (w : Wattpilot) : Wattpilot :=
  let 'mkWattpilot a b c d _ f g h i j k l m n o p q := w in mkWattpilot a b c d x f g h i j k l m n o p q.
Definition set_version (x : string) (w : Wattpilot) : Wattpilot :=
  let 'mkWattpilot a b c d e _ g h i j k l m n o p q := w in mkWattpilot a b c d e x g h i j k l m n o p q.
Definition set_manufacturer (x : string) (w : Wattpilot) : Wattpilot :=
  let 'mkWattpilot a b c d e f _ h i j k l m n o p q := w in mkWattpilot a b c d e f x h i j k l m n o p q.
Definition set_devicetype (x : string) (w : Wattpilot) : Wattpilot :=
  let 'mkWattpilot a b c d e f g _ i j k l m n o p q := w in mkWattpilot a b c d e f g x i j k l m n o p q.
Definition set_protocol (x : float) (w : Wattpilot) : Wattpilot :=
  let 'mkWattpilot a b c d e f g h _ j k l m n o p q := w in mkWattpilot a b c d e f g h x j k l m n o p q.
Definition set_token3 (x : string) (w : Wattpilot) : Wattpilot :=
  let 'mkWattpilot a b c d e f g h i _ k l m n o p q := w in mkWattpilot a b c d e f g h i x k l m n o p q.
Definition set_hashedpassword (x : string) (w : Wattpilot) : Wattpilot :=
  let 'mkWattpilot a b c d e f g h i j _ l m n o p q := w in mkWattpilot a b c d e f g h i j x l m n o p q.
Definition set_isInitialized (x : bool) (w : Wattpilot) : Wattpilot :=
  let 'mkWattpilot a b c d e f g h i j k l m _ o p q := w in mkWattpilot a b c d e f g h i j k l m x o p q.
Definition set_isConnected (x : bool) (w : Wattpilot) : Wattpilot :=
  let 'mkWattpilot a b c d e f g h i j k l m n _ p q := w in mkWattpilot a b c d e f g h i j k l m n x p q.
Definition set_status (x : gmap string GoValue) (w : Wattpilot) : Wattpilot :=
  let 'mkWattpilot a b c d e f g h i j k l m n o _ q := w in mkWattpilot a b c d e f g h i j k l m n o x q.
Definition set_currentConnection (x : option Conn) (w : Wattpilot) : Wattpilot :=
  let 'mkWattpilot a b c d e f g h i j k l m n o p _ := w in mkWattpilot a b c d e f g h i j k l m n o p x.

(** [New(host, password)]: the struct literal of the constructor. *)
Definition New (host password : string) : Wattpilot :=
  {| _requestId := 0; _secured := false; _name := ""; _hostname := ""; _serial := "";
     _version := ""; _manufacturer := ""; _devicetype := ""; _protocol := 0%float;
     _token3 := ""; _hashedpassword := ""; _host := host; _password := password;
     _isInitialized := false; _isConnected := false; _status := ∅;
     _currentConnection := None |}.

(** ** Effects

    A handler runs on one goroutine against the machine below.  Its effects
    on the outside world are appended to [trace] in program order. *)

Inductive Level : Type := TraceLevel | DebugLevel | InfoLevel | WarnLevel | ErrorLevel.

Inductive Chan : Type := ch_connected | ch_initialized | ch_sendResponse.

Inductive Event : Type :=
| EvLog (lvl : Level) (text : string) (args : list GoValue)  (* w._log...(text, args...) *)
| EvWrite (c : Conn) (data : string)                         (* frame handed to the transport *)
| EvClose (c : Conn)                                         (* conn.Close() *)
| EvSend (ch : Chan) (v : GoValue)                           (* ch <- v, handed over *)
| EvPublish (k : string) (v : GoValue).                      (* go w._notifications.Publish(k, v) *)

(** Where a call of [Connect] stands once it has started the receive
    handler: [connected] and [initialized] are unbuffered, and the two
    receives of [Connect] are the only ones on them. *)
Inductive Connecting : Type :=
| NoConnect                            (* no call of [Connect] is blocked on a channel *)
| AwaitConnected                       (* blocked in [w._isConnected = <-w.connected] *)
| AwaitInitialized                     (* blocked in [<-w.initialized] *)
| ConnectReturned (err : option error). (* the call has returned [err] *)

Record Machine : Type := mkMachine {
  wp : Wattpilot;                (* the struct behind the receiver [w] *)
  entropy : nat -> nat;          (* what the random source yields, draw by draw *)
  drawn : nat;                   (* draws consumed so far *)
  interrupts : list unit;        (* values ready on [w._interrupt] *)
  trace : list Event;
  connecting : Connecting;       (* the call of [Connect] that receives from the handlers *)
}.

Inductive Outcome (A : Type) : Type :=
| Returned (a : A) (m : Machine)   (* the call returned [a] *)
| Panicked (why : string)          (* the goroutine panicked; nothing recovers it *)
| Parked (m : Machine).            (* blocked on a channel with no counterpart ready *)
Arguments Returned {A} a m.
Arguments Panicked {A} why.
Arguments Parked {A} m.

Definition Go (A : Type) : Type := Machine -> Outcome A.

#[global] Instance Go_ret : MRet Go := fun A a m => Returned a m.
#[global] Instance Go_bind : MBind Go := fun A B k c m =>
  match c m with
  | Returned a m' => k a m'
  | Panicked why => Panicked why
  | Parked m' => Parked m'
  end.

Definition panic {A : Type} (why : string) : Go A := fun _ => Panicked why.

Definition getW : Go Wattpilot := fun m => Returned (wp m) m.

Definition modify (upd : Wattpilot -> Wattpilot) : Go unit := fun m =>
  Returned tt
    (mkMachine (upd (wp m)) (entropy m) (drawn m) (interrupts m) (trace m) (connecting m)).

Definition emit (e : Event) : Go unit := fun m =>
  Returned tt
    (mkMachine (wp m) (entropy m) (drawn m) (interrupts m) (trace m ++ [e]) (connecting m)).

Definition log (lvl : Level) (text : string) (args : list GoValue) : Go unit :=
  emit (EvLog lvl text args).

(** [<-w._interrupt]: takes the first ready value, or parks the goroutine. *)
Definition recv_interrupt : Go unit := fun m =>
  match interrupts m with
  | [] => Parked m
  | _ :: rest =>
      Returned tt (mkMachine (wp m) (entropy m) (drawn m) rest (trace m) (connecting m))
  end.

(** The call of [Connect] moves on to [c]. *)
Definition proceed (c : Connecting) : Go unit := fun m =>
  Returned tt (mkMachine (wp m) (entropy m) (drawn m) (interrupts m) (trace m) c).

(** [Connect] from its first receive on, once [v] has arrived on
    [connected]: the value is stored in [_isConnected]; false ends the call
    with an error, true takes it to its second receive. *)
Definition Connect_connected (v : bool) : Go unit :=
  modify (set_isConnected v);;
  log TraceLevel "Connection is " [VBool v];;
  if v then
    log TraceLevel "Connected - waiting for initializiation..." [];;
    proceed AwaitInitialized
  else
    proceed (ConnectReturned (Some (errors_New "could not connect"))).

(** [Connect] after its second receive: it returns nil. *)
Definition Connect_initialized : Go unit :=
  log TraceLevel "Connected - and initializiated" [];;
  proceed (ConnectReturned None).

(** [w.connected <- v].  The send completes by handing [v] to the call of
    [Connect] blocked in its first receive, which then runs on to its next
    receive or to its return.  After the handoff the two goroutines run
    side by side; the receiving one writes [_isConnected] and logs, which
    no handler reads or writes, and the trace lists its steps right after
    the handoff.  With no such call the sender stays blocked. *)
Definition send_connected (v : bool) : Go unit := fun m =>
  match connecting m with
  | AwaitConnected => (emit (EvSend ch_connected (VBool v));; Connect_connected v) m
  | _ => Parked m
  end.

(** [w.initialized <- v]: likewise, to the second receive of [Connect]. *)
Definition send_initialized (v : bool) : Go unit := fun m =>
  match connecting m with
  | AwaitInitialized => (emit (EvSend ch_initialized (VBool v));; Connect_initialized) m
  | _ => Parked m
  end.

(** [w._sendResponse <- v]: nothing in [wattpilot.go] receives from this
    channel, so the sender stays blocked. *)
Definition send_sendResponse (v : string) : Go unit := fun m => Parked m.

(** ** Map reads and type assertions *)

(** [m[k]] on a [map[string]interface{}]: a missing key reads as nil. *)
Definition index (m : gmap string GoValue) (k : string) : GoValue :=
  default VNil (m !! k).

(** Modelled from the spec: [hasKey] is a helper of this package that is
    not part of [wattpilot.go]; the spec describes its use as the test
    whether a key is present in (absent from) the map. *)
Definition hasKey {V : Type} (m : gmap string V) (k : string) : bool :=
  bool_decide (is_Some (m !! k)).

Definition assert_string (v : GoValue) : Go string :=
  match v with VString s => mret s | _ => panic "interface conversion: interface {} is not string" end.

Definition assert_bool (v : GoValue) : Go bool :=
  match v with VBool b => mret b | _ => panic "interface conversion: interface {} is not bool" end.

Definition assert_float64 (v : GoValue) : Go float :=
  match v with VFloat64 x => mret x | _ => panic "interface conversion: interface {} is not float64" end.

Definition assert_int64 (v : GoValue) : Go Z :=
  match v with VInt64 n => mret n | _ => panic "interface conversion: interface {} is not int64" end.

Definition assert_map (v : GoValue) : Go (gmap string GoValue) :=
  match v with
  | VMap m => mret m
  | _ => panic "interface conversion: interface {} is not map[string]interface {}"
  end.

(** [s[:n]]: panics when [s] is shorter than [n]. *)
Definition slice_to (s : string) (n : nat) : Go string :=
  if (n <=? String.length s)%nat then mret (substring 0 n s)
  else panic "slice bounds out of range".

(** [atomic.AddInt64(&x, 1)] wraps around at 64 bits. *)
Definition wrap_int64 (z : Z) : Z := (z + 2 ^ 63) mod 2 ^ 64 - 2 ^ 63.

(** Modelled from the spec: [randomHexString] is a helper of this package
    that is not part of [wattpilot.go]; the spec asks for a random
    hexadecimal string of the requested length, here one digit per draw
    from the random source. *)
Definition randomHexString (n : nat) : Go string := fun m =>
  let digits := map (fun i => hex.nibble (Nat.modulo (entropy m (drawn m + i)) 16)) (seq 0 n) in
  Returned (string_of_list_ascii digits)
           (mkMachine (wp m) (entropy m) (drawn m + n)%nat (interrupts m) (trace m)
              (connecting m)).

(** ** The handlers of [wattpilot.go] *)

Section Session.
Context `{!Externals}.

(** The idiom [data, _ := json.Marshal(v)]: the error is dropped and the
    bytes are empty when there was one. *)
Definition marshal_bytes (v : GoValue) : string :=
  default "" (json_Marshal v).

Definition IsInitialized (w : Wattpilot) : bool := _isInitialized w.

Definition getRequestId : Go Z :=
  w ← getW;
  let n := wrap_int64 (_requestId w + 1) in
  modify (set_requestId n);;
  mret n.

Definition onEventHello (message : gmap string GoValue) : Go unit :=
  log InfoLevel "Hello from Wattpilot" [];;
  (if hasKey message "hostname"
   then s ← assert_string (index message "hostname"); modify (set_hostname s)
   else mret tt);;
  (if hasKey message "friendly_name"
   then s ← assert_string (index message "friendly_name"); modify (set_name s)
   else w ← getW; modify (set_name (_hostname w)));;
  serial ← assert_string (index message "serial");
  modify (set_serial serial);;
  (if hasKey message "version"
   then s ← assert_string (index message "version"); modify (set_version s)
   else mret tt);;
  manufacturer ← assert_string (index message "manufacturer");
  modify (set_manufacturer manufacturer);;
  devicetype ← assert_string (index message "devicetype");
  modify (set_devicetype devicetype);;
  protocol ← assert_float64 (index message "protocol");
  modify (set_protocol protocol);;
  (if hasKey message "secured"
   then b ← assert_bool (index message "secured"); modify (set_secured b)
   else mret tt);;
  w ← getW;
  let pwd_data := pbkdf2_Key (_password w) (_serial w) 100000 256 in
  hashed ← slice_to (base64.EncodeToString pwd_data) 32;
  modify (set_hashedpassword hashed).

Definition onSendResponse (secured : bool) (message : gmap string GoValue)
  : Go (option error) :=
  log TraceLevel "Sending data to wattpilot: "
      [index message "requestId"; VString " secured: "; VBool secured];;
  message ←
    (if secured then
       msgId ← assert_int64 (index message "requestId");
       let payload := marshal_bytes (VMap message) in
       w ← getW;
       let mac := hmac_sha256 (_hashedpassword w) payload in
       mret (<["hmac" := VString (hex.EncodeToString mac)]>
             (<["requestId" := VString (Sprintf_d msgId +:+ "sm")]>
              (<["data" := VString payload]>
               (<["type" := VString "securedMsg"]> ∅))))
     else mret message);
  let data := marshal_bytes (VMap message) in
  w ← getW;
  match _currentConnection w with
  | None => panic "invalid memory address or nil pointer dereference"
  | Some conn =>
      emit (EvWrite conn data);;
      mret (WriteClientMessage conn data)
  end.

Definition onEventAuthRequired (message : gmap string GoValue) : Go unit :=
  log InfoLevel "Auhtentication required" [];;
  token1 ← assert_string (index message "token1");
  token2 ← assert_string (index message "token2");
  token3 ← randomHexString 32;
  modify (set_token3 token3);;
  w ← getW;
  let hash1 := sha256sum (token1 +:+ _hashedpassword w) in
  let hash := sha256sum (_token3 w +:+ token2 +:+ hash1) in
  let response :=
    <["hash" := VString hash]>
    (<["token3" := VString (_token3 w)]>
     (<["type" := VString "auth"]> ∅)) in
  err ← onSendResponse false response;
  modify (set_isInitialized (bool_decide (err ≠ None))).

Definition onEventResponse (message : gmap string GoValue) : Go unit :=
  log TraceLevel "Response on Event " [index message "type"];;
  mType ← assert_string (index message "type");
  let success := index message "success" in
  let ok := hasKey message "success" in
  (* ok && success.(bool): the assertion runs only when ok holds *)
  guard1 ← (if ok then assert_bool success else mret false);
  if (guard1 : bool) then mret tt
  else
    b ← assert_bool success;
    if negb (b : bool) then
      log ErrorLevel "Failure happened: " [index message "message"]
    else if bool_decide (mType = "response") then
      payload ← assert_string (index message "message");
      send_sendResponse payload
    else mret tt.

Definition onEventAuthSuccess (message : gmap string GoValue) : Go unit :=
  log InfoLevel "Auhtentication successful" [];;
  send_connected true.

Definition onEventAuthError (message : gmap string GoValue) : Go unit :=
  log ErrorLevel "Auhtentication error" [VMap message];;
  send_connected false.

(** The body of the [range statusUpdates] loop, over the entries in the
    order the loop meets them. *)
Fixpoint range_statusUpdates (kvs : list (string * GoValue)) : Go unit :=
  match kvs with
  | [] => mret tt
  | (k, v) :: rest =>
      modify (fun w => set_status (<[k := v]> (_status w)) w);;
      emit (EvPublish k v);;
      range_statusUpdates rest
  end.

(** Go leaves the iteration order of a map unspecified; the model walks
    the entries in the order of [map_to_list]. *)
Definition updateStatus (message : gmap string GoValue) : Go unit :=
  statusUpdates ← assert_map (index message "status");
  log TraceLevel "Data-status gets updates #" [VInt (Z.of_nat (size statusUpdates))];;
  range_statusUpdates (map_to_list statusUpdates).

Definition onEventFullStatus (message : gmap string GoValue) : Go unit :=
  log TraceLevel "Full status update - is partial: " [index message "partial"];;
  isPartial ← assert_bool (index message "partial");
  updateStatus message;;
  if (isPartial : bool) then mret tt
  else
    w ← getW;
    if IsInitialized w then mret tt
    else
      log TraceLevel "Initialization done" [];;
      send_initialized true;;
      modify (set_isInitialized true).

Definition onEventDeltaStatus (message : gmap string GoValue) : Go unit :=
  log TraceLevel "Delta status update" [];;
  updateStatus message.

Definition onEventClearInverters (message : gmap string GoValue) : Go unit :=
  log TraceLevel "clear inverters" [].

Definition onEventUpdateInverter (message : gmap string GoValue) : Go unit :=
  log TraceLevel "update inverters" [].

Definition disconnectImpl : Go unit :=
  log InfoLevel "Disconnecting..." [];;
  w ← getW;
  if negb (_isInitialized w) then mret tt
  else
    match _currentConnection w with
    | None => panic "invalid memory address or nil pointer dereference"
    | Some conn =>
        emit (EvClose conn);;
        match conn_Close conn with
        | Some _ => log TraceLevel "Error on closing connection: " []
        | None => mret tt
        end;;
        log TraceLevel "closed connection" [];;
        modify (set_isInitialized false);;
        modify (set_isConnected false);;
        modify (set_currentConnection None);;
        modify (set_status ∅)
    end.

Definition Disconnect : Go unit :=
  log InfoLevel "Going to disconnect..." [];;
  modify (set_isConnected false);;
  disconnectImpl;;
  recv_interrupt.

(** The table built in [New]. *)
Definition _eventHandler (msgType : string) : option (gmap string GoValue -> Go unit) :=
  if bool_decide (msgType = "hello") then Some onEventHello
  else if bool_decide (msgType = "authRequired") then Some onEventAuthRequired
  else if bool_decide (msgType = "response") then Some onEventResponse
  else if bool_decide (msgType = "authSuccess") then Some onEventAuthSuccess
  else if bool_decide (msgType = "authError") then Some onEventAuthError
  else if bool_decide (msgType = "fullStatus") then Some onEventFullStatus
  else if bool_decide (msgType = "deltaStatus") then Some onEventDeltaStatus
  else if bool_decide (msgType = "clearInverters") then Some onEventClearInverters
  else if bool_decide (msgType = "updateInverter") then Some onEventUpdateInverter
  else None.

(** One turn of the loop in [receiveHandler], for a frame [msg] that was
    read without error. *)
Definition receiveHandler_step (msg : string) : Go unit :=
  match json_Unmarshal msg with
  | Some (VMap data) =>
      match data !! "type" with
      | None => mret tt
      | Some msgType =>
          log TraceLevel "receiving " [msgType];;
          ty ← assert_string msgType;
          match _eventHandler ty with
          | None => mret tt
          | Some funcCall =>
              funcCall data;;
              log TraceLevel "done " [msgType]
          end
      end
  | _ => mret tt
  end.

(** *** [fmt.Sprintf("%v", v)]

    A float64 prints in the shortest [%g] form; for an integral value of
    at most six digits that is the plain digit string.  The other floats
    and the composite values are left to [Sprint_rest]. *)

Definition short_integral (x : float) : option string :=
  match Prim2SF x with
  | S754_zero s => Some (if s then "-0" else "0")
  | S754_finite s m e =>
      let mag :=
        if (0 <=? e)%Z then Some (Z.pos m * 2 ^ e)
        else if (Z.pos m mod 2 ^ (- e) =? 0)%Z then Some (Z.pos m / 2 ^ (- e))
        else None in
      match mag with
      | Some z =>
          if (z <? 1000000)%Z then Some ((if s then "-" else "") +:+ pretty z) else None
      | None => None
      end
  | _ => None
  end.

Definition Sprint (v : GoValue) : string :=
  match v with
  | VNil => "<nil>"
  | VBool true => "true"
  | VBool false => "false"
  | VInt n => pretty n
  | VInt64 n => pretty n
  | VString s => s
  | VFloat64 x => match short_integral x with Some s => s | None => Sprint_rest v end
  | VMap _ => Sprint_rest v
  | VSlice _ => Sprint_rest v
  end.

(** *** The property facade *)

Definition GetProperty (name : string) : Go (GoValue * option error) :=
  log DebugLevel "Get Property " [VString name];;
  w ← getW;
  if negb (_isInitialized w) then
    mret (VNil, Some (errors_New "connection is not valid"))
  else
    let origName := name in
    let name := match propertyMap !! name with Some v => v | None => name end in
    let post := PostProcess !! origName in
    let name := match post with Some m => PostProc.key m | None => name end in
    if negb (hasKey (_status w) name) then
      mret (VNil, Some (errors_New ("could not find value of " +:+ name)))
    else
      let value := index (_status w) name in
      let value := match post with Some m => fst (PostProc.f m value) | None => value end in
      mret (value, None).

Definition transformValue (value : GoValue) : GoValue :=
  match value with
  | VInt _ => value
  | VInt64 _ => value
  | VFloat64 _ => value
  | _ =>
      let in_value := Sprint value in
      match strconv.Atoi in_value with
      | Some out_value => VInt out_value
      | None =>
          match strconv.ParseBool in_value with
          | Some out_value => VBool out_value
          | None =>
              match ParseFloat in_value with
              | Some out_value => VFloat64 out_value
              | None => VString in_value
              end
          end
      end
  end.

Definition sendUpdate (name : string) (value : GoValue) : Go (option error) :=
  let message : gmap string GoValue := <["type" := VString "setValue"]> ∅ in
  id ← getRequestId;
  let message := <["requestId" := VInt64 id]> message in
  let message := <["key" := VString name]> message in
  let message := <["value" := transformValue value]> message in
  w ← getW;
  onSendResponse (_secured w) message.

Definition SetProperty (name : string) (value : GoValue) : Go (option error) :=
  log DebugLevel "setting property " [VString name; VString " to "; value];;
  w ← getW;
  if negb (_isInitialized w) then
    mret (Some (errors_New "Connection is not valid"))
  else if negb (hasKey (_status w) name) then
    mret (Some (errors_New ("Could not find reference for update on " +:+ name)))
  else
    sendUpdate name value.

Definition SetCurrent (current : float) : Go (option error) :=
  SetProperty "amp" (VFloat64 current).

Definition RequestStatusUpdate : Go (option error) :=
  let message : gmap string GoValue := <["type" := VString "requestFullStatus"]> ∅ in
  id ← getRequestId;
  let message := <["requestId" := VInt64 id]> message in
  w ← getW;
  onSendResponse (_secured w) message.

End Session.

(** ** The spec's wording, for comparison with the code *)

Section SpecSide.
Context `{!Externals}.

(** The four wire types the spec names for a [setValue] value. *)
Inductive WireValue : Type :=
| WInteger (n : Z)
| WBoolean (b : bool)
| WFloat (x : float)
| WText (s : string).

Definition wire_of (v : GoValue) : option WireValue :=
  match v with
  | VInt n => Some (WInteger n)
  | VInt64 n => Some (WInteger n)
  | VBool b => Some (WBoolean b)
  | VFloat64 x => Some (WFloat x)
  | VString s => Some (WText s)
  | _ => None
  end.

(** "integer, else boolean, else floating point, else string, in that
    priority order": the coercions in the order the spec lists them. *)
Definition wire_coercions : list (string -> option WireValue) :=
  [ fun s => WInteger <$> strconv.Atoi s;
    fun s => WBoolean <$> strconv.ParseBool s;
    fun s => WFloat <$> ParseFloat s ].

Fixpoint first_applicable (cs : list (string -> option WireValue)) (s : string) : WireValue :=
  match cs with
  | [] => WText s
  | c :: rest => match c s with Some w => w | None => first_applicable rest s end
  end.

(** The spec's coercion of an input: the narrowest wire type applicable to
    what the input reads as. *)
Definition narrowest_wire_value (v : GoValue) : WireValue :=
  first_applicable wire_coercions (Sprint v).

(** What a field of a message is on the wire, for the values of the
    fragment: nil is null, an [int] or [int64] its decimal literal, a
    string of printable ASCII itself. *)
Definition as_json (v : GoValue) : option JSON.scalar :=
  match v with
  | VNil => Some JSON.Null
  | VBool b => Some (JSON.Bool b)
  | VInt n => Some (JSON.Number (pretty n))
  | VInt64 n => Some (JSON.Number (pretty n))
  | VString s => if JSON.plain s then Some (JSON.Text s) else None
  | _ => None
  end.

(** The message as a JSON object, and whether all of it is in the
    fragment. *)
Definition json_view (message : gmap string GoValue) : gmap string JSON.scalar :=
  omap as_json message.

Definition encodable (message : gmap string GoValue) : bool :=
  forallb (fun kv => JSON.plain kv.1 && bool_decide (is_Some (as_json kv.2)))
          (map_to_list message).


(** The envelope the spec describes for an inner message serialised as [d]
    under request id [id]. *)
Definition securedMsg (sessionKey d : string) (id : Z) : gmap string GoValue :=
  {[ "type" := VString "securedMsg";
     "data" := VString d;
     "requestId" := VString (pretty id +:+ "sm");
     "hmac" := VString (hex.EncodeToString (hmac_sha256 sessionKey d)) ]}.

End SpecSide.

(** ** A reference environment

    Stand-ins that keep their arguments visible, used to run the handlers
    on concrete inputs. *)

Module Ref.

Definition dq : string := String (ascii_of_nat 34) EmptyString.

Fixpoint pad_to (n : nat) (s : string) : string :=
  match n with
  | O => EmptyString
  | S n' =>
      match s with
      | EmptyString => String "."%char (pad_to n' EmptyString)
      | String c rest => String c (pad_to n' rest)
      end
  end.

Definition scalar (v : GoValue) : string :=
  match v with
  | VNil => "null"
  | VBool true => "true"
  | VBool false => "false"
  | VInt n => pretty n
  | VInt64 n => pretty n
  | VString s => dq +:+ s +:+ dq
  | _ => "?"
  end.

Definition object (m : gmap string GoValue) : string :=
  "{" +:+ String.concat "," (map (fun kv => dq +:+ fst kv +:+ dq +:+ ":" +:+ scalar (snd kv))
                                 (map_to_list m)) +:+ "}".

Definition first_of_slice (v : GoValue) : GoValue * option error :=
  match v with
  | VSlice (x :: _) => (x, None)
  | _ => (VNil, Some (errors_New "not an array"))
  end.

(** The inner [setValue] message of the examples, and its serialisation. *)
Definition setValue_amp_6 : gmap string GoValue :=
  {[ "type" := VString "setValue"; "requestId" := VInt64 1;
     "key" := VString "amp"; "value" := VInt 6 ]}.

#[global] Instance env : Externals := {|
  WriteClientMessage c _ :=
    match c with mkConn O => Some (errors_New "use of closed network connection") | _ => None end;
  conn_Close _ := None;
  pbkdf2_Key password salt _ keyLen := pad_to (Z.to_nat keyLen) (password +:+ "$" +:+ salt +:+ "$");
  sha256sum s := "sha256(" +:+ s +:+ ")";
  hmac_sha256 key data := "mac";
  json_Marshal v := match v with VMap m => Some (object m) | _ => Some (scalar v) end;
  json_Unmarshal s :=
    if bool_decide (s = object setValue_amp_6) then Some (VMap setValue_amp_6) else None;
  ParseFloat s := if bool_decide (s = "6.5") then Some 6.5%float else None;
  Sprint_rest _ := "?";
  propertyMap := {[ "chargingCurrent" := "amp" ]};
  PostProcess := {[ "voltage1" := PostProc.mk "nrg" first_of_slice ]};
|}.

Definition machine (w : Wattpilot) : Machine :=
  {| wp := w; entropy := fun i => (7 * i + 3)%nat; drawn := 0; interrupts := []; trace := [];
     connecting := NoConnect |}.

(** A session after [hello] and authentication, before the first full status. *)
Definition connected : Wattpilot :=
  set_currentConnection (Some (mkConn 3))
    (set_isConnected true
       (set_hashedpassword "KEY" (set_serial "S1" (New "wattpilot.local" "secret")))).

(** The same session once the full status has arrived. *)
Definition ready : Wattpilot :=
  set_status {[ "amp" := VInt 6; "nrg" := VSlice [VInt 230; VInt 231] ]}
    (set_isInitialized true connected).

(** A session that has merged a partial status but is not initialized. *)
Definition awaiting : Wattpilot :=
  set_status {[ "amp" := VInt 6 ]} connected.

Definition hello : gmap string GoValue :=
  {[ "type" := VString "hello"; "hostname" := VString "wp"; "serial" := VString "S1";
     "manufacturer" := VString "M"; "devicetype" := VString "D";
     "protocol" := VFloat64 2%float ]}.

Definition authRequired : gmap string GoValue :=
  {[ "type" := VString "authRequired"; "token1" := VString "t1"; "token2" := VString "t2" ]}.

End Ref.

(** ** Vocabulary of the statements *)

(** The machine [m] after the events [es] were added to its trace. *)
Definition emitted (m : Machine) (es : list Event) : Machine :=
  mkMachine (wp m) (entropy m) (drawn m) (interrupts m) (trace m ++ es) (connecting m).

Definition with_wp (w : Wattpilot) (m : Machine) : Machine :=
  mkMachine w (entropy m) (drawn m) (interrupts m) (trace m) (connecting m).

#[global] Instance Chan_eq_dec : EqDecision Chan.
Proof. solve_decision. Defined.

Definition written (e : Event) : option string :=
  match e with EvWrite _ data => Some data | _ => None end.

Definition delivered (ch : Chan) (e : Event) : option GoValue :=
  match e with
  | EvSend ch' v => if decide (ch = ch') then Some v else None
  | _ => None
  end.

Definition with_interrupts (pending : list unit) (m : Machine) : Machine :=
  mkMachine (wp m) (entropy m) (drawn m) pending (trace m) (connecting m).

(** The machine on which [Disconnect] calls [disconnectImpl]: the first
    log line is out and the connected flag is already false. *)
Definition before_teardown (m : Machine) : Machine :=
  with_wp (set_isConnected false (wp m))
          (emitted m [EvLog InfoLevel "Going to disconnect..." []]).

(** The frames handed to the transport, oldest first. *)
Definition frames_written (t : list Event) : list string := omap written t.

(** The connections closed, oldest first. *)
Definition closed (t : list Event) : list Conn :=
  omap (fun e => match e with EvClose c => Some c | _ => None end) t.

(** The values offered on channel [ch], oldest first. *)
Definition deliveries (ch : Chan) (t : list Event) : list GoValue := omap (delivered ch) t.

Definition is_string (v : GoValue) : bool := match v with VString _ => true | _ => false end.
Definition is_bool (v : GoValue) : bool := match v with VBool _ => true | _ => false end.
Definition is_float64 (v : GoValue) : bool := match v with VFloat64 _ => true | _ => false end.

Definition optional (p : GoValue -> bool) (o : option GoValue) : bool :=
  match o with Some v => p v | None => true end.

(** The wire format of [hello]: [hostname], [friendly_name], [version] and
    [secured] may be missing; [serial], [manufacturer], [devicetype] and
    [protocol] are always there. *)
Definition well_formed_hello (message : gmap string GoValue) : bool :=
  optional is_string (message !! "hostname")
  && optional is_string (message !! "friendly_name")
  && is_string (index message "serial")
  && optional is_string (message !! "version")
  && is_string (index message "manufacturer")
  && is_string (index message "devicetype")
  && is_float64 (index message "protocol")
  && optional is_bool (message !! "secured").

(** The command [{type: "setValue", requestId, key, value}]. *)
Definition setValue_message (id : Z) (key : string) (value : GoValue) : gmap string GoValue :=
  {[ "type" := VString "setValue"; "requestId" := VInt64 id;
     "key" := VString key; "value" := value ]}.

Section Formulas.
Context `{!Externals}.

(** Spec 4.1: the first 32 characters of the base64 text of the 256-byte
    PBKDF2 output (100000 iterations, SHA-512). *)
Definition sessionKey (secret serial : string) : string :=
  substring 0 32 (base64.EncodeToString (pbkdf2_Key secret serial 100000 256)).

(** Spec 4.1: [hash1 = SHA256(token1 + sessionKey)],
    [authHash = SHA256(token3 + token2 + hash1)]. *)
Definition authHash (key token1 token2 token3 : string) : string :=
  sha256sum (token3 +:+ token2 +:+ sha256sum (token1 +:+ key)).

(** Spec 4.1: the message [{type: "auth", token3, hash}]. *)
Definition auth_message (key token1 token2 token3 : string) : gmap string GoValue :=
  {[ "type" := VString "auth"; "token3" := VString token3;
     "hash" := VString (authHash key token1 token2 token3) ]}.

(** The key [GetProperty] reads: the alias of [name] when the alias table
    has one, [name] itself otherwise, and in either case the key of the
    post-processing entry when one is registered for [name]. *)
Definition resolved_key (name : string) : string :=
  match PostProcess !! name with
  | Some entry => PostProc.key entry
  | None => default name (propertyMap !! name)
  end.

(** The transform registered for [name], applied to a stored value. *)
Definition post_processed (name : string) (v : GoValue) : GoValue :=
  match PostProcess !! name with
  | Some entry => fst (PostProc.f entry v)
  | None => v
  end.

End Formulas.

(** The key the alias table alone gives for [name]. *)
Definition alias_key `{!Externals} (name : string) : string :=
  default name (propertyMap !! name).

Definition NotReady_get : error := errors_New "connection is not valid".
Definition NotReady_set : error := errors_New "Connection is not valid".
Definition NotFound_get (key : string) : error := errors_New ("could not find value of " +:+ key).
Definition NotFound_set (name : string) : error :=
  errors_New ("Could not find reference for update on " +:+ name).

(** What the spec says of a session after teardown, against the session
    [before] it: store empty, both flags off, session key and identity
    cleared, request-id counter as it was. *)
Definition torn_down (before after : Wattpilot) : Prop :=
  _status after = ∅ /\ _isConnected after = false /\ _isInitialized after = false /\
  _hashedpassword after = "" /\
  _name after = "" /\ _serial after = "" /\ _manufacturer after = "" /\ _devicetype after = "" /\
  _requestId after = _requestId before.

(** The identity fields recorded from [hello], with the session key. *)
Definition identity (w : Wattpilot) : list string * float * bool * string :=
  ([_name w; _hostname w; _serial w; _version w; _manufacturer w; _devicetype w],
   _protocol w, _secured w, _hashedpassword w).

Definition is_hex_string (s : string) : bool :=
  forallb hex.is_lower_hex (list_ascii_of_string s).

(** The text [randomHexString n] returns on machine [m]. *)
Definition drawn_hex (m : Machine) (n : nat) : string :=
  string_of_list_ascii
    (map (fun i => hex.nibble (Nat.modulo (entropy m (drawn m + i)) 16)) (seq 0 n)).

Definition numeric (v : GoValue) : bool :=
  match v with VInt _ | VInt64 _ | VFloat64 _ => true | _ => false end.

(** ** The rest of [wattpilot.go]

    The getters, the typed accessors built on [GetProperty], and the loop
    of [receiveHandler] over the frames its connection delivers. *)

Definition GetName (w : Wattpilot) : string := _name w.
Definition GetSerial (w : Wattpilot) : string := _serial w.
Definition GetHost (w : Wattpilot) : string := _host w.

(** [Properties]: the keys of the store, in the order the [range] meets them. *)
Definition Properties (w : Wattpilot) : list string := (map_to_list (_status w)).*1.

(** What [strconv.ParseFloat] returns beside [ParseFloat] when it rejects
    its input: the error, and the float that goes with it. *)
Class ParseFailure : Type := {
  ParseFloat_err : string -> error;
  ParseFloat_rejected : string -> float;
}.

Section Accessors.
Context `{!Externals} `{!ParseFailure}.

(** [Alias]: the keys of [propertyMap]. *)
Definition Alias : list string := (map_to_list propertyMap).*1.

(** [LookupAlias]: a missing name reads as the empty string. *)
Definition LookupAlias (name : string) : string := default "" (propertyMap !! name).

(** [strconv.ParseFloat(s, 64)] with both of its results. *)
Definition strconv_ParseFloat (s : string) : float * option error :=
  match ParseFloat s with
  | Some x => (x, None)
  | None => (ParseFloat_rejected s, Some (ParseFloat_err s))
  end.

Definition GetPower : Go (float * option error) :=
  r ← GetProperty "power";
  match snd r with
  | Some err => mret ((-1)%float, Some err)
  | None =>
      s ← assert_string (fst r);
      mret (strconv_ParseFloat s)
  end.

(** The loop shared by [GetCurrents] and [GetVoltages]: read each name,
    assert a string, parse it, append; the first error ends the loop. *)
Fixpoint range_floats (names : list string) (acc : list float) : Go (list float + error) :=
  match names with
  | [] => mret (inl acc)
  | i :: rest =>
      r ← GetProperty i;
      match snd r with
      | Some err => mret (inr err)
      | None =>
          s ← assert_string (fst r);
          match strconv_ParseFloat s with
          | (_, Some err) => mret (inr err)
          | (fi, None) => range_floats rest (acc ++ [fi])
          end
      end
  end.

(** The return statements after the loop: the three sentinels with the
    error, or the first three elements of the slice. *)
Definition return_three (r : list float + error) : Go (float * float * float * option error) :=
  match r with
  | inr err => mret ((-1)%float, (-1)%float, (-1)%float, Some err)
  | inl (x0 :: x1 :: x2 :: _) => mret (x0, x1, x2, None)
  | inl _ => panic "index out of range"
  end.

Definition GetCurrents : Go (float * float * float * option error) :=
  r ← range_floats ["amps1"; "amps2"; "amps3"] [];
  return_three r.

Definition GetVoltages : Go (float * float * float * option error) :=
  r ← range_floats ["voltage1"; "voltage2"; "voltage2"] [];
  return_three r.

Definition GetRFID : Go (string * option error) :=
  r ← GetProperty "trx";
  match snd r with
  | Some err => mret ("", Some err)
  | None =>
      match fst r with
      | VNil => mret ("", None)
      | resp =>
          rfid ← assert_float64 resp;
          mret (Sprint (VFloat64 rfid), None)
      end
  end.

Definition GetCarIdentifier : Go (string * option error) :=
  r ← GetProperty "cak";
  match snd r with
  | Some err => mret ("", Some err)
  | None =>
      match fst r with
      | VNil => mret ("", None)
      | resp =>
          s ← assert_string resp;
          mret (s, None)
      end
  end.

(** The loop of [receiveHandler] over [frames], the texts its connection
    delivers before a read fails.  Every turn dereferences
    [_currentConnection] for the read. *)
Fixpoint receiveHandler_loop (frames : list string) : Go unit :=
  w ← getW;
  match _currentConnection w with
  | None => panic "invalid memory address or nil pointer dereference"
  | Some _ =>
      match frames with
      | [] => log InfoLevel "Stopping receive handler..." []
      | msg :: rest => receiveHandler_step msg;; receiveHandler_loop rest
      end
  end.

Definition receiveHandler (frames : list string) : Go unit :=
  log InfoLevel "Starting receive handler..." [];;
  receiveHandler_loop frames.

End Accessors.

(** The notifications started, oldest first. *)
Definition publishes (t : list Event) : list (string * GoValue) :=
  omap (fun e => match e with EvPublish k v => Some (k, v) | _ => None end) t.

(** [k] calls of [getRequestId] in a row, with the ids they return. *)
Fixpoint request_ids (k : nat) : Go (list Z) :=
  match k with
  | O => mret []
  | S k' => id ← getRequestId; ids ← request_ids k'; mret (id :: ids)
  end.

(** ** Sample inputs for the rest of the file *)

Module Sample.

#[global] Instance parse_failure : ParseFailure := {|
  ParseFloat_err s := errors_New ("strconv.ParseFloat: parsing " +:+ s +:+ ": invalid syntax");
  ParseFloat_rejected _ := 0%float;
|}.

(** A [deltaStatus] that changes "amp" and adds "car". *)
Definition delta : gmap string GoValue :=
  {[ "type" := VString "deltaStatus";
     "status" := VMap {[ "amp" := VInt 16; "car" := VInt 2 ]} ]}.

(** A [fullStatus] that is not partial. *)
Definition full : gmap string GoValue :=
  {[ "type" := VString "fullStatus"; "partial" := VBool false;
     "status" := VMap {[ "amp" := VInt 16; "car" := VInt 2 ]} ]}.

(** The machine of a session on which a call of [Connect] has started the
    receive handler and waits for the verdict of the device. *)
Definition dialing (w : Wattpilot) : Machine :=
  {| wp := w; entropy := fun i => (7 * i + 3)%nat; drawn := 0; interrupts := []; trace := [];
     connecting := AwaitConnected |}.

(** An initialized session whose store holds text readings. *)
Definition metered : Wattpilot :=
  set_status {[ "nrg" := VSlice [VString "6.5"]; "voltage2" := VString "6.5";
                "cak" := VNil; "trx" := VNil; "amp" := VInt 6 ]} Ref.ready.

End Sample.

(** ** More vocabulary *)

Definition is_map (v : GoValue) : bool := match v with VMap _ => true | _ => false end.

(** The fields no inbound message is meant to reach: where to connect and
    with what, the request-id counter, the connection and its flag. *)
Definition session_frame (w : Wattpilot) : string * string * Z * option Conn * bool :=
  (_host w, _password w, _requestId w, _currentConnection w, _isConnected w).

(** Those of them that nothing on the receiving side writes: the connected
    flag is left out, which [Connect] writes when a handler hands it the
    verdict of the device. *)
Definition dial_frame (w : Wattpilot) : string * string * Z * option Conn :=
  (_host w, _password w, _requestId w, _currentConnection w).

(** The [type] a frame is dispatched on, when it decodes to an object that
    has one. *)
Definition frame_type `{!Externals} (msg : string) : option GoValue :=
  match json_Unmarshal msg with
  | Some (VMap data) => data !! "type"
  | _ => None
  end.

(** The frame [onSendResponse] writes for [message] on the session [w]:
    the message itself, or the envelope around it when the device asked
    for secured commands. *)
Definition outbound_frame `{!Externals} (w : Wattpilot) (id : Z)
  (message : gmap string GoValue) : string :=
  if _secured w
  then marshal_bytes
         (VMap (securedMsg (_hashedpassword w) (marshal_bytes (VMap message)) id))
  else marshal_bytes (VMap message).

(** The command built by [RequestStatusUpdate]. *)
Definition requestFullStatus_message (id : Z) : gmap string GoValue :=
  {[ "type" := VString "requestFullStatus"; "requestId" := VInt64 id ]}.

(** The id the next command will carry. *)
Definition next_id (w : Wattpilot) : Z := wrap_int64 (_requestId w + 1).

(** The store of [w] holds text under the key [name] resolves to, and the
    text parses to [x]. *)
Definition reads_float `{!Externals} (w : Wattpilot) (name : string) (x : float) : Prop :=
  exists v s,
    _status w !! resolved_key name = Some v /\
    post_processed name v = VString s /\
    ParseFloat s = Some x.

(** The error [GetProperty] gives for [name] on the session [w], if any. *)
Definition property_error `{!Externals} (w : Wattpilot) (name : string) : option error :=
  if negb (_isInitialized w) then Some NotReady_get
  else match _status w !! resolved_key name with
       | None => Some (NotFound_get (resolved_key name))
       | Some _ => None
       end.

(** A device whose frames are named rather than spelled: the decoder of
    this environment knows the objects below by name and rejects every
    other text.  The rest of it is the reference environment. *)

Module Feed.

Definition frames : gmap string GoValue :=
  {[ "HELLO" := VMap Ref.hello;
     "AUTH" := VMap Ref.authRequired;
     "AUTH-OK" := VMap {[ "type" := VString "authSuccess" ]};
     "FULL" := VMap Sample.full;
     "DELTA" := VMap Sample.delta;
     "PING" := VMap {[ "type" := VString "ping" ]};
     "UNTYPED" := VMap {[ "status" := VMap ∅ ]};
     "TYPE-5" := VMap {[ "type" := VInt 5 ]};
     "ARRAY" := VSlice [VInt 1] ]}.

Definition env : Externals := {|
  WriteClientMessage := @WriteClientMessage Ref.env;
  conn_Close := @conn_Close Ref.env;
  pbkdf2_Key := @pbkdf2_Key Ref.env;
  sha256sum := @sha256sum Ref.env;
  hmac_sha256 := @hmac_sha256 Ref.env;
  json_Marshal := @json_Marshal Ref.env;
  json_Unmarshal s := frames !! s;
  ParseFloat := @ParseFloat Ref.env;
  Sprint_rest := @Sprint_rest Ref.env;
  propertyMap := @propertyMap Ref.env;
  PostProcess := @PostProcess Ref.env;
|}.

End Feed.

(** A serialiser that emits the JSON text of the messages of the fragment
    and rejects every other value.  The rest is the reference
    environment. *)

Module Wire.

Definition env : Externals := {|
  WriteClientMessage := @WriteClientMessage Ref.env;
  conn_Close := @conn_Close Ref.env;
  pbkdf2_Key := @pbkdf2_Key Ref.env;
  sha256sum := @sha256sum Ref.env;
  hmac_sha256 := @hmac_sha256 Ref.env;
  json_Marshal v :=
    match v with
    | VMap message =>
        if encodable message then Some (JSON.print (json_view message)) else None
    | _ => None
    end;
  json_Unmarshal := @json_Unmarshal Ref.env;
  ParseFloat := @ParseFloat Ref.env;
  Sprint_rest := @Sprint_rest Ref.env;
  propertyMap := @propertyMap Ref.env;
  PostProcess := @PostProcess Ref.env;
|}.

End Wire.

(** * Properties *)

(** ** The library models on small inputs *)

Example Atoi_accepts :
  strconv.Atoi "6" = Some 6 /\ strconv.Atoi "+17" = Some 17 /\ strconv.Atoi "-0" = Some 0 /\
  strconv.Atoi "-9223372036854775808" = Some (- 9223372036854775808).
Proof. repeat split; vm_compute; reflexivity. Qed.

Example Atoi_rejects :
  strconv.Atoi "" = None /\ strconv.Atoi "-" = None /\ strconv.Atoi "6.0" = None /\
  strconv.Atoi "1e3" = None /\ strconv.Atoi "9223372036854775808" = None.
Proof. repeat split; vm_compute; reflexivity. Qed.

Example ParseBool_spellings :
  strconv.ParseBool "true" = Some true /\ strconv.ParseBool "F" = Some false /\
  strconv.ParseBool "yes" = None /\ strconv.ParseBool "tRuE" = None.
Proof. repeat split; vm_compute; reflexivity. Qed.

Example EncodeToString_bytes : hex.EncodeToString "J!" = "4a21".
Proof. reflexivity. Qed.

Example base64_vectors :
  base64.EncodeToString "Man" = "TWFu" /\ base64.EncodeToString "Ma" = "TWE=" /\
  base64.EncodeToString "M" = "TQ==" /\ base64.EncodeToString "light work." = "bGlnaHQgd29yay4=".
Proof. repeat split; vm_compute; reflexivity. Qed.

Example short_integral_6 :
  short_integral 6%float = Some "6" /\ short_integral 6.5%float = None /\
  short_integral 1000000%float = None.
Proof. repeat split; vm_compute; reflexivity. Qed.

Example wrap_int64_edges :
  wrap_int64 (0 + 1) = 1 /\ wrap_int64 (strconv.maxInt + 1) = strconv.minInt.
Proof. split; vm_compute; reflexivity. Qed.

(** ** Reading maps *)

Section MapReads.

Lemma hasKey_true {V : Type} (m : gmap string V) (k : string) (v : V) :
  m !! k = Some v -> hasKey m k = true.
Proof. intros Hk. unfold hasKey. rewrite Hk. apply bool_decide_eq_true. eauto. Qed.

Lemma hasKey_false {V : Type} (m : gmap string V) (k : string) :
  m !! k = None -> hasKey m k = false.
Proof.
  intros Hk. unfold hasKey. rewrite Hk. apply bool_decide_eq_false.
  intros [v Hv]. discriminate.
Qed.

Lemma hasKey_spec {V : Type} (m : gmap string V) (k : string) :
  hasKey m k = true <-> is_Some (m !! k).
Proof. unfold hasKey. apply bool_decide_eq_true. Qed.

Lemma index_Some (m : gmap string GoValue) (k : string) (v : GoValue) :
  m !! k = Some v -> index m k = v.
Proof. intros Hk. unfold index. by rewrite Hk. Qed.

End MapReads.

(** Reads of a map built by inserts and deletes are settled key by key. *)
Ltac read_maps :=
  unfold index, hasKey;
  rewrite ?lookup_insert, ?lookup_delete, ?lookup_empty;
  simpl.


(** ** Reading traces *)

Section Traces.

Lemma deliveries_app (ch : Chan) (t1 t2 : list Event) :
  deliveries ch (t1 ++ t2) = (deliveries ch t1 ++ deliveries ch t2)%list.
Proof. apply omap_app. Qed.

Lemma deliveries_cons (ch : Chan) (e : Event) (t : list Event) :
  deliveries ch (e :: t)
    = match delivered ch e with Some v => v :: deliveries ch t | None => deliveries ch t end.
Proof. reflexivity. Qed.

Lemma deliveries_nil (ch : Chan) : deliveries ch [] = [].
Proof. reflexivity. Qed.

Lemma deliveries_publishes (ch : Chan) (kvs : list (string * GoValue)) :
  deliveries ch (map (fun kv => EvPublish kv.1 kv.2) kvs) = [].
Proof. induction kvs as [|kv kvs IH]; [reflexivity|]. by rewrite map_cons, deliveries_cons. Qed.

Lemma frames_written_app (t1 t2 : list Event) :
  frames_written (t1 ++ t2) = (frames_written t1 ++ frames_written t2)%list.
Proof. apply omap_app. Qed.

Lemma frames_written_cons (e : Event) (t : list Event) :
  frames_written (e :: t)
    = match written e with Some d => d :: frames_written t | None => frames_written t end.
Proof. reflexivity. Qed.

Lemma frames_written_nil : frames_written [] = [].
Proof. reflexivity. Qed.

Lemma frames_written_publishes (kvs : list (string * GoValue)) :
  frames_written (map (fun kv => EvPublish kv.1 kv.2) kvs) = [].
Proof.
  induction kvs as [|kv kvs IH]; [reflexivity|]. by rewrite map_cons, frames_written_cons.
Qed.

End Traces.

#[local] Opaque deliveries frames_written.

(** Splits a trace into its events and keeps the ones asked for. *)
Ltac read_trace :=
  repeat first
    [ rewrite deliveries_app | rewrite frames_written_app
    | rewrite deliveries_publishes | rewrite frames_written_publishes
    | rewrite deliveries_cons | rewrite frames_written_cons
    | rewrite deliveries_nil | rewrite frames_written_nil ];
  simpl; rewrite ?app_nil_r.

(** Runs the monadic plumbing of a handler as far as its inputs allow. *)
Ltac run :=
  repeat (unfold mbind, mret, Go_bind, Go_ret, log, emit, modify, getW, panic, proceed; simpl).

(** ** The handoffs to [Connect] *)

Lemma send_connected_handoff (m : Machine) (v : bool) :
  connecting m = AwaitConnected ->
  send_connected v m
    = Returned tt
        (mkMachine (set_isConnected v (wp m)) (entropy m) (drawn m) (interrupts m)
           (trace m ++ EvSend ch_connected (VBool v)
                    :: EvLog TraceLevel "Connection is " [VBool v]
                    :: (if v
                        then [EvLog TraceLevel "Connected - waiting for initializiation..." []]
                        else []))
           (if v then AwaitInitialized
            else ConnectReturned (Some (errors_New "could not connect")))).
Proof.
  intros Hc. unfold send_connected. rewrite Hc. unfold Connect_connected. destruct v; run; rewrite <- ?app_assoc; reflexivity.
Qed.

Lemma send_connected_parks (m : Machine) (v : bool) :
  connecting m <> AwaitConnected -> send_connected v m = Parked m.
Proof. intros Hc. unfold send_connected. by destruct (connecting m). Qed.

Lemma send_initialized_handoff (m : Machine) (v : bool) :
  connecting m = AwaitInitialized ->
  send_initialized v m
    = Returned tt
        (mkMachine (wp m) (entropy m) (drawn m) (interrupts m)
           (trace m ++ [EvSend ch_initialized (VBool v);
                        EvLog TraceLevel "Connected - and initializiated" []])
           (ConnectReturned None)).
Proof.
  intros Hc. unfold send_initialized, Connect_initialized. rewrite Hc. run. rewrite <- ?app_assoc. reflexivity.
Qed.

Lemma send_initialized_parks (m : Machine) (v : bool) :
  connecting m <> AwaitInitialized -> send_initialized v m = Parked m.
Proof. intros Hc. unfold send_initialized. by destruct (connecting m). Qed.

(** ** The response handler *)

Section Response.
Context `{!Externals}.

(** C2 -- evaluated on the failing input.  A [response] whose [success]
    field is true, whatever its other fields (in particular with the inner
    type "response" and a [message] payload), leaves the handler at its
    first test: the only effect is the trace-level log line, and nothing
    is offered on [_sendResponse]. *)
Theorem onEventResponse_success_delivers_nothing
  (m : Machine) (message : gmap string GoValue) (payload : string) :
  let received :=
    <["success" := VBool true]>
      (<["type" := VString "response"]> (<["message" := VString payload]> message)) in
  onEventResponse received m
    = Returned tt (emitted m [EvLog TraceLevel "Response on Event " [VString "response"]])
  /\ deliveries ch_sendResponse
       (trace (emitted m [EvLog TraceLevel "Response on Event " [VString "response"]]))
     = deliveries ch_sendResponse (trace m).
Proof.
  intros received. subst received. split.
  - unfold onEventResponse. read_maps. reflexivity.
  - unfold emitted. simpl. by read_trace.
Qed.

(** C3 -- evaluated on the failing input.  A [response] without a
    [success] field makes the second test assert [bool] on a nil
    interface: the handler panics. *)
Theorem onEventResponse_without_success_panics
  (m : Machine) (message : gmap string GoValue) (inner : string) :
  onEventResponse (<["type" := VString inner]> (delete "success" message)) m
    = Panicked "interface conversion: interface {} is not bool".
Proof. unfold onEventResponse. read_maps. reflexivity. Qed.

(** The branch that does hold: [success] false is logged and dropped. *)
Lemma onEventResponse_failure_logged
  (m : Machine) (message : gmap string GoValue) (inner : string) :
  onEventResponse (<["success" := VBool false]> (<["type" := VString inner]> message)) m
    = Returned tt (emitted m [EvLog TraceLevel "Response on Event " [VString inner];
                              EvLog ErrorLevel "Failure happened: " [index message "message"]]).
Proof.
  unfold onEventResponse. read_maps. run. unfold emitted. simpl.
  by rewrite <- app_assoc.
Qed.

(** No input reaches the send on [_sendResponse]. *)
Lemma onEventResponse_never_delivers (m m' : Machine) (message : gmap string GoValue) :
  onEventResponse message m = Returned tt m' ->
  deliveries ch_sendResponse (trace m') = deliveries ch_sendResponse (trace m).
Proof.
  unfold onEventResponse, index, hasKey.
  destruct (message !! "type") as [[]|]; run; try discriminate.
  destruct (message !! "success") as [[|[]| | | | | |]|]; run; try discriminate.
  all: intros [= <-]; simpl; by read_trace.
Qed.

End Response.

(** ** The handshake *)

Section Handshake.
Context `{!Externals}.

Lemma nibble_is_lower_hex (k : nat) : (k < 16)%nat -> hex.is_lower_hex (hex.nibble k) = true.
Proof.
  intros Hk. do 16 (destruct k as [|k]; [reflexivity|]). lia.
Qed.

Lemma length_string_of_list_ascii (l : list ascii) :
  String.length (string_of_list_ascii l) = length l.
Proof. induction l as [|c l IH]; simpl; congruence. Qed.

Lemma drawn_hex_length (m : Machine) (n : nat) : String.length (drawn_hex m n) = n.
Proof.
  unfold drawn_hex. rewrite length_string_of_list_ascii, length_map. apply length_seq.
Qed.

Lemma drawn_hex_is_hex (m : Machine) (n : nat) : is_hex_string (drawn_hex m n) = true.
Proof.
  unfold is_hex_string, drawn_hex. rewrite list_ascii_of_string_of_list_ascii.
  apply forallb_forall. intros c Hc. apply in_map_iff in Hc as [i [<- _]].
  apply nibble_is_lower_hex. apply Nat.mod_upper_bound. lia.
Qed.

Lemma randomHexString_returns (m : Machine) (n : nat) :
  randomHexString n m
    = Returned (drawn_hex m n)
        (mkMachine (wp m) (entropy m) (drawn m + n) (interrupts m) (trace m) (connecting m)).
Proof. reflexivity. Qed.

Lemma encode_length (src : list Z) : (length src <= length (base64.encode src))%nat.
Proof.
  assert (Hall : forall n (l : list Z),
             (length l < n)%nat -> (length l <= length (base64.encode l))%nat).
  { induction n as [|n IH]; intros l Hl; [lia|].
    destruct l as [|b0 [|b1 [|b2 rest]]]; simpl in *; try lia.
    specialize (IH rest). lia. }
  apply (Hall (S (length src))). lia.
Qed.

(** The base64 text is at least as long as the bytes it encodes. *)
Lemma base64_length (src : string) :
  (String.length src <= String.length (base64.EncodeToString src))%nat.
Proof.
  unfold base64.EncodeToString. rewrite length_string_of_list_ascii.
  etransitivity; [|apply encode_length].
  rewrite length_map. clear. induction src as [|c rest IH]; simpl; lia.
Qed.

Lemma substring_prefix_length (n : nat) (s : string) :
  (n <= String.length s)%nat -> String.length (substring 0 n s) = n.
Proof.
  revert s. induction n as [|n IH]; intros s Hn.
  - by destruct s.
  - destruct s as [|c rest]; simpl in *; [lia|]. rewrite IH; [done|lia].
Qed.

Lemma slice_to_returns (s : string) (n : nat) (m : Machine) :
  (n <= String.length s)%nat -> slice_to s n m = Returned (substring 0 n s) m.
Proof. intros Hn. unfold slice_to. apply Nat.leb_le in Hn. by rewrite Hn. Qed.

Lemma slice_to_panics (s : string) (n : nat) (m : Machine) :
  (String.length s < n)%nat -> slice_to s n m = Panicked "slice bounds out of range".
Proof. intros Hn. unfold slice_to. apply Nat.leb_gt in Hn. by rewrite Hn. Qed.


#[local] Opaque randomHexString drawn_hex marshal_bytes substring slice_to.

Lemma auth_message_as_built (key token1 token2 token3 : string) :
  <["hash" := VString (authHash key token1 token2 token3)]>
    (<["token3" := VString token3]> (<["type" := VString "auth"]> ∅))
  = auth_message key token1 token2 token3.
Proof.
  unfold auth_message. apply map_eq. intros k.
  rewrite !lookup_insert, lookup_singleton. repeat case_decide; subst; done.
Qed.

(** What [onEventAuthRequired] does on a machine with a live connection. *)
Lemma onEventAuthRequired_returns
  (m : Machine) (message : gmap string GoValue) (token1 token2 : string) (conn : Conn) :
  message !! "token1" = Some (VString token1) ->
  message !! "token2" = Some (VString token2) ->
  _currentConnection (wp m) = Some conn ->
  let token3 := drawn_hex m 32 in
  let frame :=
    marshal_bytes (VMap (auth_message (_hashedpassword (wp m)) token1 token2 token3)) in
  onEventAuthRequired message m
    = Returned tt
        (mkMachine
           (set_isInitialized (bool_decide (WriteClientMessage conn frame ≠ None))
              (set_token3 token3 (wp m)))
           (entropy m) (drawn m + 32) (interrupts m)
           (trace m ++ [EvLog InfoLevel "Auhtentication required" [];
                        EvLog TraceLevel "Sending data to wattpilot: "
                          [VNil; VString " secured: "; VBool false];
                        EvWrite conn frame])
           (connecting m)).
Proof.
  intros Ht1 Ht2 Hconn token3 frame.
  unfold onEventAuthRequired.
  rewrite (index_Some _ _ _ Ht1), (index_Some _ _ _ Ht2).
  destruct m as [w ent dr ints tr cn]. destruct w. simpl in *. subst.
  run. rewrite randomHexString_returns. run.
  unfold onSendResponse. read_maps. run.
  subst frame token3. rewrite <- !auth_message_as_built. unfold authHash.
  rewrite <- !app_assoc. reflexivity.
Qed.

(** [onEventHello] on a well-formed [hello]: it returns, and the session
    key is the spec's formula of the password and the serial. *)
Lemma onEventHello_returns (m : Machine) (message : gmap string GoValue) (serial : string) :
  well_formed_hello message = true ->
  message !! "serial" = Some (VString serial) ->
  String.length (pbkdf2_Key (_password (wp m)) serial 100000 256) = 256%nat ->
  exists m',
    onEventHello message m = Returned tt m' /\
    _hashedpassword (wp m') = sessionKey (_password (wp m)) serial /\
    String.length (sessionKey (_password (wp m)) serial) = 32%nat /\
    _serial (wp m') = serial /\
    _password (wp m') = _password (wp m) /\
    _isInitialized (wp m') = _isInitialized (wp m) /\
    frames_written (trace m') = frames_written (trace m).
Proof.
  intros Hwf Hserial Hbytes.
  assert (Hlen : (32 <= String.length
                   (base64.EncodeToString
                      (pbkdf2_Key (_password (wp m)) serial 100000 256)))%nat).
  { pose proof (base64_length (pbkdf2_Key (_password (wp m)) serial 100000 256)). lia. }
  clear Hbytes.
  pose proof (substring_prefix_length 32 _ Hlen) as Hkeylen.
  unfold well_formed_hello, index in Hwf. rewrite Hserial in Hwf.
  unfold onEventHello, hasKey, index. rewrite Hserial.
  destruct m as [w ent dr ints tr cn]. destruct w. simpl in Hlen, Hkeylen.
  destruct (message !! "hostname") as [[]|]; simpl in Hwf; try discriminate;
  destruct (message !! "friendly_name") as [[]|]; simpl in Hwf; try discriminate;
  destruct (message !! "version") as [[]|]; simpl in Hwf; try discriminate;
  destruct (message !! "manufacturer") as [[]|]; simpl in Hwf; try discriminate;
  destruct (message !! "devicetype") as [[]|]; simpl in Hwf; try discriminate;
  destruct (message !! "protocol") as [[]|]; simpl in Hwf; try discriminate;
  destruct (message !! "secured") as [[]|]; simpl in Hwf; try discriminate;
  run; rewrite (slice_to_returns _ _ _ Hlen); run;
  (eexists; split; [reflexivity|]); simpl; unfold sessionKey; read_trace; auto 10.
Qed.

(** A [hello] that misses a required field, or carries a field of the
    wrong type, panics the receive goroutine instead. *)
Lemma onEventHello_malformed_panics (m : Machine) (message : gmap string GoValue) :
  well_formed_hello message = false ->
  exists why, onEventHello message m = Panicked why.
Proof.
  intros Hwf.
  unfold well_formed_hello, index in Hwf.
  unfold onEventHello, hasKey, index.
  destruct m as [w ent dr ints tr cn]. destruct w.
  destruct (message !! "hostname") as [[]|]; simpl in Hwf; run; eauto;
  destruct (message !! "friendly_name") as [[]|]; simpl in Hwf; run; eauto;
  destruct (message !! "serial") as [[]|]; simpl in Hwf; run; eauto;
  destruct (message !! "version") as [[]|]; simpl in Hwf; run; eauto;
  destruct (message !! "manufacturer") as [[]|]; simpl in Hwf; run; eauto;
  destruct (message !! "devicetype") as [[]|]; simpl in Hwf; run; eauto;
  destruct (message !! "protocol") as [[]|]; simpl in Hwf; run; eauto;
  destruct (message !! "secured") as [[]|]; simpl in Hwf; run; eauto;
  discriminate.
Qed.

(** Whenever [onEventHello] returns at all, the key it stored is the
    spec's formula of the password and the serial it received. *)
Lemma onEventHello_key (m m' : Machine) (message : gmap string GoValue) (serial : string) :
  message !! "serial" = Some (VString serial) ->
  onEventHello message m = Returned tt m' ->
  _hashedpassword (wp m') = sessionKey (_password (wp m)) serial /\
  _isInitialized (wp m') = _isInitialized (wp m).
Proof.
  intros Hserial.
  unfold onEventHello, hasKey, index. rewrite Hserial.
  destruct m as [w ent dr ints tr cn]. destruct w.
  destruct (message !! "hostname") as [[]|]; run; try discriminate;
  destruct (message !! "friendly_name") as [[]|]; run; try discriminate;
  destruct (message !! "version") as [[]|]; run; try discriminate;
  destruct (message !! "manufacturer") as [[]|]; run; try discriminate;
  destruct (message !! "devicetype") as [[]|]; run; try discriminate;
  destruct (message !! "protocol") as [[]|]; run; try discriminate;
  destruct (message !! "secured") as [[]|]; run; try discriminate;
  (destruct (le_lt_dec 32 (String.length
     (base64.EncodeToString (pbkdf2_Key _password0 serial 100000 256)))) as [Hlen|Hlen];
   [ rewrite (slice_to_returns _ _ _ Hlen); run; by intros [= <-]
   | rewrite (slice_to_panics _ _ _ Hlen); discriminate ]).
Qed.

(** C1.  On a well-formed [hello] carrying the serial, the session key
    becomes the first 32 characters of the base64 text of
    PBKDF2(password, serial, 100000 iterations, 256 bytes, SHA-512), the
    PBKDF2 output being the 256 bytes asked for.  On a
    following [authRequired] with [token1] and [token2], the client draws a
    nonce [token3] of 32 lowercase hexadecimal characters and hands exactly
    one frame to the transport, the serialisation of
    [{type: "auth", token3, hash}] with
    [hash = sha256sum(token3 + token2 + sha256sum(token1 + sessionKey))].
    Both outputs are functions of (password, serial) and of (session key,
    token1, token2, token3) alone: any other run on the same values, from
    whatever state, yields the same key and the same frame. *)
Theorem handshake_cryptography
  (m : Machine) (hello : gmap string GoValue) (serial : string)
  (m2 : Machine) (authRequired : gmap string GoValue) (token1 token2 : string) (conn : Conn) :
  well_formed_hello hello = true ->
  hello !! "serial" = Some (VString serial) ->
  String.length (pbkdf2_Key (_password (wp m)) serial 100000 256) = 256%nat ->
  authRequired !! "token1" = Some (VString token1) ->
  authRequired !! "token2" = Some (VString token2) ->
  _currentConnection (wp m2) = Some conn ->
  exists m1 m3,
    onEventHello hello m = Returned tt m1 /\
    _hashedpassword (wp m1) = sessionKey (_password (wp m)) serial /\
    String.length (_hashedpassword (wp m1)) = 32%nat /\
    onEventAuthRequired authRequired m2 = Returned tt m3 /\
    String.length (_token3 (wp m3)) = 32%nat /\
    is_hex_string (_token3 (wp m3)) = true /\
    frames_written (trace m3)
      = (frames_written (trace m2)
         ++ [marshal_bytes (VMap (auth_message (_hashedpassword (wp m2)) token1 token2
                                               (_token3 (wp m3))))])%list /\
    (forall (mB m1B : Machine) (helloB : gmap string GoValue),
        _password (wp mB) = _password (wp m) ->
        helloB !! "serial" = Some (VString serial) ->
        onEventHello helloB mB = Returned tt m1B ->
        _hashedpassword (wp m1B) = _hashedpassword (wp m1)) /\
    (forall (m2B m3B : Machine) (authRequiredB : gmap string GoValue) (connB : Conn),
        _hashedpassword (wp m2B) = _hashedpassword (wp m2) ->
        authRequiredB !! "token1" = Some (VString token1) ->
        authRequiredB !! "token2" = Some (VString token2) ->
        _currentConnection (wp m2B) = Some connB ->
        onEventAuthRequired authRequiredB m2B = Returned tt m3B ->
        _token3 (wp m3B) = _token3 (wp m3) ->
        frames_written (trace m3B)
          = (frames_written (trace m2B)
             ++ [marshal_bytes (VMap (auth_message (_hashedpassword (wp m2)) token1 token2
                                                   (_token3 (wp m3))))])%list).
Proof.
  intros Hwf Hserial Hlen Ht1 Ht2 Hconn.
  destruct (onEventHello_returns m hello serial Hwf Hserial Hlen)
    as (m1 & Hrun1 & Hkey & Hkeylen & _).
  pose proof (onEventAuthRequired_returns m2 authRequired token1 token2 conn Ht1 Ht2 Hconn)
    as Hrun3.
  simpl in Hrun3.
  eexists m1, _. split; [exact Hrun1|]. split; [exact Hkey|].
  split; [by rewrite Hkey|]. split; [exact Hrun3|].
  assert (Htok : forall w b t, _token3 (set_isInitialized b (set_token3 t w)) = t)
    by (by intros []).
  simpl. rewrite Htok.
  split; [apply drawn_hex_length|]. split; [apply drawn_hex_is_hex|].
  assert (Hframes : forall t f c,
             frames_written (t ++ [EvLog InfoLevel "Auhtentication required" [];
                                   EvLog TraceLevel "Sending data to wattpilot: "
                                     [VNil; VString " secured: "; VBool false];
                                   EvWrite c f])%list
             = (frames_written t ++ [f])%list).
  { intros t f c. by read_trace. }
  split; [apply Hframes|]. split.
  - intros mB m1B helloB Hpw HserialB HrunB.
    rewrite (proj1 (onEventHello_key _ _ _ _ HserialB HrunB)). by rewrite Hpw, Hkey.
  - intros m2B m3B authRequiredB connB HkeyB Ht1B Ht2B HconnB HrunB Hsame.
    rewrite (onEventAuthRequired_returns m2B authRequiredB token1 token2 connB
               Ht1B Ht2B HconnB) in HrunB.
    injection HrunB as <-. simpl in *. rewrite Htok in Hsame. rewrite Hsame, HkeyB.
    apply Hframes.
Qed.

End Handshake.

(** The handshake on the reference session: password "secret", serial
    "S1", tokens "t1" and "t2". *)
Lemma handshake_cryptography_witness :
  exists m1 m3,
    onEventHello Ref.hello (Ref.machine (New "wattpilot.local" "secret")) = Returned tt m1 /\
    _hashedpassword (wp m1) = "c2VjcmV0JFMxJC4uLi4uLi4uLi4uLi4u" /\
    onEventAuthRequired Ref.authRequired (Ref.machine Ref.connected) = Returned tt m3 /\
    _token3 (wp m3) = "3a18f6d4b2907e5c3a18f6d4b2907e5c" /\
    frames_written (trace m3)
      = [marshal_bytes
           (VMap (auth_message "KEY" "t1" "t2" "3a18f6d4b2907e5c3a18f6d4b2907e5c"))].
Proof.
  destruct (handshake_cryptography
              (Ref.machine (New "wattpilot.local" "secret")) Ref.hello "S1"
              (Ref.machine Ref.connected) Ref.authRequired "t1" "t2" (mkConn 3))
    as (m1 & m3 & H1 & H2 & _ & H3 & H4 & H5 & H6 & _).
  - vm_compute. reflexivity.
  - vm_compute. reflexivity.
  - vm_compute. reflexivity.
  - vm_compute. reflexivity.
  - vm_compute. reflexivity.
  - vm_compute. reflexivity.
  - exists m1, m3. split; [exact H1|]. split.
    + rewrite H2. vm_compute. reflexivity.
    + split; [exact H3|].
      assert (Htok : _token3 (wp m3) = "3a18f6d4b2907e5c3a18f6d4b2907e5c").
      { assert (Hm3 : Returned tt m3
                      = onEventAuthRequired Ref.authRequired (Ref.machine Ref.connected))
          by (symmetry; exact H3).
        vm_compute in Hm3. injection Hm3 as ->. reflexivity. }
      split; [exact Htok|]. rewrite H6, Htok. reflexivity.
Defined.

(** ** The status store *)

Section Status.
Context `{!Externals}.

Lemma set_status_twice (s1 s2 : gmap string GoValue) (w : Wattpilot) :
  set_status s2 (set_status s1 w) = set_status s2 w.
Proof. by destruct w. Qed.

Lemma status_set_status (s : gmap string GoValue) (w : Wattpilot) :
  _status (set_status s w) = s.
Proof. by destruct w. Qed.

Lemma set_status_same (w : Wattpilot) : set_status (_status w) w = w.
Proof. by destruct w. Qed.

(** The [range] loop writes the entries one by one and starts one publish
    per entry. *)
Lemma range_statusUpdates_returns (kvs : list (string * GoValue)) (m : Machine) :
  range_statusUpdates kvs m
    = Returned tt
        (mkMachine
           (set_status (foldl (fun st kv => <[kv.1 := kv.2]> st) (_status (wp m)) kvs) (wp m))
           (entropy m) (drawn m) (interrupts m)
           (trace m ++ map (fun kv => EvPublish kv.1 kv.2) kvs)
           (connecting m)).
Proof.
  revert m. induction kvs as [|[k v] kvs IH]; intros m.
  - simpl. rewrite app_nil_r, set_status_same. by destruct m.
  - simpl. run. rewrite IH. simpl.
    rewrite set_status_twice, status_set_status, <- app_assoc. reflexivity.
Qed.

Lemma foldl_insert_lookup (kvs : list (string * GoValue)) (st : gmap string GoValue)
  (k : string) :
  NoDup kvs.*1 ->
  foldl (fun st kv => <[kv.1 := kv.2]> st) st kvs !! k
    = match (list_to_map kvs : gmap string GoValue) !! k with
      | Some v => Some v
      | None => st !! k
      end.
Proof.
  revert st. induction kvs as [|[k0 v0] kvs IH]; intros st Hnd; simpl.
  - by rewrite lookup_empty.
  - apply NoDup_cons in Hnd as [Hnotin Hnd]. rewrite (IH _ Hnd).
    destruct (decide (k0 = k)) as [->|Hne].
    + rewrite (not_elem_of_list_to_map_1 _ _ Hnotin). by rewrite !lookup_insert_eq.
    + by rewrite !lookup_insert_ne.
Qed.

(** Writing a batch entry by entry is the left-biased union of the batch
    with the store: the batch wins on its keys, the rest is kept. *)
Lemma merge_is_union (updates st : gmap string GoValue) :
  foldl (fun st kv => <[kv.1 := kv.2]> st) st (map_to_list updates) = updates ∪ st.
Proof.
  apply map_eq. intros k.
  rewrite foldl_insert_lookup by apply NoDup_fst_map_to_list.
  rewrite list_to_map_to_list, lookup_union.
  destruct (updates !! k), (st !! k); reflexivity.
Qed.

Lemma updateStatus_returns (m : Machine) (message updates : gmap string GoValue) :
  message !! "status" = Some (VMap updates) ->
  updateStatus message m
    = Returned tt
        (mkMachine (set_status (updates ∪ _status (wp m)) (wp m))
           (entropy m) (drawn m) (interrupts m)
           (trace m
            ++ EvLog TraceLevel "Data-status gets updates #" [VInt (Z.of_nat (size updates))]
            :: map (fun kv => EvPublish kv.1 kv.2) (map_to_list updates))
           (connecting m)).
Proof.
  intros Hst. unfold updateStatus. rewrite (index_Some _ _ _ Hst). run.
  rewrite range_statusUpdates_returns. simpl.
  rewrite merge_is_union, <- app_assoc. reflexivity.
Qed.

(** Once a batch that contains [p] was merged, [p] is in the store. *)
Lemma updateStatus_observes
  (m m' : Machine) (message updates : gmap string GoValue) (p : string) (v : GoValue) :
  message !! "status" = Some (VMap updates) ->
  updates !! p = Some v ->
  updateStatus message m = Returned tt m' ->
  _status (wp m') !! p = Some v.
Proof.
  intros Hst Hp. rewrite (updateStatus_returns _ _ _ Hst). intros [= <-]. simpl.
  rewrite status_set_status. by apply lookup_union_Some_l.
Qed.

End Status.

(** ** The initialized flag *)

Section Initialized.
Context `{!Externals}.

Lemma isInitialized_set_status (s : gmap string GoValue) (w : Wattpilot) :
  _isInitialized (set_status s w) = _isInitialized w.
Proof. by destruct w. Qed.

Lemma isInitialized_set_isInitialized (b : bool) (w : Wattpilot) :
  _isInitialized (set_isInitialized b w) = b.
Proof. by destruct w. Qed.

(** The transition the spec describes: a [fullStatus] with [partial]
    false, on a session not yet initialized, merges the batch, signals
    the waiter and sets the flag. *)
Lemma onEventFullStatus_initializes (m : Machine) (message updates : gmap string GoValue) :
  message !! "partial" = Some (VBool false) ->
  message !! "status" = Some (VMap updates) ->
  _isInitialized (wp m) = false ->
  connecting m = AwaitInitialized ->
  exists m',
    onEventFullStatus message m = Returned tt m' /\
    _isInitialized (wp m') = true /\
    _status (wp m') = updates ∪ _status (wp m) /\
    deliveries ch_initialized (trace m')
      = (deliveries ch_initialized (trace m) ++ [VBool true])%list /\
    connecting m' = ConnectReturned None.
Proof.
  intros Hp Hst Hinit Hwait. unfold onEventFullStatus.
  rewrite (index_Some _ _ _ Hp). run.
  rewrite (updateStatus_returns _ _ _ Hst). unfold IsInitialized. simpl.
  rewrite isInitialized_set_status, Hinit. run.
  rewrite send_initialized_handoff by exact Hwait. run.
  eexists. split; [reflexivity|]. simpl.
  rewrite isInitialized_set_isInitialized. split; [done|]. split; [|split; [|done]].
  - by destruct (wp m).
  - by read_trace.
Qed.

(** With no call of [Connect] in its second receive, the same frame
    leaves the receive goroutine blocked in the send: the batch is merged,
    the flag is not set. *)
Lemma onEventFullStatus_parks (m : Machine) (message updates : gmap string GoValue) :
  message !! "partial" = Some (VBool false) ->
  message !! "status" = Some (VMap updates) ->
  _isInitialized (wp m) = false ->
  connecting m <> AwaitInitialized ->
  exists m',
    onEventFullStatus message m = Parked m' /\
    _isInitialized (wp m') = false /\
    _status (wp m') = updates ∪ _status (wp m) /\
    deliveries ch_initialized (trace m') = deliveries ch_initialized (trace m).
Proof.
  intros Hp Hst Hinit Hwait. unfold onEventFullStatus.
  rewrite (index_Some _ _ _ Hp). run.
  rewrite (updateStatus_returns _ _ _ Hst). unfold IsInitialized. simpl.
  rewrite isInitialized_set_status, Hinit. run.
  rewrite send_initialized_parks by exact Hwait.
  eexists. split; [reflexivity|]. simpl.
  rewrite isInitialized_set_status. split; [done|]. split.
  - by destruct (wp m).
  - by read_trace.
Qed.

(** A [fullStatus] has no other way to change the flag. *)
Lemma onEventFullStatus_flag (m m' : Machine) (message : gmap string GoValue) :
  onEventFullStatus message m = Returned tt m' ->
  _isInitialized (wp m') = _isInitialized (wp m)
  \/ (_isInitialized (wp m) = false /\ _isInitialized (wp m') = true /\
      message !! "partial" = Some (VBool false)).
Proof.
  unfold onEventFullStatus, index.
  destruct (message !! "partial") as [[|p| | | | | |]|] eqn:Hp; run; try discriminate.
  unfold updateStatus, index.
  destruct (message !! "status") as [[| | | | | |updates|]|] eqn:Hst; run; try discriminate.
  rewrite range_statusUpdates_returns. simpl. unfold IsInitialized.
  destruct p; [intros [= <-]; simpl; left; apply isInitialized_set_status|].
  simpl. rewrite isInitialized_set_status.
  destruct (_isInitialized (wp m)) eqn:Hinit; run.
  - intros [= <-]. simpl. left. by rewrite isInitialized_set_status.
  - unfold send_initialized. simpl.
    destruct (connecting m); run; try discriminate.
    intros [= <-]. simpl. right. by rewrite isInitialized_set_isInitialized.
Qed.

Lemma updateStatus_flag (m m' : Machine) (message : gmap string GoValue) :
  updateStatus message m = Returned tt m' ->
  _isInitialized (wp m') = _isInitialized (wp m).
Proof.
  unfold updateStatus, index.
  destruct (message !! "status") as [[| | | | | |updates|]|]; run; try discriminate.
  rewrite range_statusUpdates_returns. intros [= <-]. simpl.
  apply isInitialized_set_status.
Qed.

(** Of the nine handlers, seven never touch the flag. *)
Lemma other_handlers_keep_flag
  (msgType : string) (funcCall : gmap string GoValue -> Go unit)
  (m m' : Machine) (message : gmap string GoValue) :
  _eventHandler msgType = Some funcCall ->
  msgType <> "authRequired" -> msgType <> "fullStatus" ->
  funcCall message m = Returned tt m' ->
  _isInitialized (wp m') = _isInitialized (wp m).
Proof.
  unfold _eventHandler. intros Hh Hna Hnf.
  repeat case_bool_decide; simplify_eq.
  - unfold onEventHello, index. intros Hrun.
    destruct (message !! "serial") as [[| | | | |serial| |]|] eqn:Hs.
    6: { eapply onEventHello_key; [exact Hs|]. unfold onEventHello, index. by rewrite Hs. }
    all: revert Hrun; unfold hasKey;
      destruct m as [w ent dr ints tr cn]; destruct w;
      destruct (message !! "hostname") as [[]|]; run; try discriminate;
      destruct (message !! "friendly_name") as [[]|]; run; discriminate.
  - intros Hrun. revert Hrun. unfold onEventResponse, index, hasKey.
    destruct (message !! "type") as [[]|]; run; try discriminate.
    destruct (message !! "success") as [[|[]| | | | | |]|]; run; try discriminate.
    all: by intros [= <-].
  - unfold onEventAuthSuccess, send_connected. run.
    destruct (connecting m); run; try discriminate. intros [= <-]. simpl. by destruct (wp m).
  - unfold onEventAuthError, send_connected. run.
    destruct (connecting m); run; try discriminate. intros [= <-]. simpl. by destruct (wp m).
  - unfold onEventDeltaStatus. run. intros Hrun.
    by rewrite (updateStatus_flag _ _ _ Hrun).
  - unfold onEventClearInverters. run. by intros [= <-].
  - unfold onEventUpdateInverter. run. by intros [= <-].
Qed.

(** C4 -- evaluated on the failing input.  When the transport rejects the
    [auth] frame, [onEventAuthRequired] stores [err != nil] in the flag: a
    session that was not initialized is marked initialized, although no
    [fullStatus] has been handled. *)
Theorem onEventAuthRequired_failed_send_sets_initialized
  (m : Machine) (message : gmap string GoValue) (token1 token2 : string)
  (conn : Conn) (err : error) :
  message !! "token1" = Some (VString token1) ->
  message !! "token2" = Some (VString token2) ->
  _currentConnection (wp m) = Some conn ->
  _isInitialized (wp m) = false ->
  WriteClientMessage conn
    (marshal_bytes (VMap (auth_message (_hashedpassword (wp m)) token1 token2
                                       (drawn_hex m 32)))) = Some err ->
  exists m',
    onEventAuthRequired message m = Returned tt m' /\
    _isInitialized (wp m') = true /\
    deliveries ch_initialized (trace m') = deliveries ch_initialized (trace m).
Proof.
  intros Ht1 Ht2 Hconn Hinit Hwrite.
  pose proof (onEventAuthRequired_returns m message token1 token2 conn Ht1 Ht2 Hconn) as Hrun.
  simpl in Hrun. rewrite Hwrite in Hrun.
  eexists. split; [exact Hrun|]. simpl. split.
  - by rewrite isInitialized_set_isInitialized.
  - by read_trace.
Qed.

(** When the frame goes out, the same assignment clears the flag. *)
Lemma onEventAuthRequired_sent_clears_initialized
  (m : Machine) (message : gmap string GoValue) (token1 token2 : string) (conn : Conn) :
  message !! "token1" = Some (VString token1) ->
  message !! "token2" = Some (VString token2) ->
  _currentConnection (wp m) = Some conn ->
  WriteClientMessage conn
    (marshal_bytes (VMap (auth_message (_hashedpassword (wp m)) token1 token2
                                       (drawn_hex m 32)))) = None ->
  exists m',
    onEventAuthRequired message m = Returned tt m' /\ _isInitialized (wp m') = false.
Proof.
  intros Ht1 Ht2 Hconn Hwrite.
  pose proof (onEventAuthRequired_returns m message token1 token2 conn Ht1 Ht2 Hconn) as Hrun.
  simpl in Hrun. rewrite Hwrite in Hrun.
  eexists. split; [exact Hrun|]. simpl. by rewrite isInitialized_set_isInitialized.
Qed.

End Initialized.

(** [authRequired] on the reference session whose connection (descriptor
    0) refuses the write. *)
Lemma onEventAuthRequired_failed_send_witness :
  exists m',
    onEventAuthRequired Ref.authRequired
      (Ref.machine (set_currentConnection (Some (mkConn 0)) Ref.connected)) = Returned tt m' /\
    _isInitialized (wp m') = true /\
    deliveries ch_initialized (trace m') = [].
Proof.
  apply (onEventAuthRequired_failed_send_sets_initialized
           (Ref.machine (set_currentConnection (Some (mkConn 0)) Ref.connected))
           Ref.authRequired "t1" "t2" (mkConn 0)
           (errors_New "use of closed network connection"));
    vm_compute; reflexivity.
Defined.

(** ** Teardown *)

Section Teardown.
Context `{!Externals}.

(** The guard of [disconnectImpl]: a session that is not initialized is
    left exactly as it is. *)
Lemma disconnectImpl_not_initialized (m : Machine) :
  _isInitialized (wp m) = false ->
  disconnectImpl m = Returned tt (emitted m [EvLog InfoLevel "Disconnecting..." []]).
Proof. intros Hinit. unfold disconnectImpl. run. by rewrite Hinit. Qed.

Lemma disconnectImpl_initialized (m : Machine) (conn : Conn) :
  _isInitialized (wp m) = true ->
  _currentConnection (wp m) = Some conn ->
  exists m',
    disconnectImpl m = Returned tt m' /\
    _status (wp m') = ∅ /\
    _isConnected (wp m') = false /\
    _isInitialized (wp m') = false /\
    _currentConnection (wp m') = None /\
    _requestId (wp m') = _requestId (wp m) /\
    identity (wp m') = identity (wp m) /\
    interrupts m' = interrupts m.
Proof.
  intros Hinit Hconn. unfold disconnectImpl. run. rewrite Hinit, Hconn. run.
  destruct (conn_Close conn); run; (eexists; split; [reflexivity|]);
    simpl; by destruct (wp m).
Qed.

Lemma disconnectImpl_nil_connection (m : Machine) :
  _isInitialized (wp m) = true ->
  _currentConnection (wp m) = None ->
  disconnectImpl m = Panicked "invalid memory address or nil pointer dereference".
Proof. intros Hinit Hconn. unfold disconnectImpl. run. by rewrite Hinit, Hconn. Qed.

(** What the teardown closes: the connection of the session, once. *)
Lemma disconnectImpl_closes (m m' : Machine) (conn : Conn) :
  _isInitialized (wp m) = true ->
  _currentConnection (wp m) = Some conn ->
  disconnectImpl m = Returned tt m' ->
  closed (trace m') = (closed (trace m) ++ [conn])%list.
Proof.
  intros Hinit Hconn. unfold disconnectImpl. run. rewrite Hinit, Hconn. run.
  destruct (conn_Close conn); run; intros [= <-]; simpl;
    unfold closed; rewrite !omap_app; simpl; by rewrite ?app_nil_r.
Qed.

(** C5, as amended.  On an initialized session with a live connection the
    internal disconnect closes the connection, empties the Status Store,
    clears the connected and initialized flags and leaves the request-id
    counter, the session key and the identity fields as they were.  On a
    session that is not initialized it changes nothing and closes
    nothing. *)
Theorem disconnectImpl_frame (m : Machine) (conn : Conn) :
  (_isInitialized (wp m) = false ->
   exists m',
     disconnectImpl m = Returned tt m' /\ wp m' = wp m /\
     closed (trace m') = closed (trace m)) /\
  (_isInitialized (wp m) = true ->
   _currentConnection (wp m) = Some conn ->
   exists m',
     disconnectImpl m = Returned tt m' /\
     closed (trace m') = (closed (trace m) ++ [conn])%list /\
     _status (wp m') = ∅ /\
     _isConnected (wp m') = false /\
     _isInitialized (wp m') = false /\
     _currentConnection (wp m') = None /\
     _requestId (wp m') = _requestId (wp m) /\
     identity (wp m') = identity (wp m)).
Proof.
  split.
  - intros Hinit. rewrite (disconnectImpl_not_initialized m Hinit).
    eexists. split; [reflexivity|]. split; [reflexivity|]. simpl.
    unfold closed. rewrite omap_app. simpl. by rewrite app_nil_r.
  - intros Hinit Hconn.
    destruct (disconnectImpl_initialized m conn Hinit Hconn)
      as (m' & Hrun & Hst & Hc & Hi & Hcc & Hid & Hident & _).
    exists m'. split; [exact Hrun|].
    split; [exact (disconnectImpl_closes m m' conn Hinit Hconn Hrun)|]. auto 10.
Qed.

End Teardown.

(** Teardown of the initialized reference session, and the guard on the
    one that is still waiting for its full status. *)
Lemma disconnectImpl_frame_witness :
  (exists m', disconnectImpl (Ref.machine Ref.awaiting) = Returned tt m' /\
              wp m' = Ref.awaiting /\
              closed (trace m') = []) /\
  (exists m', disconnectImpl (Ref.machine Ref.ready) = Returned tt m' /\
              closed (trace m') = [mkConn 3] /\
              _status (wp m') = ∅ /\
              _isConnected (wp m') = false /\
              _isInitialized (wp m') = false /\
              _currentConnection (wp m') = None /\
              _requestId (wp m') = 0%Z /\
              identity (wp m') = identity Ref.ready).
Proof.
  split.
  - apply (proj1 (disconnectImpl_frame (Ref.machine Ref.awaiting) (mkConn 3))).
    vm_compute. reflexivity.
  - apply (proj2 (disconnectImpl_frame (Ref.machine Ref.ready) (mkConn 3))).
    + vm_compute. reflexivity.
    + vm_compute. reflexivity.
Defined.

(** C5 as stated fails twice.  After the teardown of the initialized
    reference session the session key is still "KEY" and the serial still
    "S1"; and on the session that is not initialized the store keeps its
    entry and the connected flag stays set. *)
Lemma disconnectImpl_not_torn_down :
  (exists m', disconnectImpl (Ref.machine Ref.ready) = Returned tt m' /\
              _hashedpassword (wp m') = "KEY" /\ _serial (wp m') = "S1" /\
              ~ torn_down Ref.ready (wp m')) /\
  (exists m', disconnectImpl (Ref.machine Ref.awaiting) = Returned tt m' /\
              _status (wp m') !! "amp" = Some (VInt 6) /\ _isConnected (wp m') = true /\
              ~ torn_down Ref.awaiting (wp m')).
Proof.
  split.
  - eexists. split; [vm_compute; reflexivity|]. simpl.
    split; [reflexivity|]. split; [reflexivity|].
    intros (_ & _ & _ & Hkey & _). discriminate Hkey.
  - eexists. split; [vm_compute; reflexivity|]. simpl.
    split; [vm_compute; reflexivity|]. split; [reflexivity|].
    intros (_ & Hc & _). discriminate Hc.
Qed.

(** ** The public [Disconnect] *)

Section PublicDisconnect.
Context `{!Externals}.

Lemma Disconnect_unfold (m : Machine) :
  Disconnect m
    = match disconnectImpl (before_teardown m) with
      | Returned _ m1 => recv_interrupt m1
      | Panicked why => Panicked why
      | Parked m1 => Parked m1
      end.
Proof. reflexivity. Qed.

Lemma disconnectImpl_total (m : Machine) :
  (_isInitialized (wp m) = true -> is_Some (_currentConnection (wp m))) ->
  exists m1,
    disconnectImpl m = Returned tt m1 /\
    _isConnected (wp m1) = (if _isInitialized (wp m) then false else _isConnected (wp m)) /\
    _isInitialized (wp m1) = false /\
    (_isInitialized (wp m) = true -> _status (wp m1) = ∅) /\
    interrupts m1 = interrupts m.
Proof.
  intros Hlive. destruct (_isInitialized (wp m)) eqn:Hinit.
  - destruct (Hlive eq_refl) as [conn Hconn].
    destruct (disconnectImpl_initialized m conn Hinit Hconn)
      as (m1 & Hrun & Hst & Hc & Hi & _ & _ & _ & Hints).
    exists m1. auto 10.
  - rewrite (disconnectImpl_not_initialized m Hinit). eexists. split; [reflexivity|].
    simpl. split; [done|]. split; [done|]. split; [discriminate|done].
Qed.

(** Whatever the state, a return of [Disconnect] took a value from the
    interrupt channel. *)
Lemma Disconnect_return_consumes (m m' : Machine) :
  Disconnect m = Returned tt m' ->
  exists rest, interrupts m = tt :: rest /\ interrupts m' = rest.
Proof.
  rewrite Disconnect_unfold.
  destruct (disconnectImpl (before_teardown m)) as [[] m1|why|m1] eqn:Hrun; try discriminate.
  assert (Hints : interrupts m1 = interrupts m).
  { revert Hrun. unfold disconnectImpl. run.
    destruct (_isInitialized (set_isConnected false (wp m))); run.
    - destruct (_currentConnection (set_isConnected false (wp m))); run; [|discriminate].
      destruct (conn_Close c); run; intros [= <-]; reflexivity.
    - intros [= <-]. reflexivity. }
  unfold recv_interrupt. rewrite Hints.
  destruct (interrupts m) as [|[] rest]; [discriminate|].
  intros [= <-]. by exists rest.
Qed.

(** C10, as amended.  Whatever the session, [Disconnect] returns only by
    taking a value from the interrupt channel.  On a session that holds a
    connection whenever it is initialized, [Disconnect] clears the
    connected flag and runs the internal teardown, and then receives from
    the interrupt channel: with no value ready it stays parked on the
    receive, the teardown already done.  On the other sessions the
    teardown panics on the nil connection. *)
Theorem Disconnect_waits_for_interrupt (m : Machine) :
  (forall m', Disconnect m = Returned tt m' ->
              exists rest, interrupts m = tt :: rest /\ interrupts m' = rest) /\
  ((_isInitialized (wp m) = true -> is_Some (_currentConnection (wp m))) ->
   exists m1,
    disconnectImpl (before_teardown m) = Returned tt m1 /\
    _isConnected (wp m1) = false /\
    _isInitialized (wp m1) = false /\
    (_isInitialized (wp m) = true -> _status (wp m1) = ∅) /\
    (interrupts m = [] -> Disconnect m = Parked m1) /\
    (forall rest, interrupts m = tt :: rest ->
                  Disconnect m = Returned tt (with_interrupts rest m1))) /\
  (_isInitialized (wp m) = true -> _currentConnection (wp m) = None ->
   Disconnect m = Panicked "invalid memory address or nil pointer dereference").
Proof.
  split; [intros m'; apply Disconnect_return_consumes|]. split.
  2: { intros Hinit Hconn. rewrite Disconnect_unfold.
       rewrite disconnectImpl_nil_connection; [reflexivity| |];
         simpl; by destruct (wp m); simpl in *. }
  intros Hlive.
  assert (Hpre_init : _isInitialized (wp (before_teardown m)) = _isInitialized (wp m))
    by (simpl; by destruct (wp m)).
  assert (Hpre_conn : _currentConnection (wp (before_teardown m)) = _currentConnection (wp m))
    by (simpl; by destruct (wp m)).
  assert (Hpre_flag : _isConnected (wp (before_teardown m)) = false)
    by (simpl; by destruct (wp m)).
  destruct (disconnectImpl_total (before_teardown m)) as (m1 & Hrun & Hc & Hi & Hst & Hints).
  { rewrite Hpre_init, Hpre_conn. exact Hlive. }
  rewrite Hpre_init in Hst. rewrite Hpre_flag in Hc.
  assert (Hc' : _isConnected (wp m1) = false).
  { rewrite Hc. by destruct (_isInitialized (wp (before_teardown m))). }
  simpl in Hints.
  exists m1. repeat split; auto.
  - intros Hnone. rewrite Disconnect_unfold, Hrun. unfold recv_interrupt.
    by rewrite Hints, Hnone.
  - intros rest Hsome. rewrite Disconnect_unfold, Hrun. unfold recv_interrupt.
    by rewrite Hints, Hsome.
Qed.

End PublicDisconnect.

(** [Disconnect] on the initialized reference session, on which no
    interrupt is pending: parked, after the teardown. *)
Lemma Disconnect_waits_for_interrupt_witness :
  exists m1,
    Disconnect (Ref.machine Ref.ready) = Parked m1 /\
    _isConnected (wp m1) = false /\ _isInitialized (wp m1) = false /\
    _status (wp m1) = ∅.
Proof.
  destruct (proj1 (proj2 (Disconnect_waits_for_interrupt (Ref.machine Ref.ready))))
    as (m1 & _ & Hc & Hi & Hst & Hpark & _).
  - intros _. vm_compute. eauto.
  - exists m1. split; [apply Hpark; reflexivity|]. split; [exact Hc|]. split; [exact Hi|].
    apply Hst. vm_compute. reflexivity.
Defined.

(** ** JSON texts read back

    [JSON.parse] inverts [JSON.print] on the objects of the fragment. *)

Section JsonText.




Lemma escape_char_nonempty (c : ascii) :
  exists d t, JSON.escape_char c = String d t.
Proof. unfold JSON.escape_char. repeat case_match; by eexists _, _. Qed.

























End JsonText.

(** C10 as stated fails on a session that is marked initialized and holds
    no connection: with no interrupt pending [Disconnect] neither returns
    nor waits, it panics in the teardown. *)
Lemma Disconnect_panics_without_connection :
  let m := Ref.machine (set_currentConnection None Ref.ready) in
  interrupts m = [] /\
  Disconnect m = Panicked "invalid memory address or nil pointer dereference" /\
  ~ (exists m1, Disconnect m = Parked m1).
Proof.
  intros m. split; [reflexivity|]. split; [reflexivity|].
  intros [m1 Hparked]. discriminate Hparked.
Qed.

(** ** Outbound messages and the secure envelope *)

Section Envelope.
Context `{!Externals}.



Lemma EncodeToString_length (src : string) :
  String.length (hex.EncodeToString src) = (2 * String.length src)%nat.
Proof. induction src as [|c rest IH]; [reflexivity|]. simpl in *. lia. Qed.

Lemma securedMsg_as_built (key d : string) (id : Z) :
  <["hmac" := VString (hex.EncodeToString (hmac_sha256 key d))]>
    (<["requestId" := VString (Sprintf_d id +:+ "sm")]>
       (<["data" := VString d]> (<["type" := VString "securedMsg"]> ∅)))
  = securedMsg key d id.
Proof.
  unfold securedMsg, Sprintf_d. apply map_eq. intros k.
  rewrite !lookup_insert, lookup_singleton. repeat case_decide; subst; done.
Qed.

Lemma onSendResponse_unsecured (m : Machine) (message : gmap string GoValue) (conn : Conn) :
  _currentConnection (wp m) = Some conn ->
  onSendResponse false message m
    = Returned (WriteClientMessage conn (marshal_bytes (VMap message)))
        (emitted m [EvLog TraceLevel "Sending data to wattpilot: "
                      [index message "requestId"; VString " secured: "; VBool false];
                    EvWrite conn (marshal_bytes (VMap message))]).
Proof.
  intros Hconn. unfold onSendResponse. run. rewrite Hconn. run.
  unfold emitted. by rewrite <- app_assoc.
Qed.

Lemma onSendResponse_secured
  (m : Machine) (message : gmap string GoValue) (id : Z) (conn : Conn) :
  _currentConnection (wp m) = Some conn ->
  message !! "requestId" = Some (VInt64 id) ->
  let frame :=
    marshal_bytes
      (VMap (securedMsg (_hashedpassword (wp m)) (marshal_bytes (VMap message)) id)) in
  onSendResponse true message m
    = Returned (WriteClientMessage conn frame)
        (emitted m [EvLog TraceLevel "Sending data to wattpilot: "
                      [VInt64 id; VString " secured: "; VBool true];
                    EvWrite conn frame]).
Proof.
  intros Hconn Hid frame. unfold onSendResponse.
  rewrite (index_Some _ _ _ Hid). run. rewrite Hconn. run.
  rewrite securedMsg_as_built. unfold emitted. by rewrite <- app_assoc.
Qed.

(** A secured send of a message without an [int64] request id panics
    before anything is written. *)
Lemma onSendResponse_secured_needs_id (m : Machine) (message : gmap string GoValue) :
  message !! "requestId" = None ->
  onSendResponse true message m
    = Panicked "interface conversion: interface {} is not int64".
Proof. intros Hid. unfold onSendResponse, index. rewrite Hid. reflexivity. Qed.



End Envelope.


(** ** Property access *)

Section Facade.
Context `{!Externals}.

Lemma getRequestId_returns (m : Machine) :
  getRequestId m
    = Returned (wrap_int64 (_requestId (wp m) + 1))
        (with_wp (set_requestId (wrap_int64 (_requestId (wp m) + 1)) (wp m)) m).
Proof. reflexivity. Qed.

Lemma setValue_message_as_built (id : Z) (key : string) (value : GoValue) :
  <["value" := value]>
    (<["key" := VString key]>
       (<["requestId" := VInt64 id]> (<["type" := VString "setValue"]> ∅)))
  = setValue_message id key value.
Proof.
  unfold setValue_message. apply map_eq. intros k.
  rewrite !lookup_insert, lookup_singleton. repeat case_decide; subst; done.
Qed.

(** What [sendUpdate] hands to the transport on a device that does not
    ask for secured commands. *)
Lemma sendUpdate_unsecured (m : Machine) (name : string) (value : GoValue) (conn : Conn) :
  _currentConnection (wp m) = Some conn ->
  _secured (wp m) = false ->
  let id := wrap_int64 (_requestId (wp m) + 1) in
  let frame := marshal_bytes (VMap (setValue_message id name (transformValue value))) in
  exists m',
    sendUpdate name value m = Returned (WriteClientMessage conn frame) m' /\
    _requestId (wp m') = id /\
    frames_written (trace m') = (frames_written (trace m) ++ [frame])%list.
Proof.
  intros Hconn Hsec id frame. unfold sendUpdate.
  destruct m as [w ent dr ints tr cn]. destruct w. simpl in *. subst.
  run. fold id. rewrite setValue_message_as_built.
  rewrite (onSendResponse_unsecured _ _ conn) by reflexivity.
  eexists. split; [reflexivity|]. split; [reflexivity|]. simpl. by read_trace.
Qed.

(** On a device that asks for secured commands the same message goes out
    inside the envelope. *)
Lemma sendUpdate_secured (m : Machine) (name : string) (value : GoValue) (conn : Conn) :
  _currentConnection (wp m) = Some conn ->
  _secured (wp m) = true ->
  let id := wrap_int64 (_requestId (wp m) + 1) in
  let inner := setValue_message id name (transformValue value) in
  let frame :=
    marshal_bytes
      (VMap (securedMsg (_hashedpassword (wp m)) (marshal_bytes (VMap inner)) id)) in
  exists m',
    sendUpdate name value m = Returned (WriteClientMessage conn frame) m' /\
    _requestId (wp m') = id /\
    frames_written (trace m') = (frames_written (trace m) ++ [frame])%list.
Proof.
  intros Hconn Hsec id inner frame. unfold sendUpdate.
  destruct m as [w ent dr ints tr cn]. destruct w. simpl in *. subst.
  run. fold id. rewrite setValue_message_as_built.
  rewrite (onSendResponse_secured _ _ id conn) by reflexivity.
  eexists. split; [reflexivity|]. split; [reflexivity|]. simpl. by read_trace.
Qed.

Lemma SetProperty_not_ready (m : Machine) (name : string) (value : GoValue) :
  _isInitialized (wp m) = false ->
  SetProperty name value m
    = Returned (Some NotReady_set)
        (emitted m [EvLog DebugLevel "setting property "
                      [VString name; VString " to "; value]]).
Proof. intros Hinit. unfold SetProperty. run. by rewrite Hinit. Qed.

Lemma SetProperty_not_found (m : Machine) (name : string) (value : GoValue) :
  _isInitialized (wp m) = true ->
  _status (wp m) !! name = None ->
  SetProperty name value m
    = Returned (Some (NotFound_set name))
        (emitted m [EvLog DebugLevel "setting property "
                      [VString name; VString " to "; value]]).
Proof.
  intros Hinit Hname. unfold SetProperty. run.
  by rewrite Hinit, (hasKey_false _ _ Hname).
Qed.

Lemma SetProperty_sends (m : Machine) (name : string) (value old : GoValue) :
  _isInitialized (wp m) = true ->
  _status (wp m) !! name = Some old ->
  SetProperty name value m
    = sendUpdate name value
        (emitted m [EvLog DebugLevel "setting property "
                      [VString name; VString " to "; value]]).
Proof.
  intros Hinit Hname. unfold SetProperty. run.
  by rewrite Hinit, (hasKey_true _ _ _ Hname).
Qed.

(** Write after observe, for a name that is itself the wire key: once a
    merged batch contains [p], a [SetProperty] on [p] reaches the
    transport, and it succeeds when the write does. *)
Lemma SetProperty_after_observe
  (m m1 : Machine) (message updates : gmap string GoValue) (p : string)
  (v value : GoValue) (conn : Conn) :
  message !! "status" = Some (VMap updates) ->
  updates !! p = Some v ->
  updateStatus message m = Returned tt m1 ->
  _isInitialized (wp m1) = true ->
  _currentConnection (wp m1) = Some conn ->
  _secured (wp m1) = false ->
  exists frame m2,
    SetProperty p value m1 = Returned (WriteClientMessage conn frame) m2 /\
    frames_written (trace m2) = (frames_written (trace m1) ++ [frame])%list.
Proof.
  intros Hst Hp Hrun Hinit Hconn Hsec.
  pose proof (updateStatus_observes _ _ _ _ _ _ Hst Hp Hrun) as Hseen.
  rewrite (SetProperty_sends _ _ _ _ Hinit Hseen).
  edestruct (sendUpdate_unsecured
               (emitted m1 [EvLog DebugLevel "setting property "
                              [VString p; VString " to "; value]]) p value conn)
    as (m2 & Hsend & _ & Hframes); [exact Hconn|exact Hsec|].
  eexists _, m2. split; [exact Hsend|]. rewrite Hframes. simpl. by read_trace.
Qed.

(** [GetProperty] in its three outcomes. *)
Lemma GetProperty_returns (m : Machine) (name : string) :
  GetProperty name m
    = Returned
        (if negb (_isInitialized (wp m)) then (VNil, Some NotReady_get)
         else match _status (wp m) !! resolved_key name with
              | None => (VNil, Some (NotFound_get (resolved_key name)))
              | Some v => (post_processed name v, None)
              end)
        (emitted m [EvLog DebugLevel "Get Property " [VString name]]).
Proof.
  unfold GetProperty. run. destruct (_isInitialized (wp m)); [|reflexivity]. simpl.
  unfold resolved_key, post_processed, hasKey, index.
  destruct (PostProcess !! name) as [entry|];
    [destruct (_status (wp m) !! PostProc.key entry)
    |destruct (propertyMap !! name) as [alias|]; simpl;
     [destruct (_status (wp m) !! alias)|destruct (_status (wp m) !! name)]];
    reflexivity.
Qed.

(** C7, as amended.  Before initialization [GetProperty] fails with
    NotReady for every name.  On an initialized session it reads the
    resolved key -- the key of the transform registered for the name, or
    without one the alias of the name -- fails with NotFound when the
    store has no such key, and otherwise returns the stored value with the
    transform registered for the original name applied to it. *)
Theorem GetProperty_outcomes (m : Machine) (name : string) :
  let m' := emitted m [EvLog DebugLevel "Get Property " [VString name]] in
  (_isInitialized (wp m) = false ->
   GetProperty name m = Returned (VNil, Some NotReady_get) m') /\
  (_isInitialized (wp m) = true ->
   _status (wp m) !! resolved_key name = None ->
   GetProperty name m = Returned (VNil, Some (NotFound_get (resolved_key name))) m') /\
  (forall v,
      _isInitialized (wp m) = true ->
      _status (wp m) !! resolved_key name = Some v ->
      GetProperty name m = Returned (post_processed name v, None) m') /\
  (PostProcess !! name = None ->
   resolved_key name = default name (propertyMap !! name) /\
   forall v, post_processed name v = v) /\
  (forall entry,
      PostProcess !! name = Some entry ->
      resolved_key name = PostProc.key entry /\
      forall v, post_processed name v = fst (PostProc.f entry v)).
Proof.
  intros m'. subst m'. rewrite GetProperty_returns.
  split; [|split; [|split; [|split]]].
  - by intros ->.
  - by intros -> ->.
  - by intros v -> ->.
  - intros Hpost. unfold resolved_key, post_processed. by rewrite Hpost.
  - intros entry Hpost. unfold resolved_key, post_processed. by rewrite Hpost.
Qed.

(** C6 -- evaluated on the failing input.  [SetProperty] looks the name up
    in the store as it was given: for an alias whose wire key the device
    has reported, it fails with NotFound and sends nothing, although
    [GetProperty] on the same name resolves the alias and finds the value. *)
Theorem SetProperty_ignores_alias
  (m : Machine) (name key : string) (value observed : GoValue) :
  _isInitialized (wp m) = true ->
  propertyMap !! name = Some key ->
  PostProcess !! name = None ->
  _status (wp m) !! key = Some observed ->
  _status (wp m) !! name = None ->
  (exists m',
      SetProperty name value m = Returned (Some (NotFound_set name)) m' /\
      frames_written (trace m') = frames_written (trace m)) /\
  (exists m',
      GetProperty name m = Returned (observed, None) m').
Proof.
  intros Hinit Halias Hpost Hkey Hname. split.
  - rewrite (SetProperty_not_found m name value Hinit Hname).
    eexists. split; [reflexivity|]. simpl. by read_trace.
  - rewrite GetProperty_returns, Hinit. simpl.
    unfold resolved_key, post_processed. rewrite Hpost, Halias. simpl. rewrite Hkey.
    by eexists.
Qed.

End Facade.

(** [GetProperty] on the reference sessions: not ready, not found, through
    the alias, and through a registered transform. *)
Lemma GetProperty_outcomes_witness :
  (exists m', GetProperty "amp" (Ref.machine Ref.connected)
              = Returned (VNil, Some NotReady_get) m') /\
  (exists m', GetProperty "zzz" (Ref.machine Ref.ready)
              = Returned (VNil, Some (NotFound_get "zzz")) m') /\
  (exists m', GetProperty "chargingCurrent" (Ref.machine Ref.ready)
              = Returned (VInt 6, None) m') /\
  (exists m', GetProperty "voltage1" (Ref.machine Ref.ready)
              = Returned (VInt 230, None) m').
Proof.
  split; [|split; [|split]].
  - eexists. apply (proj1 (GetProperty_outcomes (Ref.machine Ref.connected) "amp")).
    vm_compute. reflexivity.
  - exists (emitted (Ref.machine Ref.ready) [EvLog DebugLevel "Get Property " [VString "zzz"]]).
    rewrite (proj1 (proj2 (GetProperty_outcomes (Ref.machine Ref.ready) "zzz")));
      vm_compute; reflexivity.
  - exists (emitted (Ref.machine Ref.ready)
              [EvLog DebugLevel "Get Property " [VString "chargingCurrent"]]).
    rewrite (proj1 (proj2 (proj2 (GetProperty_outcomes (Ref.machine Ref.ready)
                                    "chargingCurrent"))) (VInt 6));
      vm_compute; reflexivity.
  - exists (emitted (Ref.machine Ref.ready)
              [EvLog DebugLevel "Get Property " [VString "voltage1"]]).
    rewrite (proj1 (proj2 (proj2 (GetProperty_outcomes (Ref.machine Ref.ready)
                                    "voltage1"))) (VSlice [VInt 230; VInt 231]));
      vm_compute; reflexivity.
Defined.

(** C7 as stated fails for a name with a registered transform.  "voltage1"
    has no alias and the store of the initialized reference session has
    no "voltage1": the key resolved through the alias table is absent, and
    yet [GetProperty] does not fail with NotFound -- it reads "nrg", the
    key of the transform, and returns its first element. *)
Lemma GetProperty_reads_transform_key :
  alias_key "voltage1" = "voltage1" /\
  _status Ref.ready !! alias_key "voltage1" = None /\
  (exists m',
      GetProperty "voltage1" (Ref.machine Ref.ready) = Returned (VInt 230, None) m') /\
  ~ (exists m',
      GetProperty "voltage1" (Ref.machine Ref.ready)
        = Returned (VNil, Some (NotFound_get (alias_key "voltage1"))) m').
Proof.
  split; [reflexivity|]. split; [reflexivity|]. split.
  - eexists. vm_compute. reflexivity.
  - intros [m' Hrun]. vm_compute in Hrun. discriminate Hrun.
Qed.

(** The alias "chargingCurrent" of the wire key "amp" on the initialized
    reference session, whose store holds "amp". *)
Lemma SetProperty_ignores_alias_witness :
  (exists m',
      SetProperty "chargingCurrent" (VString "6") (Ref.machine Ref.ready)
        = Returned (Some (NotFound_set "chargingCurrent")) m' /\
      frames_written (trace m') = []) /\
  (exists m',
      GetProperty "chargingCurrent" (Ref.machine Ref.ready) = Returned (VInt 6, None) m').
Proof.
  apply (SetProperty_ignores_alias (Ref.machine Ref.ready) "chargingCurrent" "amp"
           (VString "6") (VInt 6)); vm_compute; reflexivity.
Defined.

(** ** Value coercion *)

Section Coercion.
Context `{!Externals}.

(** On text the code's chain of tests is the spec's priority list. *)
Lemma coercion_chain (in_value : string) :
  wire_of
    match strconv.Atoi in_value with
    | Some out_value => VInt out_value
    | None =>
        match strconv.ParseBool in_value with
        | Some out_value => VBool out_value
        | None =>
            match ParseFloat in_value with
            | Some out_value => VFloat64 out_value
            | None => VString in_value
            end
        end
    end
  = Some (first_applicable wire_coercions in_value).
Proof.
  unfold wire_coercions. simpl.
  destruct (strconv.Atoi in_value); [reflexivity|]. simpl.
  destruct (strconv.ParseBool in_value); [reflexivity|]. simpl.
  destruct (ParseFloat in_value); reflexivity.
Qed.

Lemma transformValue_numeric (value : GoValue) :
  numeric value = true -> transformValue value = value.
Proof. destruct value; simpl; congruence. Qed.

Lemma transformValue_other (value : GoValue) :
  numeric value = false ->
  wire_of (transformValue value) = Some (narrowest_wire_value value).
Proof.
  intros Hnum. unfold narrowest_wire_value.
  destruct value; try discriminate Hnum;
    lazymatch goal with
    | |- wire_of (transformValue ?v) = _ => exact (coercion_chain (Sprint v))
    end.
Qed.

(** The integer test comes first: text that reads as an integer is sent
    as one, whatever the later tests would make of it. *)
Lemma transformValue_integer_first (s : string) (n : Z) :
  strconv.Atoi s = Some n -> transformValue (VString s) = VInt n.
Proof. intros Hn. simpl. by rewrite Hn. Qed.

Lemma transformValue_boolean_second (s : string) (b : bool) :
  strconv.Atoi s = None -> strconv.ParseBool s = Some b ->
  transformValue (VString s) = VBool b.
Proof. intros Hn Hb. simpl. by rewrite Hn, Hb. Qed.

Lemma transformValue_float_third (s : string) (x : float) :
  strconv.Atoi s = None -> strconv.ParseBool s = None -> ParseFloat s = Some x ->
  transformValue (VString s) = VFloat64 x.
Proof. intros Hn Hb Hx. simpl. by rewrite Hn, Hb, Hx. Qed.

Lemma transformValue_string_last (s : string) :
  strconv.Atoi s = None -> strconv.ParseBool s = None -> ParseFloat s = None ->
  transformValue (VString s) = VString s.
Proof. intros Hn Hb Hx. simpl. by rewrite Hn, Hb, Hx. Qed.

(** C8, as amended.  A value that already is a Go [int], [int64] or
    [float64] is sent unchanged (a [float64] stays a float).  Every other
    value is read as text and coerced to the narrowest wire type that
    applies, integer first, else boolean, else float, else string: "6"
    becomes the integer 6 and "true" the boolean true.  The result is what
    [sendUpdate] puts under "value" in the [setValue] command. *)
Theorem transformValue_coercion (value : GoValue) :
  (if numeric value then transformValue value = value
   else wire_of (transformValue value) = Some (narrowest_wire_value value)) /\
  transformValue (VString "6") = VInt 6 /\
  transformValue (VString "true") = VBool true /\
  (forall (m : Machine) (name : string) (conn : Conn),
      _currentConnection (wp m) = Some conn ->
      _secured (wp m) = false ->
      exists m',
        sendUpdate name value m
          = Returned
              (WriteClientMessage conn
                 (marshal_bytes
                    (VMap (setValue_message (wrap_int64 (_requestId (wp m) + 1)) name
                                            (transformValue value))))) m' /\
        frames_written (trace m')
          = (frames_written (trace m)
             ++ [marshal_bytes
                   (VMap (setValue_message (wrap_int64 (_requestId (wp m) + 1)) name
                                           (transformValue value)))])%list).
Proof.
  split; [|split; [|split]].
  - destruct (numeric value) eqn:Hnum.
    + by apply transformValue_numeric.
    + by apply transformValue_other.
  - reflexivity.
  - reflexivity.
  - intros m name conn Hconn Hsec.
    destruct (sendUpdate_unsecured m name value conn Hconn Hsec) as (m' & Hrun & _ & Hframes).
    exists m'. split; [exact Hrun|exact Hframes].
Qed.

End Coercion.

(** [SetProperty("amp", "6")] on the initialized reference session: the
    frame carries the integer 6. *)
Lemma transformValue_coercion_witness :
  exists m',
    sendUpdate "amp" (VString "6") (Ref.machine Ref.ready) = Returned None m' /\
    frames_written (trace m') = [Ref.object (setValue_message 1 "amp" (VInt 6))].
Proof.
  destruct (proj2 (proj2 (proj2 (transformValue_coercion (VString "6"))))
              (Ref.machine Ref.ready) "amp" (mkConn 3)) as (m' & Hrun & Hframes).
  - vm_compute. reflexivity.
  - vm_compute. reflexivity.
  - exists m'. split; [exact Hrun|]. rewrite Hframes. reflexivity.
Defined.

(** C8 as stated fails on a float64 input.  The float 6 reads as "6", so
    the narrowest wire type that applies to it is the integer; the type
    switch of [transformValue] returns it as the float it came in as. *)
Lemma transformValue_keeps_float64 :
  Sprint (VFloat64 6) = "6" /\
  narrowest_wire_value (VFloat64 6) = WInteger 6 /\
  transformValue (VFloat64 6) = VFloat64 6 /\
  wire_of (transformValue (VFloat64 6)) <> Some (narrowest_wire_value (VFloat64 6)).
Proof.
  split; [vm_compute; reflexivity|]. split; [vm_compute; reflexivity|].
  split; [reflexivity|]. vm_compute. discriminate.
Qed.

(** ** The event router *)

Section Router.
Context `{!Externals}.

(** A frame that does not decode is dropped. *)
Lemma receiveHandler_step_undecodable (m : Machine) (msg : string) :
  json_Unmarshal msg = None -> receiveHandler_step msg m = Returned tt m.
Proof. intros Hmsg. unfold receiveHandler_step. by rewrite Hmsg. Qed.

(** So is an object without a [type] field. *)
Lemma receiveHandler_step_untyped (m : Machine) (msg : string) (data : gmap string GoValue) :
  json_Unmarshal msg = Some (VMap data) ->
  data !! "type" = None ->
  receiveHandler_step msg m = Returned tt m.
Proof. intros Hmsg Hty. unfold receiveHandler_step. by rewrite Hmsg, Hty. Qed.

(** A type without a handler is skipped after the trace line. *)
Lemma receiveHandler_step_unknown
  (m : Machine) (msg msgType : string) (data : gmap string GoValue) :
  json_Unmarshal msg = Some (VMap data) ->
  data !! "type" = Some (VString msgType) ->
  _eventHandler msgType = None ->
  receiveHandler_step msg m
    = Returned tt (emitted m [EvLog TraceLevel "receiving " [VString msgType]]).
Proof.
  intros Hmsg Hty Hnone. unfold receiveHandler_step. rewrite Hmsg, Hty. run.
  by rewrite Hnone.
Qed.

(** A known type runs its handler on the decoded object. *)
Lemma receiveHandler_step_dispatch
  (m : Machine) (msg msgType : string) (data : gmap string GoValue)
  (funcCall : gmap string GoValue -> Go unit) :
  json_Unmarshal msg = Some (VMap data) ->
  data !! "type" = Some (VString msgType) ->
  _eventHandler msgType = Some funcCall ->
  receiveHandler_step msg m
    = match funcCall data (emitted m [EvLog TraceLevel "receiving " [VString msgType]]) with
      | Returned _ m' => Returned tt (emitted m' [EvLog TraceLevel "done " [VString msgType]])
      | Panicked why => Panicked why
      | Parked m' => Parked m'
      end.
Proof.
  intros Hmsg Hty Hsome. unfold receiveHandler_step. rewrite Hmsg, Hty. run.
  rewrite Hsome. run. unfold emitted.
  by destruct (funcCall data _) as [[] m'| |].
Qed.

(** The panic of the response handler is a panic of the receive loop:
    a decoded [response] object without [success] takes it down. *)
Lemma receiveHandler_step_response_without_success
  (m : Machine) (msg : string) (data : gmap string GoValue) :
  json_Unmarshal msg = Some (VMap data) ->
  data !! "type" = Some (VString "response") ->
  data !! "success" = None ->
  receiveHandler_step msg m = Panicked "interface conversion: interface {} is not bool".
Proof.
  intros Hmsg Hty Hnone.
  rewrite (receiveHandler_step_dispatch m msg "response" data onEventResponse Hmsg Hty eq_refl).
  unfold onEventResponse, index, hasKey. rewrite Hty, Hnone. reflexivity.
Qed.

End Router.

(** * Further properties of the code *)

#[local] Opaque randomHexString drawn_hex marshal_bytes substring slice_to.

(** ** Merging status batches *)

Section Merging.
Context `{!Externals}.

Lemma publishes_app (t1 t2 : list Event) :
  publishes (t1 ++ t2) = (publishes t1 ++ publishes t2)%list.
Proof. apply omap_app. Qed.

Lemma publishes_of_batch (kvs : list (string * GoValue)) :
  publishes (map (fun kv => EvPublish kv.1 kv.2) kvs) = kvs.
Proof. induction kvs as [|[k v] kvs IH]; [reflexivity|]. simpl. by rewrite IH. Qed.

Lemma updateStatus_publishes (m : Machine) (message updates : gmap string GoValue) :
  message !! "status" = Some (VMap updates) ->
  exists m',
    updateStatus message m = Returned tt m' /\
    _status (wp m') = updates ∪ _status (wp m) /\
    publishes (trace m') = (publishes (trace m) ++ map_to_list updates)%list /\
    frames_written (trace m') = frames_written (trace m).
Proof.
  intros Hst. rewrite (updateStatus_returns _ _ _ Hst). eexists. split; [reflexivity|].
  simpl. split; [apply status_set_status|]. split.
  - rewrite publishes_app. simpl.
    change (omap _ (map _ (map_to_list updates)))
      with (publishes (map (fun kv => EvPublish kv.1 kv.2) (map_to_list updates))).
    by rewrite publishes_of_batch.
  - by read_trace.
Qed.

(** X1.  [updateStatus] is a last-writer-wins merge: every key of the
    batch reads as the batch has it afterwards, every other key as before,
    one notification is started per batch entry, and nothing is sent to
    the device. *)
Theorem updateStatus_last_writer_wins (m : Machine) (message updates : gmap string GoValue) :
  message !! "status" = Some (VMap updates) ->
  exists m',
    updateStatus message m = Returned tt m' /\
    (forall k, _status (wp m') !! k
               = match updates !! k with
                 | Some v => Some v
                 | None => _status (wp m) !! k
                 end) /\
    publishes (trace m') ≡ₚ (publishes (trace m) ++ map_to_list updates)%list /\
    frames_written (trace m') = frames_written (trace m).
Proof.
  intros Hst.
  destruct (updateStatus_publishes m message updates Hst) as (m' & Hrun & Hstore & Hpub & Hfr).
  exists m'. split; [exact Hrun|]. split; [|split; [by rewrite Hpub|exact Hfr]].
  intros k. rewrite Hstore, lookup_union.
  by destruct (updates !! k), (_status (wp m) !! k).
Qed.

(** X2.  Two batches in a row leave the later batch over the earlier one
    over the store; merging the same batch twice gives the store of
    merging it once, with the notifications started twice. *)
Theorem updateStatus_twice
  (m : Machine) (message1 message2 updates1 updates2 : gmap string GoValue) :
  message1 !! "status" = Some (VMap updates1) ->
  message2 !! "status" = Some (VMap updates2) ->
  exists m1 m2,
    updateStatus message1 m = Returned tt m1 /\
    updateStatus message2 m1 = Returned tt m2 /\
    _status (wp m2) = updates2 ∪ (updates1 ∪ _status (wp m)) /\
    (updates1 = updates2 ->
     _status (wp m2) = _status (wp m1) /\
     publishes (trace m2)
       ≡ₚ (publishes (trace m) ++ map_to_list updates1 ++ map_to_list updates1)%list).
Proof.
  intros Hst1 Hst2.
  destruct (updateStatus_publishes m message1 updates1 Hst1) as (m1 & Hrun1 & Hs1 & Hp1 & _).
  destruct (updateStatus_publishes m1 message2 updates2 Hst2) as (m2 & Hrun2 & Hs2 & Hp2 & _).
  exists m1, m2. split; [exact Hrun1|]. split; [exact Hrun2|].
  split; [by rewrite Hs2, Hs1|].
  intros <-. split.
  - rewrite Hs2, Hs1. by rewrite (assoc_L (∪)), (idemp_L (∪)).
  - by rewrite Hp2, Hp1, <- app_assoc.
Qed.

End Merging.

(** The sample [deltaStatus] on the initialized reference session: "amp"
    is overwritten, "car" added, "nrg" kept. *)
Lemma updateStatus_last_writer_wins_witness :
  exists m',
    updateStatus Sample.delta (Ref.machine Ref.ready) = Returned tt m' /\
    _status (wp m') !! "amp" = Some (VInt 16) /\
    _status (wp m') !! "car" = Some (VInt 2) /\
    _status (wp m') !! "nrg" = Some (VSlice [VInt 230; VInt 231]) /\
    frames_written (trace m') = [].
Proof.
  destruct (updateStatus_last_writer_wins (Ref.machine Ref.ready) Sample.delta
              {[ "amp" := VInt 16; "car" := VInt 2 ]}) as (m' & Hrun & Hread & _ & Hfr).
  - vm_compute. reflexivity.
  - exists m'. split; [exact Hrun|].
    rewrite (Hread "amp"), (Hread "car"), (Hread "nrg"), Hfr.
    repeat split; vm_compute; reflexivity.
Defined.

Lemma updateStatus_twice_witness :
  exists m1 m2,
    updateStatus Sample.delta (Ref.machine Ref.ready) = Returned tt m1 /\
    updateStatus Sample.delta m1 = Returned tt m2 /\
    _status (wp m2) = _status (wp m1) /\
    length (publishes (trace m2)) = 4%nat.
Proof.
  destruct (updateStatus_twice (Ref.machine Ref.ready) Sample.delta Sample.delta
              {[ "amp" := VInt 16; "car" := VInt 2 ]} {[ "amp" := VInt 16; "car" := VInt 2 ]})
    as (m1 & m2 & Hrun1 & Hrun2 & _ & Hsame).
  - vm_compute. reflexivity.
  - vm_compute. reflexivity.
  - destruct (Hsame eq_refl) as [Hstore Hpub].
    exists m1, m2. split; [exact Hrun1|]. split; [exact Hrun2|]. split; [exact Hstore|].
    rewrite (Permutation_length Hpub). vm_compute. reflexivity.
Defined.

(** ** Status frames that do not initialize *)

Section StatusFrames.
Context `{!Externals}.

(** X3.  A status frame is not validated before its fields are asserted: a
    [deltaStatus] or [fullStatus] whose [status] is missing or not an
    object, and a [fullStatus] whose [partial] is missing or not a
    boolean, panic the goroutine that handles them. *)
Theorem status_frames_malformed_panic (m : Machine) (message : gmap string GoValue) :
  (is_map (index message "status") = false ->
   (exists why, onEventDeltaStatus message m = Panicked why) /\
   (exists why, onEventFullStatus message m = Panicked why)) /\
  (is_bool (index message "partial") = false ->
   exists why, onEventFullStatus message m = Panicked why).
Proof.
  split.
  - intros Hst. split.
    + unfold onEventDeltaStatus, updateStatus. run.
      destruct (index message "status"); try discriminate Hst; run; eauto.
    + unfold onEventFullStatus, updateStatus. run.
      destruct (index message "partial"); run; eauto.
      destruct (index message "status"); try discriminate Hst; run; eauto.
  - intros Hp. unfold onEventFullStatus. run.
    destruct (index message "partial"); try discriminate Hp; run; eauto.
Qed.

(** X4.  The initialization signal is given at most once: a [fullStatus]
    that is partial, or that arrives on a session already initialized,
    merges its batch like any other and neither sends on [initialized]
    nor changes the flag. *)
Theorem onEventFullStatus_merges_only
  (m : Machine) (message updates : gmap string GoValue) (partial : bool) :
  message !! "partial" = Some (VBool partial) ->
  message !! "status" = Some (VMap updates) ->
  partial || _isInitialized (wp m) = true ->
  exists m',
    onEventFullStatus message m = Returned tt m' /\
    _status (wp m') = updates ∪ _status (wp m) /\
    _isInitialized (wp m') = _isInitialized (wp m) /\
    deliveries ch_initialized (trace m') = deliveries ch_initialized (trace m).
Proof.
  intros Hp Hst Hor. unfold onEventFullStatus.
  rewrite (index_Some _ _ _ Hp). run.
  rewrite (updateStatus_returns _ _ _ Hst). unfold IsInitialized. simpl.
  destruct partial; simpl in Hor.
  - eexists. split; [reflexivity|]. simpl.
    rewrite status_set_status, isInitialized_set_status. split; [done|]. split; [done|].
    by read_trace.
  - simpl. rewrite isInitialized_set_status, Hor.
    eexists. split; [reflexivity|]. simpl.
    rewrite status_set_status, isInitialized_set_status. split; [done|]. split; [done|].
    by read_trace.
Qed.

End StatusFrames.

(** A [deltaStatus] without [status], and a [fullStatus] without [partial]. *)
Lemma status_frames_malformed_panic_witness :
  (exists why, onEventDeltaStatus {[ "type" := VString "deltaStatus" ]}
                 (Ref.machine Ref.ready) = Panicked why) /\
  (exists why, onEventFullStatus (delete "partial" Sample.full)
                 (Ref.machine Ref.ready) = Panicked why).
Proof.
  split.
  - apply (proj1 (status_frames_malformed_panic (Ref.machine Ref.ready)
                    {[ "type" := VString "deltaStatus" ]})).
    vm_compute. reflexivity.
  - apply (proj2 (status_frames_malformed_panic (Ref.machine Ref.ready)
                    (delete "partial" Sample.full))).
    vm_compute. reflexivity.
Defined.

(** The sample [fullStatus] on the reference session that is already
    initialized. *)
Lemma onEventFullStatus_merges_only_witness :
  exists m',
    onEventFullStatus Sample.full (Ref.machine Ref.ready) = Returned tt m' /\
    _isInitialized (wp m') = true /\
    deliveries ch_initialized (trace m') = [].
Proof.
  destruct (onEventFullStatus_merges_only (Ref.machine Ref.ready) Sample.full
              {[ "amp" := VInt 16; "car" := VInt 2 ]} false)
    as (m' & Hrun & _ & Hflag & Hsig).
  - vm_compute. reflexivity.
  - vm_compute. reflexivity.
  - vm_compute. reflexivity.
  - exists m'. split; [exact Hrun|]. rewrite Hflag, Hsig. split; reflexivity.
Defined.

(** ** The receive loop *)

Section ReceiveLoop.
Context `{!Externals}.

(** No handler, and no handoff to [Connect], reaches the fields of
    [dial_frame]. *)
Lemma handlers_keep_frame
  (msgType : string) (funcCall : gmap string GoValue -> Go unit)
  (m m' : Machine) (message : gmap string GoValue) :
  _eventHandler msgType = Some funcCall ->
  funcCall message m = Returned tt m' ->
  dial_frame (wp m') = dial_frame (wp m).
Proof.
  unfold _eventHandler. intros Hh.
  repeat case_bool_decide; simplify_eq.
  - unfold onEventHello, index, hasKey.
    destruct m as [w ent dr ints tr cn]; destruct w.
    destruct (message !! "hostname") as [[]|]; run; try discriminate;
    destruct (message !! "friendly_name") as [[]|]; run; try discriminate;
    destruct (message !! "serial") as [[]|]; run; try discriminate;
    destruct (message !! "version") as [[]|]; run; try discriminate;
    destruct (message !! "manufacturer") as [[]|]; run; try discriminate;
    destruct (message !! "devicetype") as [[]|]; run; try discriminate;
    destruct (message !! "protocol") as [[]|]; run; try discriminate;
    destruct (message !! "secured") as [[]|]; run; try discriminate;
    lazymatch goal with
    | |- context [slice_to ?s ?n ?mm] =>
        destruct (le_lt_dec n (String.length s)) as [Hlen|Hlen];
        [ rewrite (slice_to_returns _ _ _ Hlen); run; by intros [= <-]
        | rewrite (slice_to_panics _ _ _ Hlen); discriminate ]
    end.
  - unfold onEventAuthRequired, index.
    destruct m as [w ent dr ints tr cn]; destruct w.
    destruct (message !! "token1") as [[]|]; run; try discriminate.
    destruct (message !! "token2") as [[]|]; run; try discriminate.
    rewrite randomHexString_returns. run.
    unfold onSendResponse. read_maps. run.
    destruct _currentConnection0; run; [|discriminate]. by intros [= <-].
  - unfold onEventResponse, index, hasKey.
    destruct (message !! "type") as [[]|]; run; try discriminate.
    destruct (message !! "success") as [[|[]| | | | | |]|]; run; try discriminate.
    all: by intros [= <-].
  - unfold onEventAuthSuccess, send_connected. run.
    destruct (connecting m); run; try discriminate. intros [= <-]. simpl. by destruct (wp m).
  - unfold onEventAuthError, send_connected. run.
    destruct (connecting m); run; try discriminate. intros [= <-]. simpl. by destruct (wp m).
  - unfold onEventFullStatus, index.
    destruct (message !! "partial") as [[|p| | | | | |]|]; run; try discriminate.
    unfold updateStatus, index.
    destruct (message !! "status") as [[| | | | | |updates|]|]; run; try discriminate.
    rewrite range_statusUpdates_returns. simpl. unfold IsInitialized.
    destruct p; simpl; [intros [= <-]; simpl; by destruct (wp m)|].
    destruct (_isInitialized (set_status _ (wp m))); run;
      [intros [= <-]; simpl; by destruct (wp m)|].
    unfold send_initialized. simpl. destruct (connecting m); run; try discriminate.
    intros [= <-]. simpl. by destruct (wp m).
  - unfold onEventDeltaStatus, updateStatus, index. run.
    destruct (message !! "status") as [[| | | | | |updates|]|]; run; try discriminate.
    rewrite range_statusUpdates_returns. intros [= <-]. simpl. by destruct (wp m).
  - unfold onEventClearInverters. run. by intros [= <-].
  - unfold onEventUpdateInverter. run. by intros [= <-].
Qed.

(** Only the two status handlers write the store. *)
Lemma other_handlers_keep_store
  (msgType : string) (funcCall : gmap string GoValue -> Go unit)
  (m m' : Machine) (message : gmap string GoValue) :
  _eventHandler msgType = Some funcCall ->
  msgType <> "fullStatus" -> msgType <> "deltaStatus" ->
  funcCall message m = Returned tt m' ->
  _status (wp m') = _status (wp m).
Proof.
  unfold _eventHandler. intros Hh Hnf Hnd.
  repeat case_bool_decide; simplify_eq.
  - unfold onEventHello, index, hasKey.
    destruct m as [w ent dr ints tr cn]; destruct w.
    destruct (message !! "hostname") as [[]|]; run; try discriminate;
    destruct (message !! "friendly_name") as [[]|]; run; try discriminate;
    destruct (message !! "serial") as [[]|]; run; try discriminate;
    destruct (message !! "version") as [[]|]; run; try discriminate;
    destruct (message !! "manufacturer") as [[]|]; run; try discriminate;
    destruct (message !! "devicetype") as [[]|]; run; try discriminate;
    destruct (message !! "protocol") as [[]|]; run; try discriminate;
    destruct (message !! "secured") as [[]|]; run; try discriminate;
    lazymatch goal with
    | |- context [slice_to ?s ?n ?mm] =>
        destruct (le_lt_dec n (String.length s)) as [Hlen|Hlen];
        [ rewrite (slice_to_returns _ _ _ Hlen); run; by intros [= <-]
        | rewrite (slice_to_panics _ _ _ Hlen); discriminate ]
    end.
  - unfold onEventAuthRequired, index.
    destruct m as [w ent dr ints tr cn]; destruct w.
    destruct (message !! "token1") as [[]|]; run; try discriminate.
    destruct (message !! "token2") as [[]|]; run; try discriminate.
    rewrite randomHexString_returns. run.
    unfold onSendResponse. read_maps. run.
    destruct _currentConnection0; run; [|discriminate]. by intros [= <-].
  - unfold onEventResponse, index, hasKey.
    destruct (message !! "type") as [[]|]; run; try discriminate.
    destruct (message !! "success") as [[|[]| | | | | |]|]; run; try discriminate.
    all: by intros [= <-].
  - unfold onEventAuthSuccess, send_connected. run.
    destruct (connecting m); run; try discriminate. intros [= <-]. simpl. by destruct (wp m).
  - unfold onEventAuthError, send_connected. run.
    destruct (connecting m); run; try discriminate. intros [= <-]. simpl. by destruct (wp m).
  - unfold onEventClearInverters. run. by intros [= <-].
  - unfold onEventUpdateInverter. run. by intros [= <-].
Qed.

(** The connected flag is written only by the two handoffs on
    [connected]. *)
Lemma other_handlers_keep_connected
  (msgType : string) (funcCall : gmap string GoValue -> Go unit)
  (m m' : Machine) (message : gmap string GoValue) :
  _eventHandler msgType = Some funcCall ->
  msgType <> "authSuccess" -> msgType <> "authError" ->
  funcCall message m = Returned tt m' ->
  _isConnected (wp m') = _isConnected (wp m).
Proof.
  unfold _eventHandler. intros Hh Hns Hne.
  repeat case_bool_decide; simplify_eq.
  - unfold onEventHello, index, hasKey.
    destruct m as [w ent dr ints tr cn]; destruct w.
    destruct (message !! "hostname") as [[]|]; run; try discriminate;
    destruct (message !! "friendly_name") as [[]|]; run; try discriminate;
    destruct (message !! "serial") as [[]|]; run; try discriminate;
    destruct (message !! "version") as [[]|]; run; try discriminate;
    destruct (message !! "manufacturer") as [[]|]; run; try discriminate;
    destruct (message !! "devicetype") as [[]|]; run; try discriminate;
    destruct (message !! "protocol") as [[]|]; run; try discriminate;
    destruct (message !! "secured") as [[]|]; run; try discriminate;
    lazymatch goal with
    | |- context [slice_to ?s ?n ?mm] =>
        destruct (le_lt_dec n (String.length s)) as [Hlen|Hlen];
        [ rewrite (slice_to_returns _ _ _ Hlen); run; by intros [= <-]
        | rewrite (slice_to_panics _ _ _ Hlen); discriminate ]
    end.
  - unfold onEventAuthRequired, index.
    destruct m as [w ent dr ints tr cn]; destruct w.
    destruct (message !! "token1") as [[]|]; run; try discriminate.
    destruct (message !! "token2") as [[]|]; run; try discriminate.
    rewrite randomHexString_returns. run.
    unfold onSendResponse. read_maps. run.
    destruct _currentConnection0; run; [|discriminate]. by intros [= <-].
  - unfold onEventResponse, index, hasKey.
    destruct (message !! "type") as [[]|]; run; try discriminate.
    destruct (message !! "success") as [[|[]| | | | | |]|]; run; try discriminate.
    all: by intros [= <-].
  - unfold onEventFullStatus, index.
    destruct (message !! "partial") as [[|p| | | | | |]|]; run; try discriminate.
    unfold updateStatus, index.
    destruct (message !! "status") as [[| | | | | |updates|]|]; run; try discriminate.
    rewrite range_statusUpdates_returns. simpl. unfold IsInitialized.
    destruct p; simpl; [intros [= <-]; simpl; by destruct (wp m)|].
    destruct (_isInitialized (set_status _ (wp m))); run;
      [intros [= <-]; simpl; by destruct (wp m)|].
    unfold send_initialized. simpl. destruct (connecting m); run; try discriminate.
    intros [= <-]. simpl. by destruct (wp m).
  - unfold onEventDeltaStatus, updateStatus, index. run.
    destruct (message !! "status") as [[| | | | | |updates|]|]; run; try discriminate.
    rewrite range_statusUpdates_returns. intros [= <-]. simpl. by destruct (wp m).
  - unfold onEventClearInverters. run. by intros [= <-].
  - unfold onEventUpdateInverter. run. by intros [= <-].
Qed.

Lemma receiveHandler_step_dropped (m : Machine) (msg : string) :
  frame_type msg = None -> receiveHandler_step msg m = Returned tt m.
Proof.
  unfold frame_type, receiveHandler_step.
  destruct (json_Unmarshal msg) as [[]|]; try reflexivity. by intros ->.
Qed.

(** What a returning turn of the loop did. *)
Lemma receiveHandler_step_returned (m m' : Machine) (msg : string) :
  receiveHandler_step msg m = Returned tt m' ->
  (frame_type msg = None /\ m' = m)
  \/ exists msgType,
       frame_type msg = Some (VString msgType) /\
       ((_eventHandler msgType = None /\ wp m' = wp m)
        \/ exists funcCall data m0 m1,
             _eventHandler msgType = Some funcCall /\
             wp m0 = wp m /\
             funcCall data m0 = Returned tt m1 /\
             wp m' = wp m1).
Proof.
  unfold frame_type, receiveHandler_step.
  destruct (json_Unmarshal msg) as [[| | | | | |data|]|]; try (intros [= <-]; by left).
  destruct (data !! "type") as [[| | | | |msgType| |]|]; run; try discriminate;
    [|intros [= <-]; by left].
  intros Hrun. right. exists msgType. split; [reflexivity|].
  destruct (_eventHandler msgType) as [funcCall|] eqn:Hh.
  - right. revert Hrun. run.
    destruct (funcCall data _) as [[] m1| |] eqn:Hcall; try discriminate.
    intros [= <-]. eexists funcCall, data, _, m1.
    split; [reflexivity|]. split; [|split; [exact Hcall|reflexivity]]. reflexivity.
  - left. split; [reflexivity|]. revert Hrun. by intros [= <-].
Qed.

Lemma receiveHandler_loop_cons (m : Machine) (msg : string) (rest : list string) (conn : Conn) :
  _currentConnection (wp m) = Some conn ->
  receiveHandler_loop (msg :: rest) m
    = match receiveHandler_step msg m with
      | Returned _ m1 => receiveHandler_loop rest m1
      | Panicked why => Panicked why
      | Parked m1 => Parked m1
      end.
Proof. intros Hconn. simpl. run. rewrite Hconn. reflexivity. Qed.

Lemma receiveHandler_loop_no_connection (m : Machine) (frames : list string) :
  _currentConnection (wp m) = None ->
  receiveHandler_loop frames m = Panicked "invalid memory address or nil pointer dereference".
Proof. intros Hconn. destruct frames; simpl; run; by rewrite Hconn. Qed.

(** An invariant of the session that every returning turn keeps is kept
    by the whole loop. *)
Lemma receiveHandler_loop_invariant
  (ok : string -> Prop) (inv : Wattpilot -> Wattpilot -> Prop) :
  (forall w, inv w w) ->
  (forall w1 w2 w3, inv w1 w2 -> inv w2 w3 -> inv w1 w3) ->
  (forall msg m m', ok msg -> receiveHandler_step msg m = Returned tt m' ->
                    inv (wp m) (wp m')) ->
  forall frames m m',
    Forall ok frames ->
    receiveHandler_loop frames m = Returned tt m' ->
    inv (wp m) (wp m').
Proof.
  intros Hrefl Htrans Hstep frames.
  induction frames as [|msg rest IH]; intros m m' Hok.
  - simpl. run. destruct (_currentConnection (wp m)); run; [|discriminate].
    intros [= <-]. apply Hrefl.
  - apply Forall_cons in Hok as [Hmsg Hrest].
    destruct (_currentConnection (wp m)) as [conn|] eqn:Hconn;
      [|by rewrite (receiveHandler_loop_no_connection _ _ Hconn)].
    rewrite (receiveHandler_loop_cons _ _ _ _ Hconn).
    destruct (receiveHandler_step msg m) as [[] m1| |] eqn:Hturn; try discriminate.
    intros Hloop. eapply Htrans; [exact (Hstep msg m m1 Hmsg Hturn)|].
    by apply IH.
Qed.

(** X5.  Nothing the device sends reaches the host, the password, the
    request-id counter or the connection: whatever frames the receive loop
    handles, when it returns those fields are as they were.  The connected
    flag is written only when an [authSuccess] or [authError] is handed
    over to the waiting [Connect]: a loop that is fed neither returns with
    the flag as it found it. *)
Theorem receiveHandler_keeps_session_frame (frames : list string) (m m' : Machine) :
  receiveHandler frames m = Returned tt m' ->
  dial_frame (wp m') = dial_frame (wp m) /\
  (Forall (fun msg => frame_type msg <> Some (VString "authSuccess") /\
                      frame_type msg <> Some (VString "authError")) frames ->
   _isConnected (wp m') = _isConnected (wp m)).
Proof.
  unfold receiveHandler. run. intros Hloop. split; [|intros Hok]; symmetry.
  - change (dial_frame (wp m))
      with (dial_frame (wp (emitted m [EvLog InfoLevel "Starting receive handler..." []]))).
    revert Hloop.
    apply (receiveHandler_loop_invariant (fun _ => True)
             (fun w w' => dial_frame w = dial_frame w')).
    + done.
    + intros w1 w2 w3 H12 H23. by rewrite H12.
    + intros msg m0 m1 _ Hturn.
      destruct (receiveHandler_step_returned _ _ _ Hturn)
        as [[_ ->]|(msgType & _ & [[_ Hsame]|(funcCall & data & ma & mb & Hh & Ha & Hcall & Hb)])].
      * done.
      * by rewrite Hsame.
      * rewrite Hb, <- Ha. symmetry. exact (handlers_keep_frame _ _ _ _ _ Hh Hcall).
    + apply Forall_forall. done.
  - change (_isConnected (wp m))
      with (_isConnected
              (wp (emitted m [EvLog InfoLevel "Starting receive handler..." []]))).
    revert Hok Hloop.
    apply (receiveHandler_loop_invariant _ (fun w w' => _isConnected w = _isConnected w')).
    + done.
    + intros w1 w2 w3 H12 H23. by rewrite H12.
    + intros msg m0 m1 [Hns Hne] Hturn.
      destruct (receiveHandler_step_returned _ _ _ Hturn)
        as [[_ ->]|(msgType & Hty & [[_ Hsame]|(funcCall & data & ma & mb & Hh & Ha & Hcall & Hb)])].
      * done.
      * by rewrite Hsame.
      * rewrite Hb, <- Ha. symmetry.
        apply (other_handlers_keep_connected msgType funcCall ma mb data Hh); [| |exact Hcall];
          intros ->; congruence.
Qed.

(** X6.  Only [authRequired] and [fullStatus] frames can change the
    initialized flag, and only [fullStatus] and [deltaStatus] frames can
    change the store: a receive loop that is fed none of them returns
    with the flag, respectively the store, as it found it. *)
Theorem receiveHandler_flag_and_store (frames : list string) (m m' : Machine) :
  receiveHandler frames m = Returned tt m' ->
  (Forall (fun msg => frame_type msg <> Some (VString "authRequired") /\
                      frame_type msg <> Some (VString "fullStatus")) frames ->
   _isInitialized (wp m') = _isInitialized (wp m)) /\
  (Forall (fun msg => frame_type msg <> Some (VString "fullStatus") /\
                      frame_type msg <> Some (VString "deltaStatus")) frames ->
   _status (wp m') = _status (wp m)).
Proof.
  unfold receiveHandler. run. intros Hloop. split; intros Hok; symmetry.
  - change (_isInitialized (wp m))
      with (_isInitialized
              (wp (emitted m [EvLog InfoLevel "Starting receive handler..." []]))).
    revert Hok Hloop.
    apply (receiveHandler_loop_invariant _ (fun w w' => _isInitialized w = _isInitialized w')).
    + done.
    + intros w1 w2 w3 H12 H23. by rewrite H12.
    + intros msg m0 m1 [Hna Hnf] Hturn.
      destruct (receiveHandler_step_returned _ _ _ Hturn)
        as [[_ ->]|(msgType & Hty & [[_ Hsame]|(funcCall & data & ma & mb & Hh & Ha & Hcall & Hb)])].
      * done.
      * by rewrite Hsame.
      * rewrite Hb, <- Ha. symmetry.
        apply (other_handlers_keep_flag msgType funcCall ma mb data Hh); [| |exact Hcall];
          intros ->; congruence.
  - change (_status (wp m))
      with (_status (wp (emitted m [EvLog InfoLevel "Starting receive handler..." []]))).
    revert Hok Hloop.
    apply (receiveHandler_loop_invariant _ (fun w w' => _status w = _status w')).
    + done.
    + intros w1 w2 w3 H12 H23. by rewrite H12.
    + intros msg m0 m1 [Hnf Hnd] Hturn.
      destruct (receiveHandler_step_returned _ _ _ Hturn)
        as [[_ ->]|(msgType & Hty & [[_ Hsame]|(funcCall & data & ma & mb & Hh & Ha & Hcall & Hb)])].
      * done.
      * by rewrite Hsame.
      * rewrite Hb, <- Ha. symmetry.
        apply (other_handlers_keep_store msgType funcCall ma mb data Hh); [| |exact Hcall];
          intros ->; congruence.
Qed.

End ReceiveLoop.

(** The loop fed a [hello], a [deltaStatus] and an unknown type, from the
    state after authentication. *)
Lemma receiveHandler_keeps_session_frame_witness :
  exists m',
    @receiveHandler Feed.env ["HELLO"; "DELTA"; "PING"] (Ref.machine Ref.connected)
      = Returned tt m' /\
    dial_frame (wp m') = dial_frame Ref.connected /\
    _isConnected (wp m') = true /\
    _status (wp m') !! "amp" = Some (VInt 16).
Proof.
  destruct (@receiveHandler Feed.env ["HELLO"; "DELTA"; "PING"] (Ref.machine Ref.connected))
    as [[] m'|why|m'] eqn:Hrun; [|vm_compute in Hrun; discriminate..].
  destruct (@receiveHandler_keeps_session_frame Feed.env _ _ _ Hrun) as [Hframe Hflag].
  exists m'. split; [reflexivity|]. split; [exact Hframe|]. split.
  - rewrite Hflag; [reflexivity|]. repeat constructor; vm_compute; discriminate.
  - vm_compute in Hrun. injection Hrun as <-. reflexivity.
Defined.

(** The same feed cannot change the flag; a feed of [hello],
    [authRequired] and [authSuccess], with [Connect] waiting for the
    verdict, cannot change the store. *)
Lemma receiveHandler_flag_and_store_witness :
  (exists m',
      @receiveHandler Feed.env ["HELLO"; "DELTA"; "PING"] (Ref.machine Ref.connected)
        = Returned tt m' /\
      _isInitialized (wp m') = false) /\
  (exists m',
      @receiveHandler Feed.env ["HELLO"; "AUTH"; "AUTH-OK"] (Sample.dialing Ref.ready)
        = Returned tt m' /\
      _status (wp m') = _status Ref.ready).
Proof.
  split.
  - destruct (@receiveHandler Feed.env ["HELLO"; "DELTA"; "PING"] (Ref.machine Ref.connected))
      as [[] m'|why|m'] eqn:Hrun; [|vm_compute in Hrun; discriminate..].
    exists m'. split; [reflexivity|].
    apply (proj1 (@receiveHandler_flag_and_store Feed.env _ _ _ Hrun)).
    repeat constructor; vm_compute; discriminate.
  - destruct (@receiveHandler Feed.env ["HELLO"; "AUTH"; "AUTH-OK"] (Sample.dialing Ref.ready))
      as [[] m'|why|m'] eqn:Hrun; [|vm_compute in Hrun; discriminate..].
    exists m'. split; [reflexivity|].
    apply (proj2 (@receiveHandler_flag_and_store Feed.env _ _ _ Hrun)).
    repeat constructor; vm_compute; discriminate.
Defined.

(** ** Frames the router does not route *)

Section Unroutable.
Context `{!Externals}.

(** X7.  A frame that does not decode to an object, or decodes to an
    object without a [type], is dropped without a trace and the loop goes
    on with the next frame; a frame of a type that has no handler costs
    one trace-level log line and is otherwise skipped the same way. *)
Theorem receiveHandler_skips_unroutable
  (m : Machine) (msg : string) (rest : list string) (conn : Conn) :
  _currentConnection (wp m) = Some conn ->
  (frame_type msg = None ->
   receiveHandler_loop (msg :: rest) m = receiveHandler_loop rest m) /\
  (forall msgType,
      frame_type msg = Some (VString msgType) ->
      _eventHandler msgType = None ->
      receiveHandler_loop (msg :: rest) m
        = receiveHandler_loop rest
            (emitted m [EvLog TraceLevel "receiving " [VString msgType]])).
Proof.
  intros Hconn. rewrite (receiveHandler_loop_cons _ _ _ _ Hconn). split.
  - intros Hnone. by rewrite (receiveHandler_step_dropped _ _ Hnone).
  - intros msgType Hty Hnone. unfold frame_type in Hty. unfold receiveHandler_step.
    destruct (json_Unmarshal msg) as [[| | | | | |data|]|]; try discriminate.
    rewrite Hty. run. by rewrite Hnone.
Qed.

(** X8.  The type of a frame is asserted to be a string before it is
    looked up: an object whose [type] is anything else panics the receive
    loop, and no later frame is handled. *)
Theorem receiveHandler_type_not_string_panics
  (m : Machine) (msg : string) (rest : list string) (conn : Conn) (msgType : GoValue) :
  _currentConnection (wp m) = Some conn ->
  frame_type msg = Some msgType ->
  is_string msgType = false ->
  receiveHandler_loop (msg :: rest) m
    = Panicked "interface conversion: interface {} is not string".
Proof.
  intros Hconn Hty Hns. rewrite (receiveHandler_loop_cons _ _ _ _ Hconn).
  unfold frame_type in Hty. unfold receiveHandler_step.
  destruct (json_Unmarshal msg) as [[| | | | | |data|]|]; try discriminate.
  rewrite Hty. destruct msgType; try discriminate Hns; reflexivity.
Qed.

End Unroutable.

(** An array, an object without [type] and an unknown type in front of a
    [deltaStatus]: the batch is merged all the same. *)
Lemma receiveHandler_skips_unroutable_witness :
  @receiveHandler_loop Feed.env ["ARRAY"; "DELTA"] (Ref.machine Ref.ready)
    = @receiveHandler_loop Feed.env ["DELTA"] (Ref.machine Ref.ready) /\
  @receiveHandler_loop Feed.env ["PING"; "DELTA"] (Ref.machine Ref.ready)
    = @receiveHandler_loop Feed.env ["DELTA"]
        (emitted (Ref.machine Ref.ready) [EvLog TraceLevel "receiving " [VString "ping"]]).
Proof.
  split.
  - apply (proj1 (@receiveHandler_skips_unroutable Feed.env (Ref.machine Ref.ready)
                    "ARRAY" ["DELTA"] (mkConn 3) eq_refl)).
    vm_compute. reflexivity.
  - apply (proj2 (@receiveHandler_skips_unroutable Feed.env (Ref.machine Ref.ready)
                    "PING" ["DELTA"] (mkConn 3) eq_refl) "ping");
      vm_compute; reflexivity.
Defined.

(** A frame whose [type] is the number 5, in front of a [deltaStatus]. *)
Lemma receiveHandler_type_not_string_panics_witness :
  @receiveHandler_loop Feed.env ["TYPE-5"; "DELTA"] (Ref.machine Ref.ready)
    = Panicked "interface conversion: interface {} is not string".
Proof.
  apply (@receiveHandler_type_not_string_panics Feed.env (Ref.machine Ref.ready)
           "TYPE-5" ["DELTA"] (mkConn 3) (VInt 5));
    vm_compute; reflexivity.
Defined.

(** ** Request ids and outbound commands *)

Section Commands.
Context `{!Externals}.

Lemma wrap_int64_in_range (z : Z) :
  (strconv.minInt <= z <= strconv.maxInt)%Z -> wrap_int64 z = z.
Proof.
  unfold wrap_int64, strconv.minInt, strconv.maxInt. intros Hz.
  rewrite Z.mod_small; lia.
Qed.

Lemma bind_returned {A B : Type} (c : Go A) (f : A -> Go B) (m m1 : Machine) (a : A) :
  c m = Returned a m1 -> (c ≫= f) m = f a m1.
Proof. intros Hc. unfold mbind, Go_bind. by rewrite Hc. Qed.

Lemma requestId_set_requestId (x : Z) (w : Wattpilot) : _requestId (set_requestId x w) = x.
Proof. by destruct w. Qed.

Lemma set_requestId_twice (x y : Z) (w : Wattpilot) :
  set_requestId y (set_requestId x w) = set_requestId y w.
Proof. by destruct w. Qed.

Lemma request_ids_returns (k : nat) (m : Machine) :
  (strconv.minInt <= _requestId (wp m))%Z ->
  (_requestId (wp m) + Z.of_nat k <= strconv.maxInt)%Z ->
  request_ids k m
    = Returned (map (fun i => (_requestId (wp m) + Z.of_nat i)%Z) (seq 1 k))
        (with_wp (set_requestId (_requestId (wp m) + Z.of_nat k) (wp m)) m).
Proof.
  revert m. induction k as [|k IH]; intros m Hlo Hhi.
  - simpl. rewrite Z.add_0_r. unfold with_wp.
    destruct m as [w ent dr ints tr cn]. by destruct w.
  - change (request_ids (S k))
      with (getRequestId ≫= fun id => request_ids k ≫= fun ids => mret (id :: ids)).
    rewrite (bind_returned _ _ _ _ _ (getRequestId_returns m)).
    rewrite wrap_int64_in_range by lia.
    set (m1 := with_wp (set_requestId (_requestId (wp m) + 1) (wp m)) m).
    assert (Hn1 : _requestId (wp m1) = (_requestId (wp m) + 1)%Z)
      by apply requestId_set_requestId.
    rewrite (bind_returned _ _ _ _ _ (IH m1 ltac:(lia) ltac:(lia))).
    unfold mret, Go_ret. rewrite Hn1. f_equal.
    + change (seq 1 (S k)) with (1%nat :: seq 2 k).
      rewrite <- (seq_shift k 1), map_cons, map_map. f_equal.
      apply map_ext. intros i. lia.
    + subst m1. unfold with_wp. simpl. rewrite set_requestId_twice.
      do 2 f_equal. lia.
Qed.

(** X9.  Request ids count up by one: [k] calls of [getRequestId] on a
    counter at [n] return [n+1, ..., n+k] and leave the counter at [n+k],
    so no id is handed out twice -- as long as the counter stays below
    the largest int64, after which the next id is the smallest int64. *)
Theorem request_ids_count_up (k : nat) (m : Machine) :
  ((strconv.minInt <= _requestId (wp m))%Z ->
   (_requestId (wp m) + Z.of_nat k <= strconv.maxInt)%Z ->
   exists m',
     request_ids k m
       = Returned (map (fun i => (_requestId (wp m) + Z.of_nat i)%Z) (seq 1 k)) m' /\
     _requestId (wp m') = (_requestId (wp m) + Z.of_nat k)%Z /\
     NoDup (map (fun i => (_requestId (wp m) + Z.of_nat i)%Z) (seq 1 k))) /\
  (_requestId (wp m) = strconv.maxInt ->
   exists m', getRequestId m = Returned strconv.minInt m').
Proof.
  split.
  - intros Hlo Hhi. rewrite (request_ids_returns k m Hlo Hhi).
    eexists. split; [reflexivity|]. split; [simpl; by destruct (wp m)|].
    apply NoDup_fmap_2; [|apply NoDup_seq]. intros i j Hij. lia.
  - intros Hmax. unfold getRequestId. run. rewrite Hmax. by eexists.
Qed.

End Commands.

(** Three ids on a fresh session are 1, 2 and 3; the id after the largest
    int64 is the smallest. *)
Lemma request_ids_count_up_witness :
  (exists m',
      request_ids 3 (Ref.machine (New "wattpilot.local" "secret")) = Returned [1; 2; 3]%Z m' /\
      _requestId (wp m') = 3%Z) /\
  (exists m',
      getRequestId
        (Ref.machine (set_requestId strconv.maxInt (New "wattpilot.local" "secret")))
        = Returned strconv.minInt m').
Proof.
  split.
  - destruct (proj1 (request_ids_count_up 3 (Ref.machine (New "wattpilot.local" "secret"))))
      as (m' & Hrun & Hcounter & _).
    + vm_compute. discriminate.
    + vm_compute. discriminate.
    + exists m'. split; [exact Hrun|exact Hcounter].
  - apply (proj2 (request_ids_count_up 0
                    (Ref.machine (set_requestId strconv.maxInt
                                    (New "wattpilot.local" "secret"))))).
    reflexivity.
Defined.

(** ** Commands sent to the device *)

Section Outbound.
Context `{!Externals}.

Lemma onSendResponse_returns
  (m : Machine) (message : gmap string GoValue) (id : Z) (conn : Conn) :
  _currentConnection (wp m) = Some conn ->
  message !! "requestId" = Some (VInt64 id) ->
  exists m',
    onSendResponse (_secured (wp m)) message m
      = Returned (WriteClientMessage conn (outbound_frame (wp m) id message)) m' /\
    wp m' = wp m /\
    frames_written (trace m')
      = (frames_written (trace m) ++ [outbound_frame (wp m) id message])%list.
Proof.
  intros Hconn Hid. unfold outbound_frame. destruct (_secured (wp m)).
  - rewrite (onSendResponse_secured m message id conn Hconn Hid).
    eexists. split; [reflexivity|]. split; [reflexivity|]. simpl. by read_trace.
  - rewrite (onSendResponse_unsecured m message conn Hconn).
    eexists. split; [reflexivity|]. split; [reflexivity|]. simpl. by read_trace.
Qed.

Lemma onSendResponse_no_connection
  (m : Machine) (secured : bool) (message : gmap string GoValue) (id : Z) :
  _currentConnection (wp m) = None ->
  message !! "requestId" = Some (VInt64 id) ->
  onSendResponse secured message m
    = Panicked "invalid memory address or nil pointer dereference".
Proof.
  intros Hconn Hid. unfold onSendResponse. rewrite (index_Some _ _ _ Hid).
  destruct secured; run; by rewrite Hconn.
Qed.

Lemma setValue_message_id (id : Z) (key : string) (value : GoValue) :
  setValue_message id key value !! "requestId" = Some (VInt64 id).
Proof. reflexivity. Qed.

Lemma sendUpdate_unfold (m : Machine) (name : string) (value : GoValue) :
  sendUpdate name value m
    = onSendResponse (_secured (wp m))
        (setValue_message (next_id (wp m)) name (transformValue value))
        (with_wp (set_requestId (next_id (wp m)) (wp m)) m).
Proof.
  unfold sendUpdate, next_id.
  rewrite (bind_returned _ _ _ _ _ (getRequestId_returns m)).
  rewrite setValue_message_as_built. run. by destruct (wp m).
Qed.

Lemma RequestStatusUpdate_unfold (m : Machine) :
  RequestStatusUpdate m
    = onSendResponse (_secured (wp m)) (requestFullStatus_message (next_id (wp m)))
        (with_wp (set_requestId (next_id (wp m)) (wp m)) m).
Proof.
  unfold RequestStatusUpdate, next_id.
  rewrite (bind_returned _ _ _ _ _ (getRequestId_returns m)).
  run. by destruct (wp m).
Qed.

Lemma set_requestId_keeps (x : Z) (w : Wattpilot) :
  _secured (set_requestId x w) = _secured w /\
  _currentConnection (set_requestId x w) = _currentConnection w /\
  _isInitialized (set_requestId x w) = _isInitialized w /\
  _status (set_requestId x w) = _status w /\
  outbound_frame (set_requestId x w) = outbound_frame w.
Proof. by destruct w. Qed.

(** What a command costs: one request id and one frame. *)
Lemma command_returns
  (m : Machine) (message : gmap string GoValue) (conn : Conn) :
  _currentConnection (wp m) = Some conn ->
  message !! "requestId" = Some (VInt64 (next_id (wp m))) ->
  let frame := outbound_frame (wp m) (next_id (wp m)) message in
  exists m',
    onSendResponse (_secured (wp m)) message
      (with_wp (set_requestId (next_id (wp m)) (wp m)) m)
      = Returned (WriteClientMessage conn frame) m' /\
    wp m' = set_requestId (next_id (wp m)) (wp m) /\
    frames_written (trace m') = (frames_written (trace m) ++ [frame])%list.
Proof.
  intros Hconn Hid frame. subst frame.
  destruct (set_requestId_keeps (next_id (wp m)) (wp m)) as (Hsec & Hc & _ & _ & Hframe).
  set (m1 := with_wp (set_requestId (next_id (wp m)) (wp m)) m).
  destruct (onSendResponse_returns m1 message (next_id (wp m)) conn) as (m' & Hrun & Hwp & Htr).
  - subst m1. simpl. by rewrite Hc.
  - exact Hid.
  - subst m1. simpl in *. rewrite Hsec, Hframe in Hrun. rewrite Hframe in Htr.
    exists m'. by rewrite Hrun, Hwp, Htr.
Qed.

Lemma command_panics (m : Machine) (message : gmap string GoValue) :
  _currentConnection (wp m) = None ->
  message !! "requestId" = Some (VInt64 (next_id (wp m))) ->
  onSendResponse (_secured (wp m)) message
    (with_wp (set_requestId (next_id (wp m)) (wp m)) m)
    = Panicked "invalid memory address or nil pointer dereference".
Proof.
  intros Hconn Hid. apply (onSendResponse_no_connection _ _ _ (next_id (wp m))); [|exact Hid].
  simpl. by destruct (wp m).
Qed.

Lemma SetProperty_accepted
  (m : Machine) (name : string) (value old : GoValue) (conn : Conn) :
  _isInitialized (wp m) = true ->
  _status (wp m) !! name = Some old ->
  _currentConnection (wp m) = Some conn ->
  let id := next_id (wp m) in
  let frame := outbound_frame (wp m) id (setValue_message id name (transformValue value)) in
  exists m',
    SetProperty name value m = Returned (WriteClientMessage conn frame) m' /\
    wp m' = set_requestId id (wp m) /\
    frames_written (trace m') = (frames_written (trace m) ++ [frame])%list.
Proof.
  intros Hinit Hname Hconn id frame.
  rewrite (SetProperty_sends m name value old Hinit Hname), sendUpdate_unfold.
  set (m0 := emitted m [EvLog DebugLevel "setting property "
                          [VString name; VString " to "; value]]).
  destruct (command_returns m0 (setValue_message id name (transformValue value)) conn)
    as (m' & Hrun & Hwp & Htr); [exact Hconn|reflexivity|].
  exists m'. split; [exact Hrun|]. split; [exact Hwp|].
  rewrite Htr. subst m0. simpl. by read_trace.
Qed.

(** X10.  [SetProperty] refuses or sends, and never half of each.  A call
    refused because the session is not initialized or the store has no
    such key leaves the session as it was: no request id is consumed and
    nothing is written.  An accepted call on a session with a connection
    consumes exactly one request id and writes exactly one frame -- the
    [setValue] command with the coerced value, inside the envelope when
    the device asked for secured commands -- and returns the transport's
    verdict on that write.  An accepted call on a session without a
    connection panics. *)
Theorem SetProperty_accounting (m : Machine) (name : string) (value : GoValue) :
  (_isInitialized (wp m) = false \/ _status (wp m) !! name = None ->
   exists err m',
     SetProperty name value m = Returned (Some err) m' /\
     wp m' = wp m /\
     frames_written (trace m') = frames_written (trace m)) /\
  (forall conn,
     _isInitialized (wp m) = true ->
     is_Some (_status (wp m) !! name) ->
     _currentConnection (wp m) = Some conn ->
     let id := next_id (wp m) in
     let frame :=
       outbound_frame (wp m) id (setValue_message id name (transformValue value)) in
     exists m',
       SetProperty name value m = Returned (WriteClientMessage conn frame) m' /\
       wp m' = set_requestId id (wp m) /\
       frames_written (trace m') = (frames_written (trace m) ++ [frame])%list) /\
  (_isInitialized (wp m) = true ->
   is_Some (_status (wp m) !! name) ->
   _currentConnection (wp m) = None ->
   exists why, SetProperty name value m = Panicked why).
Proof.
  split; [|split].
  - intros Hrefused. destruct (_isInitialized (wp m)) eqn:Hinit.
    + destruct Hrefused as [?|Hname]; [discriminate|].
      rewrite (SetProperty_not_found m name value Hinit Hname).
      eexists _, _. split; [reflexivity|]. split; [reflexivity|]. simpl. by read_trace.
    + rewrite (SetProperty_not_ready m name value Hinit).
      eexists _, _. split; [reflexivity|]. split; [reflexivity|]. simpl. by read_trace.
  - intros conn Hinit [old Hname] Hconn. exact (SetProperty_accepted m name value old conn Hinit Hname Hconn).
  - intros Hinit [old Hname] Hconn.
    rewrite (SetProperty_sends m name value old Hinit Hname), sendUpdate_unfold.
    eexists. apply command_panics; [exact Hconn|reflexivity].
Qed.

(** X11.  [SetCurrent] is [SetProperty] on the wire key "amp" with the
    float as it was given: the command carries the [float64] itself, not
    an integer reading of it, and no range is checked.  Until the device
    has reported "amp" the call fails with NotFound and sends nothing. *)
Theorem SetCurrent_sends_float (m : Machine) (current : float) :
  _isInitialized (wp m) = true ->
  (forall old conn,
     _status (wp m) !! "amp" = Some old ->
     _currentConnection (wp m) = Some conn ->
     let id := next_id (wp m) in
     let frame := outbound_frame (wp m) id (setValue_message id "amp" (VFloat64 current)) in
     exists m',
       SetCurrent current m = Returned (WriteClientMessage conn frame) m' /\
       frames_written (trace m') = (frames_written (trace m) ++ [frame])%list) /\
  (_status (wp m) !! "amp" = None ->
   exists m',
     SetCurrent current m = Returned (Some (NotFound_set "amp")) m' /\
     frames_written (trace m') = frames_written (trace m)).
Proof.
  intros Hinit. split.
  - intros old conn Hamp Hconn id frame. unfold SetCurrent.
    destruct (SetProperty_accepted m "amp" (VFloat64 current) old conn Hinit Hamp Hconn)
      as (m' & Hrun & _ & Htr).
    exists m'. split; [exact Hrun|exact Htr].
  - intros Hamp. unfold SetCurrent.
    rewrite (SetProperty_not_found m "amp" (VFloat64 current) Hinit Hamp).
    eexists. split; [reflexivity|]. simpl. by read_trace.
Qed.

(** X12.  [RequestStatusUpdate] has no guard: on any session with a
    connection, initialized or not, it consumes one request id, writes the
    [requestFullStatus] command carrying that id -- inside the envelope on
    a secured device -- and returns the transport's verdict.  On a session
    without a connection it panics instead of returning an error. *)
Theorem RequestStatusUpdate_unguarded (m : Machine) :
  (forall conn,
     _currentConnection (wp m) = Some conn ->
     let id := next_id (wp m) in
     let frame := outbound_frame (wp m) id (requestFullStatus_message id) in
     exists m',
       RequestStatusUpdate m = Returned (WriteClientMessage conn frame) m' /\
       wp m' = set_requestId id (wp m) /\
       frames_written (trace m') = (frames_written (trace m) ++ [frame])%list) /\
  (_currentConnection (wp m) = None ->
   exists why, RequestStatusUpdate m = Panicked why).
Proof.
  split.
  - intros conn Hconn id frame. rewrite RequestStatusUpdate_unfold.
    exact (command_returns m (requestFullStatus_message id) conn Hconn eq_refl).
  - intros Hconn. rewrite RequestStatusUpdate_unfold.
    eexists. apply command_panics; [exact Hconn|reflexivity].
Qed.

End Outbound.

(** [SetProperty] on the reference sessions: refused before the full
    status, sent once it has arrived, and a panic once the connection is
    gone. *)
Lemma SetProperty_accounting_witness :
  (exists err m',
      SetProperty "amp" (VString "16") (Ref.machine Ref.connected) = Returned (Some err) m' /\
      wp m' = Ref.connected /\
      frames_written (trace m') = []) /\
  (exists m',
      SetProperty "amp" (VString "16") (Ref.machine Ref.ready) = Returned None m' /\
      _requestId (wp m') = 1%Z /\
      length (frames_written (trace m')) = 1%nat) /\
  (exists why,
      SetProperty "amp" (VString "16") (Ref.machine (set_currentConnection None Ref.ready))
        = Panicked why).
Proof.
  split; [|split].
  - destruct (proj1 (SetProperty_accounting (Ref.machine Ref.connected) "amp" (VString "16")))
      as (err & m' & Hrun & Hwp & Htr); [left; reflexivity|].
    exists err, m'. split; [exact Hrun|]. split; [exact Hwp|].
    rewrite Htr. vm_compute. reflexivity.
  - destruct (proj1 (proj2 (SetProperty_accounting (Ref.machine Ref.ready) "amp"
                              (VString "16"))) (mkConn 3))
      as (m' & Hrun & Hwp & Htr);
      [reflexivity|by exists (VInt 6)|reflexivity|].
    exists m'. split; [rewrite Hrun; f_equal|]. split; [by rewrite Hwp|].
    rewrite Htr. vm_compute. reflexivity.
  - apply (proj2 (proj2 (SetProperty_accounting
                           (Ref.machine (set_currentConnection None Ref.ready)) "amp"
                           (VString "16"))));
      [reflexivity|by exists (VInt 6)|reflexivity].
Defined.

(** Six and a half amperes on the initialized reference session. *)
Lemma SetCurrent_sends_float_witness :
  exists m',
    SetCurrent 6.5%float (Ref.machine Ref.ready) = Returned None m' /\
    frames_written (trace m')
      = [marshal_bytes (VMap (setValue_message 1 "amp" (VFloat64 6.5%float)))].
Proof.
  destruct (proj1 (SetCurrent_sends_float (Ref.machine Ref.ready) 6.5%float eq_refl)
              (VInt 6) (mkConn 3))
    as (m' & Hrun & Htr); [reflexivity|reflexivity|].
  exists m'. split; [rewrite Hrun; f_equal|].
  rewrite Htr. vm_compute. reflexivity.
Defined.

(** A status request on a session that is connected but not initialized,
    and on a fresh session that has no connection yet. *)
Lemma RequestStatusUpdate_unguarded_witness :
  (exists m',
      RequestStatusUpdate (Ref.machine Ref.connected) = Returned None m' /\
      _requestId (wp m') = 1%Z /\
      frames_written (trace m')
        = [marshal_bytes (VMap (requestFullStatus_message 1))]) /\
  (exists why,
      RequestStatusUpdate (Ref.machine (New "wattpilot.local" "secret")) = Panicked why).
Proof.
  split.
  - destruct (proj1 (RequestStatusUpdate_unguarded (Ref.machine Ref.connected)) (mkConn 3))
      as (m' & Hrun & Hwp & Htr); [reflexivity|].
    exists m'. split; [rewrite Hrun; f_equal|]. split; [by rewrite Hwp|].
    rewrite Htr. vm_compute. reflexivity.
  - apply (proj2 (RequestStatusUpdate_unguarded (Ref.machine (New "wattpilot.local" "secret")))).
    reflexivity.
Defined.

(** ** The session after teardown *)

Section AfterTeardown.
Context `{!Externals}.

(** X13.  Once the internal disconnect has torn an initialized session
    down, the facade refuses: [Properties] is empty, every [GetProperty]
    and every [SetProperty] fails with NotReady and writes nothing, and a
    second disconnect closes nothing and changes nothing.
    [RequestStatusUpdate], which has no guard, panics on the connection
    that is gone. *)
Theorem torn_down_session_refuses (m : Machine) (conn : Conn) :
  _isInitialized (wp m) = true ->
  _currentConnection (wp m) = Some conn ->
  exists m1,
    disconnectImpl m = Returned tt m1 /\
    Properties (wp m1) = [] /\
    (forall name, exists m2,
        GetProperty name m1 = Returned (VNil, Some NotReady_get) m2 /\ wp m2 = wp m1) /\
    (forall name value, exists m2,
        SetProperty name value m1 = Returned (Some NotReady_set) m2 /\
        wp m2 = wp m1 /\
        frames_written (trace m2) = frames_written (trace m1)) /\
    disconnectImpl m1
      = Returned tt (emitted m1 [EvLog InfoLevel "Disconnecting..." []]) /\
    (exists why, RequestStatusUpdate m1 = Panicked why).
Proof.
  intros Hinit Hconn.
  destruct (disconnectImpl_initialized m conn Hinit Hconn)
    as (m1 & Hrun & Hst & _ & Hflag & Hnil & _).
  exists m1. split; [exact Hrun|]. split; [|split; [|split; [|split]]].
  - unfold Properties. by rewrite Hst, map_to_list_empty.
  - intros name. rewrite GetProperty_returns, Hflag. by eexists.
  - intros name value. rewrite (SetProperty_not_ready m1 name value Hflag).
    eexists. split; [reflexivity|]. split; [reflexivity|]. simpl. by read_trace.
  - exact (disconnectImpl_not_initialized m1 Hflag).
  - rewrite RequestStatusUpdate_unfold. eexists.
    apply command_panics; [exact Hnil|reflexivity].
Qed.

End AfterTeardown.

(** The initialized reference session, torn down. *)
Lemma torn_down_session_refuses_witness :
  exists m1,
    disconnectImpl (Ref.machine Ref.ready) = Returned tt m1 /\
    Properties (wp m1) = [] /\
    (exists m2, GetProperty "amp" m1 = Returned (VNil, Some NotReady_get) m2) /\
    (exists m2, SetProperty "amp" (VInt 6) m1 = Returned (Some NotReady_set) m2) /\
    (exists why, RequestStatusUpdate m1 = Panicked why).
Proof.
  destruct (torn_down_session_refuses (Ref.machine Ref.ready) (mkConn 3))
    as (m1 & Hrun & Hprops & Hget & Hset & _ & Hreq); [reflexivity|reflexivity|].
  exists m1. split; [exact Hrun|]. split; [exact Hprops|].
  split; [|split; [|exact Hreq]].
  - destruct (Hget "amp") as (m2 & Hg & _). by exists m2.
  - destruct (Hset "amp" (VInt 6)) as (m2 & Hs & _). by exists m2.
Defined.

(** ** The typed accessors *)

Section TypedAccessors.
Context `{!Externals} `{!ParseFailure}.

Lemma GetProperty_fails (m : Machine) (name : string) (err : error) :
  property_error (wp m) name = Some err ->
  GetProperty name m
    = Returned (VNil, Some err) (emitted m [EvLog DebugLevel "Get Property " [VString name]]).
Proof.
  unfold property_error. rewrite GetProperty_returns.
  destruct (negb (_isInitialized (wp m))); [by intros [= <-]|].
  destruct (_status (wp m) !! resolved_key name); [discriminate|by intros [= <-]].
Qed.

Lemma GetProperty_reads (m : Machine) (name : string) (v : GoValue) :
  _isInitialized (wp m) = true ->
  _status (wp m) !! resolved_key name = Some v ->
  GetProperty name m
    = Returned (post_processed name v, None)
        (emitted m [EvLog DebugLevel "Get Property " [VString name]]).
Proof. intros Hinit Hkey. by rewrite GetProperty_returns, Hinit, Hkey. Qed.

Lemma range_floats_fails (name : string) (rest : list string) (acc : list float)
  (m : Machine) (err : error) :
  property_error (wp m) name = Some err ->
  range_floats (name :: rest) acc m
    = Returned (inr err) (emitted m [EvLog DebugLevel "Get Property " [VString name]]).
Proof.
  intros Herr. simpl.
  by rewrite (bind_returned _ _ _ _ _ (GetProperty_fails m name err Herr)).
Qed.

Lemma range_floats_reads (w : Wattpilot) (names : list string) (xs : list float) :
  _isInitialized w = true ->
  Forall2 (reads_float w) names xs ->
  forall (acc : list float) (m : Machine),
    wp m = w ->
    exists m',
      range_floats names acc m = Returned (inl (acc ++ xs)%list) m' /\
      wp m' = w /\
      frames_written (trace m') = frames_written (trace m).
Proof.
  intros Hinit Hall. induction Hall as [|name x names xs (v & s & Hkey & Hpost & Hparse) _ IH];
    intros acc m Hw.
  - exists m. simpl. by rewrite app_nil_r.
  - subst w. simpl.
    rewrite (bind_returned _ _ _ _ _ (GetProperty_reads m name v Hinit Hkey)).
    simpl. rewrite Hpost. run. unfold strconv_ParseFloat. rewrite Hparse.
    destruct (IH (acc ++ [x])%list
                 (emitted m [EvLog DebugLevel "Get Property " [VString name]]) eq_refl)
      as (m' & Hrun & Hw & Htr).
    exists m'. rewrite Hrun, <- app_assoc. split; [done|].
    split; [exact Hw|]. rewrite Htr. simpl. by read_trace.
Qed.

(** X14.  The typed accessors pass the error of [GetProperty] on beside
    their sentinels: when the first property they read is refused (the
    session is not initialized, or the store has no such key),
    [GetPower] returns -1, [GetCurrents] and [GetVoltages] return -1 three
    times, [GetRFID] and [GetCarIdentifier] return the empty string, each
    with that error and with the session unchanged. *)
Theorem typed_accessors_pass_error_on (m : Machine) :
  (forall err, property_error (wp m) "power" = Some err ->
     exists m', GetPower m = Returned ((-1)%float, Some err) m' /\ wp m' = wp m) /\
  (forall err, property_error (wp m) "amps1" = Some err ->
     exists m',
       GetCurrents m = Returned ((-1)%float, (-1)%float, (-1)%float, Some err) m' /\
       wp m' = wp m) /\
  (forall err, property_error (wp m) "voltage1" = Some err ->
     exists m',
       GetVoltages m = Returned ((-1)%float, (-1)%float, (-1)%float, Some err) m' /\
       wp m' = wp m) /\
  (forall err, property_error (wp m) "trx" = Some err ->
     exists m', GetRFID m = Returned ("", Some err) m' /\ wp m' = wp m) /\
  (forall err, property_error (wp m) "cak" = Some err ->
     exists m', GetCarIdentifier m = Returned ("", Some err) m' /\ wp m' = wp m).
Proof.
  split; [|split; [|split; [|split]]]; intros err Herr.
  - unfold GetPower. rewrite (bind_returned _ _ _ _ _ (GetProperty_fails m _ err Herr)).
    by eexists.
  - unfold GetCurrents. rewrite (bind_returned _ _ _ _ _ (range_floats_fails _ _ _ m err Herr)).
    by eexists.
  - unfold GetVoltages. rewrite (bind_returned _ _ _ _ _ (range_floats_fails _ _ _ m err Herr)).
    by eexists.
  - unfold GetRFID. rewrite (bind_returned _ _ _ _ _ (GetProperty_fails m _ err Herr)).
    by eexists.
  - unfold GetCarIdentifier.
    rewrite (bind_returned _ _ _ _ _ (GetProperty_fails m _ err Herr)).
    by eexists.
Qed.

(** X15.  On an initialized session whose store holds parsable text for
    them, [GetCurrents] returns the readings of "amps1", "amps2" and
    "amps3" in that order.  [GetVoltages] reads "voltage1" and "voltage2"
    only: its third result is the reading of "voltage2" again, and
    nothing is asked of "voltage3".  Neither changes the session or
    writes to the device. *)
Theorem phase_readings (m : Machine) :
  _isInitialized (wp m) = true ->
  (forall i1 i2 i3,
     reads_float (wp m) "amps1" i1 ->
     reads_float (wp m) "amps2" i2 ->
     reads_float (wp m) "amps3" i3 ->
     exists m',
       GetCurrents m = Returned (i1, i2, i3, None) m' /\
       wp m' = wp m /\
       frames_written (trace m') = frames_written (trace m)) /\
  (forall u1 u2,
     reads_float (wp m) "voltage1" u1 ->
     reads_float (wp m) "voltage2" u2 ->
     exists m',
       GetVoltages m = Returned (u1, u2, u2, None) m' /\
       wp m' = wp m /\
       frames_written (trace m') = frames_written (trace m)).
Proof.
  intros Hinit. split.
  - intros i1 i2 i3 H1 H2 H3. unfold GetCurrents.
    destruct (range_floats_reads (wp m) ["amps1"; "amps2"; "amps3"] [i1; i2; i3] Hinit
                ltac:(repeat constructor; assumption) [] m eq_refl)
      as (m' & Hrun & Hw & Htr).
    rewrite (bind_returned _ _ _ _ _ Hrun). by exists m'.
  - intros u1 u2 H1 H2. unfold GetVoltages.
    destruct (range_floats_reads (wp m) ["voltage1"; "voltage2"; "voltage2"] [u1; u2; u2]
                Hinit ltac:(repeat constructor; assumption) [] m eq_refl)
      as (m' & Hrun & Hw & Htr).
    rewrite (bind_returned _ _ _ _ _ Hrun). by exists m'.
Qed.

(** X16.  The typed accessors assert the dynamic type of what they read,
    after the registered transform.  [GetPower] parses a string and
    returns both results of the parser, and panics on anything else --
    a JSON number, which decodes to [float64], included.  [GetRFID] turns
    nil into the empty string and a [float64] into its printed form and
    panics on anything else; [GetCarIdentifier] turns nil into the empty
    string, returns a string as it is and panics on anything else. *)
Theorem typed_accessors_assert_type (m : Machine) (v : GoValue) :
  _isInitialized (wp m) = true ->
  (_status (wp m) !! resolved_key "power" = Some v ->
   match post_processed "power" v with
   | VString s => exists m', GetPower m = Returned (strconv_ParseFloat s) m' /\ wp m' = wp m
   | _ => exists why, GetPower m = Panicked why
   end) /\
  (_status (wp m) !! resolved_key "trx" = Some v ->
   match post_processed "trx" v with
   | VNil => exists m', GetRFID m = Returned ("", None) m' /\ wp m' = wp m
   | VFloat64 x =>
       exists m', GetRFID m = Returned (Sprint (VFloat64 x), None) m' /\ wp m' = wp m
   | _ => exists why, GetRFID m = Panicked why
   end) /\
  (_status (wp m) !! resolved_key "cak" = Some v ->
   match post_processed "cak" v with
   | VNil => exists m', GetCarIdentifier m = Returned ("", None) m' /\ wp m' = wp m
   | VString s => exists m', GetCarIdentifier m = Returned (s, None) m' /\ wp m' = wp m
   | _ => exists why, GetCarIdentifier m = Panicked why
   end).
Proof.
  intros Hinit. split; [|split]; intros Hkey.
  - unfold GetPower. rewrite (bind_returned _ _ _ _ _ (GetProperty_reads m _ v Hinit Hkey)).
    simpl. destruct (post_processed "power" v); run; by eexists.
  - unfold GetRFID. rewrite (bind_returned _ _ _ _ _ (GetProperty_reads m _ v Hinit Hkey)).
    simpl. destruct (post_processed "trx" v); run; by eexists.
  - unfold GetCarIdentifier.
    rewrite (bind_returned _ _ _ _ _ (GetProperty_reads m _ v Hinit Hkey)).
    simpl. destruct (post_processed "cak" v); run; by eexists.
Qed.

End TypedAccessors.

(** The accessors on the reference session that is connected but not yet
    initialized. *)
Lemma typed_accessors_pass_error_on_witness :
  (exists m', GetPower (Ref.machine Ref.connected)
              = Returned ((-1)%float, Some NotReady_get) m') /\
  (exists m', GetCurrents (Ref.machine Ref.connected)
              = Returned ((-1)%float, (-1)%float, (-1)%float, Some NotReady_get) m') /\
  (exists m', GetRFID (Ref.machine Ref.ready)
              = Returned ("", Some (NotFound_get "trx")) m').
Proof.
  split; [|split].
  - destruct (proj1 (typed_accessors_pass_error_on (Ref.machine Ref.connected))
                NotReady_get eq_refl) as (m' & Hrun & _).
    by exists m'.
  - destruct (proj1 (proj2 (typed_accessors_pass_error_on (Ref.machine Ref.connected)))
                NotReady_get eq_refl) as (m' & Hrun & _).
    by exists m'.
  - destruct (proj1 (proj2 (proj2 (proj2 (typed_accessors_pass_error_on
                                            (Ref.machine Ref.ready)))))
                (NotFound_get "trx")) as (m' & Hrun & _); [vm_compute; reflexivity|].
    by exists m'.
Defined.

(** The metered session holds the first phase in the "nrg" array and the
    second under "voltage2"; it has no "voltage3". *)
Lemma phase_readings_witness :
  (exists m',
      GetVoltages (Ref.machine Sample.metered)
        = Returned (6.5%float, 6.5%float, 6.5%float, None) m') /\
  _status Sample.metered !! "voltage3" = None.
Proof.
  split; [|reflexivity].
  destruct (proj2 (phase_readings (Ref.machine Sample.metered) eq_refl) 6.5%float 6.5%float)
    as (m' & Hrun & _).
  - exists (VSlice [VString "6.5"]), "6.5". repeat split; reflexivity.
  - exists (VString "6.5"), "6.5". repeat split; reflexivity.
  - by exists m'.
Defined.

(** A store as the decoder fills it: the power as a JSON number, the card
    as a number, the car as text. *)
Lemma typed_accessors_assert_type_witness :
  let w := set_status {[ "power" := VFloat64 1.5%float; "trx" := VFloat64 7%float;
                         "cak" := VString "car" ]} Ref.ready in
  (exists why, GetPower (Ref.machine w) = Panicked why) /\
  (exists m', GetRFID (Ref.machine w) = Returned ("7", None) m') /\
  (exists m', GetCarIdentifier (Ref.machine w) = Returned ("car", None) m').
Proof.
  intros w. split; [|split].
  - exact (proj1 (typed_accessors_assert_type (Ref.machine w) (VFloat64 1.5%float) eq_refl)
             eq_refl).
  - destruct (proj1 (proj2 (typed_accessors_assert_type (Ref.machine w) (VFloat64 7%float)
                              eq_refl))) as (m' & Hrun & _); [vm_compute; reflexivity|].
    by exists m'.
  - destruct (proj2 (proj2 (typed_accessors_assert_type (Ref.machine w) (VString "car")
                              eq_refl))) as (m' & Hrun & _); [vm_compute; reflexivity|].
    by exists m'.
Defined.

(** ** Names: the store's keys and the aliases *)

Section Names.
Context `{!Externals}.

Lemma elem_of_Properties (w : Wattpilot) (k : string) :
  k ∈ Properties w <-> is_Some (_status w !! k).
Proof.
  unfold Properties. rewrite list_elem_of_fmap. split.
  - intros ([k' v] & -> & Hin). apply elem_of_map_to_list in Hin. by exists v.
  - intros [v Hv]. exists (k, v). split; [done|]. by apply elem_of_map_to_list.
Qed.

(** X17.  [Properties] lists every key the device has reported since the
    last teardown, each once: after a batch is merged it holds the keys it
    held before and the keys of the batch, and no others. *)
Theorem Properties_after_update (m : Machine) (message updates : gmap string GoValue) :
  message !! "status" = Some (VMap updates) ->
  exists m',
    updateStatus message m = Returned tt m' /\
    NoDup (Properties (wp m')) /\
    forall k, k ∈ Properties (wp m') <-> k ∈ Properties (wp m) \/ is_Some (updates !! k).
Proof.
  intros Hst. rewrite (updateStatus_returns m message updates Hst).
  eexists. split; [reflexivity|]. split.
  - apply NoDup_fst_map_to_list.
  - intros k. rewrite !elem_of_Properties. simpl. rewrite status_set_status.
    rewrite lookup_union_is_Some. tauto.
Qed.

(** X18.  A name listed by [Alias] is read under the wire key that
    [LookupAlias] gives for it: on an initialized session, [GetProperty]
    on an alias without a registered transform returns what the store
    holds under that key, or NotFound for that key.  For a name that is no
    alias [LookupAlias] gives the empty string, and the name is read as it
    is. *)
Theorem alias_reads_wire_key (m : Machine) (name : string) :
  _isInitialized (wp m) = true ->
  PostProcess !! name = None ->
  let key := if bool_decide (name ∈ Alias) then LookupAlias name else name in
  (name ∉ Alias -> LookupAlias name = "") /\
  exists m',
    GetProperty name m
      = Returned match _status (wp m) !! key with
                 | Some v => (v, None)
                 | None => (VNil, Some (NotFound_get key))
                 end m' /\
    wp m' = wp m.
Proof.
  intros Hinit Hpost key.
  assert (Hin : name ∈ Alias <-> is_Some (propertyMap !! name)).
  { unfold Alias. rewrite list_elem_of_fmap. split.
    - intros ([k' v] & -> & Hin). apply elem_of_map_to_list in Hin. by exists v.
    - intros [v Hv]. exists (name, v). split; [done|]. by apply elem_of_map_to_list. }
  split.
  - intros Hno. unfold LookupAlias. destruct (propertyMap !! name) eqn:Halias; [|done].
    exfalso. apply Hno, Hin. by eexists.
  - rewrite GetProperty_returns, Hinit. simpl.
    assert (Hkey : resolved_key name = key).
    { unfold resolved_key, key, LookupAlias. rewrite Hpost.
      destruct (propertyMap !! name) eqn:Halias; simpl.
      - rewrite bool_decide_eq_true_2; [done|]. apply Hin. by eexists.
      - rewrite bool_decide_eq_false_2; [done|]. intros Hc. apply Hin in Hc.
        by destruct Hc. }
    rewrite Hkey. unfold post_processed. rewrite Hpost.
    eexists. split; [by destruct (_status (wp m) !! key)|reflexivity].
Qed.

End Names.

(** The delta of the samples adds "car" to the store of the reference
    session and overwrites "amp". *)
Lemma Properties_after_update_witness :
  exists m',
    updateStatus Sample.delta (Ref.machine Ref.ready) = Returned tt m' /\
    NoDup (Properties (wp m')) /\
    "car" ∈ Properties (wp m') /\ "nrg" ∈ Properties (wp m').
Proof.
  destruct (Properties_after_update (Ref.machine Ref.ready) Sample.delta
              {[ "amp" := VInt 16; "car" := VInt 2 ]} eq_refl)
    as (m' & Hrun & Hnodup & Hkeys).
  exists m'. split; [exact Hrun|]. split; [exact Hnodup|]. split.
  - apply Hkeys. right. by exists (VInt 2).
  - apply Hkeys. left. vm_compute. apply list_elem_of_further, list_elem_of_here.
Defined.

(** The alias "chargingCurrent" of "amp", and the plain name "amp". *)
Lemma alias_reads_wire_key_witness :
  (exists m', GetProperty "chargingCurrent" (Ref.machine Ref.ready)
              = Returned (VInt 6, None) m') /\
  LookupAlias "amp" = "".
Proof.
  split.
  - destruct (alias_reads_wire_key (Ref.machine Ref.ready) "chargingCurrent")
      as (_ & m' & Hrun & _); [reflexivity|vm_compute; reflexivity|].
    exists m'. rewrite Hrun. vm_compute. reflexivity.
  - destruct (alias_reads_wire_key (Ref.machine Ref.ready) "amp")
      as (Hplain & _); [reflexivity|vm_compute; reflexivity|].
    apply Hplain. vm_compute. intros Hin. apply list_elem_of_singleton in Hin.
    discriminate Hin.
Defined.

(** ** What [hello] tells about the device *)

Section Identity.
Context `{!Externals}.

(** X19.  A well-formed [hello] sets the serial, and the name the session
    answers to: the friendly name when the device sent one, and otherwise
    the host name -- the one of this [hello], or the one kept from an
    earlier [hello] when this one has none.  The version and the secured
    flag are kept from before when the [hello] does not carry them.  The
    host to dial, the store, the request-id counter and the connection
    are not touched. *)
Theorem onEventHello_identity (m : Machine) (message : gmap string GoValue) (serial : string) :
  well_formed_hello message = true ->
  message !! "serial" = Some (VString serial) ->
  String.length (pbkdf2_Key (_password (wp m)) serial 100000 256) = 256%nat ->
  exists m',
    onEventHello message m = Returned tt m' /\
    GetSerial (wp m') = serial /\
    _hostname (wp m')
      = match message !! "hostname" with Some (VString s) => s | _ => _hostname (wp m) end /\
    GetName (wp m')
      = match message !! "friendly_name" with
        | Some (VString s) => s
        | _ => _hostname (wp m')
        end /\
    _version (wp m')
      = match message !! "version" with Some (VString s) => s | _ => _version (wp m) end /\
    _secured (wp m')
      = match message !! "secured" with Some (VBool b) => b | _ => _secured (wp m) end /\
    GetHost (wp m') = GetHost (wp m) /\
    _status (wp m') = _status (wp m) /\
    session_frame (wp m') = session_frame (wp m).
Proof.
  intros Hwf Hserial Hbytes.
  assert (Hlen : (32 <= String.length
                   (base64.EncodeToString
                      (pbkdf2_Key (_password (wp m)) serial 100000 256)))%nat).
  { pose proof (base64_length (pbkdf2_Key (_password (wp m)) serial 100000 256)). lia. }
  clear Hbytes.
  unfold well_formed_hello, index in Hwf. rewrite Hserial in Hwf.
  unfold onEventHello, hasKey, index. rewrite Hserial.
  destruct m as [w ent dr ints tr cn]. destruct w. simpl in Hlen.
  destruct (message !! "hostname") as [[]|]; simpl in Hwf; try discriminate;
  destruct (message !! "friendly_name") as [[]|]; simpl in Hwf; try discriminate;
  destruct (message !! "version") as [[]|]; simpl in Hwf; try discriminate;
  destruct (message !! "manufacturer") as [[]|]; simpl in Hwf; try discriminate;
  destruct (message !! "devicetype") as [[]|]; simpl in Hwf; try discriminate;
  destruct (message !! "protocol") as [[]|]; simpl in Hwf; try discriminate;
  destruct (message !! "secured") as [[]|]; simpl in Hwf; try discriminate;
  run; rewrite (slice_to_returns _ _ _ Hlen); run;
  (eexists; split; [reflexivity|]); simpl; auto 10.
Qed.

End Identity.

(** The [hello] of the reference device has a host name and no friendly
    name, version or secured flag. *)
Lemma onEventHello_identity_witness :
  exists m',
    onEventHello Ref.hello (Ref.machine (New "wattpilot.local" "secret")) = Returned tt m' /\
    GetSerial (wp m') = "S1" /\ GetName (wp m') = "wp" /\ _secured (wp m') = false /\
    GetHost (wp m') = "wattpilot.local".
Proof.
  destruct (onEventHello_identity (Ref.machine (New "wattpilot.local" "secret")) Ref.hello "S1")
    as (m' & Hrun & Hserial & Hhost & Hname & _ & Hsec & Hdial & _);
    [vm_compute; reflexivity|vm_compute; reflexivity|vm_compute; reflexivity|].
  exists m'. split; [exact Hrun|]. split; [exact Hserial|].
  split; [rewrite Hname, Hhost; vm_compute; reflexivity|].
  split; [rewrite Hsec; vm_compute; reflexivity|exact Hdial].
Defined.

(** ** Coercion settles *)

Section Settled.
Context `{!Externals}.

(** X20.  Coercion settles after one pass: coercing what [transformValue]
    returned gives the same value again, whatever the value was. *)
Theorem transformValue_idempotent (value : GoValue) :
  transformValue (transformValue value) = transformValue value.
Proof.
  assert (Hchain : forall s,
    transformValue (VString s) = transformValue (transformValue (VString s))).
  { intros s. simpl.
    destruct (strconv.Atoi s) eqn:Hn; [reflexivity|].
    destruct (strconv.ParseBool s) as [[]|] eqn:Hb; [reflexivity|reflexivity|].
    destruct (ParseFloat s) eqn:Hx; [reflexivity|].
    simpl. by rewrite Hn, Hb, Hx. }
  destruct value as [|b|n|n|x|s|fields|items]; try reflexivity.
  - symmetry. exact (Hchain "<nil>").
  - destruct b; reflexivity.
  - symmetry. exact (Hchain s).
  - symmetry. exact (Hchain (Sprint_rest (VMap fields))).
  - symmetry. exact (Hchain (Sprint_rest (VSlice items))).
Qed.

End Settled.

(** ** From sign-in to the first full status *)

Section Lifecycle.
Context `{!Externals}.

Lemma onEventAuthRequired_sent
  (m : Machine) (message : gmap string GoValue) (token1 token2 : string) (conn : Conn) :
  message !! "token1" = Some (VString token1) ->
  message !! "token2" = Some (VString token2) ->
  _currentConnection (wp m) = Some conn ->
  (forall frame, WriteClientMessage conn frame = None) ->
  exists m',
    onEventAuthRequired message m = Returned tt m' /\
    _isInitialized (wp m') = false /\
    _status (wp m') = _status (wp m) /\
    _currentConnection (wp m') = Some conn /\
    connecting m' = connecting m /\
    deliveries ch_connected (trace m') = deliveries ch_connected (trace m) /\
    deliveries ch_initialized (trace m') = deliveries ch_initialized (trace m) /\
    length (frames_written (trace m')) = S (length (frames_written (trace m))).
Proof.
  intros Ht1 Ht2 Hconn Hwrite.
  pose proof (onEventAuthRequired_returns m message token1 token2 conn Ht1 Ht2 Hconn) as Hrun.
  simpl in Hrun. rewrite Hwrite in Hrun.
  eexists. split; [exact Hrun|]. simpl.
  split; [by destruct (wp m)|]. split; [by destruct (wp m)|].
  split; [destruct (wp m); simpl in *; done|]. split; [done|].
  split; [by read_trace|]. split; [by read_trace|].
  read_trace. rewrite length_app. simpl. lia.
Qed.

(** The verdict of the device, handed to the waiting [Connect]. *)
Lemma onEventAuthSuccess_handoff (m : Machine) (message : gmap string GoValue) :
  connecting m = AwaitConnected ->
  exists m',
    onEventAuthSuccess message m = Returned tt m' /\
    _isConnected (wp m') = true /\
    _isInitialized (wp m') = _isInitialized (wp m) /\
    _status (wp m') = _status (wp m) /\
    _currentConnection (wp m') = _currentConnection (wp m) /\
    connecting m' = AwaitInitialized /\
    deliveries ch_connected (trace m') = (deliveries ch_connected (trace m) ++ [VBool true])%list /\
    deliveries ch_initialized (trace m') = deliveries ch_initialized (trace m) /\
    frames_written (trace m') = frames_written (trace m).
Proof.
  intros Hwait. unfold onEventAuthSuccess. run.
  rewrite send_connected_handoff by exact Hwait.
  eexists. split; [reflexivity|]. simpl.
  repeat (split; [by destruct (wp m) || by read_trace|]). by read_trace.
Qed.

Lemma onEventFullStatus_first_writes_nothing
  (m m' : Machine) (message updates : gmap string GoValue) :
  message !! "partial" = Some (VBool false) ->
  message !! "status" = Some (VMap updates) ->
  _isInitialized (wp m) = false ->
  onEventFullStatus message m = Returned tt m' ->
  frames_written (trace m') = frames_written (trace m) /\
  deliveries ch_connected (trace m') = deliveries ch_connected (trace m) /\
  _isConnected (wp m') = _isConnected (wp m) /\
  _currentConnection (wp m') = _currentConnection (wp m).
Proof.
  intros Hp Hst Hinit. unfold onEventFullStatus.
  rewrite (index_Some _ _ _ Hp). run.
  rewrite (updateStatus_returns _ _ _ Hst). unfold IsInitialized. simpl.
  rewrite isInitialized_set_status, Hinit. run.
  unfold send_initialized. simpl. destruct (connecting m); run; try discriminate.
  intros [= <-]. simpl. split; [by read_trace|]. split; [by read_trace|].
  by destruct (wp m).
Qed.

(** X21.  From sign-in to the first full status.  With a call of
    [Connect] waiting for the verdict of the device, on a connection that
    accepts writes, the frames [authRequired], [authSuccess] and a
    [fullStatus] that is not partial take the session to connected and
    initialized: the [auth] reply is the one frame written, the batch is
    merged, each of the two handoffs to [Connect] happens once, and
    [Connect] returns nil.  Without the [authSuccess] in between nobody
    receives on [initialized]: the receive loop stays blocked in the
    send, with the batch merged and the flag not set. *)
Theorem authentication_then_full_status
  (m : Machine) (a s f : string) (auth success full updates : gmap string GoValue)
  (token1 token2 : string) (conn : Conn) :
  _currentConnection (wp m) = Some conn ->
  connecting m = AwaitConnected ->
  (forall frame, WriteClientMessage conn frame = None) ->
  json_Unmarshal a = Some (VMap auth) ->
  auth !! "type" = Some (VString "authRequired") ->
  auth !! "token1" = Some (VString token1) ->
  auth !! "token2" = Some (VString token2) ->
  json_Unmarshal s = Some (VMap success) ->
  success !! "type" = Some (VString "authSuccess") ->
  json_Unmarshal f = Some (VMap full) ->
  full !! "type" = Some (VString "fullStatus") ->
  full !! "partial" = Some (VBool false) ->
  full !! "status" = Some (VMap updates) ->
  (exists m',
      receiveHandler [a; s; f] m = Returned tt m' /\
      _isConnected (wp m') = true /\
      _isInitialized (wp m') = true /\
      connecting m' = ConnectReturned None /\
      _status (wp m') = updates ∪ _status (wp m) /\
      deliveries ch_connected (trace m')
        = (deliveries ch_connected (trace m) ++ [VBool true])%list /\
      deliveries ch_initialized (trace m')
        = (deliveries ch_initialized (trace m) ++ [VBool true])%list /\
      length (frames_written (trace m')) = S (length (frames_written (trace m)))) /\
  (exists m',
      receiveHandler [a; f] m = Parked m' /\
      _isInitialized (wp m') = false /\
      _status (wp m') = updates ∪ _status (wp m) /\
      deliveries ch_initialized (trace m') = deliveries ch_initialized (trace m)).
Proof.
  intros Hconn Hwait Hwrite Ha Haty Ht1 Ht2 Hs Hsty Hf Hfty Hp Hst.
  unfold receiveHandler.
  set (m0 := emitted m [EvLog InfoLevel "Starting receive handler..." []]).
  assert (Hstart : log InfoLevel "Starting receive handler..." [] m = Returned tt m0)
    by reflexivity.
  rewrite !(bind_returned _ _ _ _ _ Hstart).
  rewrite !(receiveHandler_loop_cons m0 a _ conn Hconn).
  rewrite (receiveHandler_step_dispatch m0 a "authRequired" auth onEventAuthRequired
             Ha Haty eq_refl).
  destruct (onEventAuthRequired_sent
              (emitted m0 [EvLog TraceLevel "receiving " [VString "authRequired"]])
              auth token1 token2 conn Ht1 Ht2 Hconn Hwrite)
    as (m1 & Hrun1 & Hflag1 & Hst1 & Hconn1 & Hwait1 & Hdc1 & Hdi1 & Hfr1).
  rewrite Hrun1.
  set (m1' := emitted m1 [EvLog TraceLevel "done " [VString "authRequired"]]).
  split.
  - rewrite (receiveHandler_loop_cons m1' s [f] conn Hconn1).
    rewrite (receiveHandler_step_dispatch m1' s "authSuccess" success onEventAuthSuccess
               Hs Hsty eq_refl).
    destruct (onEventAuthSuccess_handoff
                (emitted m1' [EvLog TraceLevel "receiving " [VString "authSuccess"]]) success)
      as (m2 & Hrun2 & Hc2 & Hflag2 & Hst2 & Hconn2 & Hwait2 & Hdc2 & Hdi2 & Hfr2).
    { simpl. by rewrite Hwait1. }
    rewrite Hrun2.
    set (m2' := emitted m2 [EvLog TraceLevel "done " [VString "authSuccess"]]).
    simpl in Hflag2, Hst2, Hconn2. rewrite Hconn1 in Hconn2. rewrite Hflag1 in Hflag2.
    rewrite (receiveHandler_loop_cons m2' f [] conn Hconn2).
    rewrite (receiveHandler_step_dispatch m2' f "fullStatus" full onEventFullStatus
               Hf Hfty eq_refl).
    destruct (onEventFullStatus_initializes
                (emitted m2' [EvLog TraceLevel "receiving " [VString "fullStatus"]])
                full updates Hp Hst Hflag2 Hwait2)
      as (m3 & Hrun3 & Hflag3 & Hst3 & Hdi3 & Hwait3).
    destruct (onEventFullStatus_first_writes_nothing
                (emitted m2' [EvLog TraceLevel "receiving " [VString "fullStatus"]])
                m3 full updates Hp Hst Hflag2 Hrun3) as (Hfr3 & Hdc3 & Hc3 & Hconn3).
    rewrite Hrun3. simpl in Hconn3. rewrite Hconn2 in Hconn3.
    simpl. run. rewrite Hconn3. run.
    eexists. split; [reflexivity|]. simpl.
    split; [by rewrite Hc3|]. split; [exact Hflag3|]. split; [exact Hwait3|].
    split; [by rewrite Hst3; simpl; rewrite Hst2, Hst1|].
    split; [|split].
    + read_trace. rewrite Hdc3. simpl. read_trace. rewrite Hdc2. simpl. read_trace.
      rewrite Hdc1. simpl. by read_trace.
    + read_trace. rewrite Hdi3. simpl. read_trace. rewrite Hdi2. simpl. read_trace.
      rewrite Hdi1. simpl. by read_trace.
    + read_trace. rewrite Hfr3. simpl. read_trace. rewrite Hfr2. simpl. read_trace.
      rewrite Hfr1. simpl. by read_trace.
  - rewrite (receiveHandler_loop_cons m1' f [] conn Hconn1).
    rewrite (receiveHandler_step_dispatch m1' f "fullStatus" full onEventFullStatus
               Hf Hfty eq_refl).
    destruct (onEventFullStatus_parks
                (emitted m1' [EvLog TraceLevel "receiving " [VString "fullStatus"]])
                full updates Hp Hst Hflag1)
      as (m2 & Hrun2 & Hflag2 & Hst2 & Hdi2).
    { simpl. rewrite Hwait1. simpl. rewrite Hwait. discriminate. }
    rewrite Hrun2. exists m2. split; [reflexivity|]. split; [exact Hflag2|].
    split; [by rewrite Hst2; simpl; rewrite Hst1|].
    rewrite Hdi2. simpl. read_trace. rewrite Hdi1. simpl. by read_trace.
Qed.

End Lifecycle.

(** The reference device signs a dialing session in and reports its full
    status; and the same feed without the [authSuccess]. *)
Lemma authentication_then_full_status_witness :
  (exists m',
      @receiveHandler Feed.env ["AUTH"; "AUTH-OK"; "FULL"] (Sample.dialing Ref.connected)
        = Returned tt m' /\
      _isConnected (wp m') = true /\
      _isInitialized (wp m') = true /\
      connecting m' = ConnectReturned None /\
      deliveries ch_initialized (trace m') = [VBool true]) /\
  (exists m',
      @receiveHandler Feed.env ["AUTH"; "FULL"] (Sample.dialing Ref.connected) = Parked m' /\
      _isInitialized (wp m') = false).
Proof.
  destruct (@authentication_then_full_status Feed.env (Sample.dialing Ref.connected)
              "AUTH" "AUTH-OK" "FULL" Ref.authRequired
              {[ "type" := VString "authSuccess" ]} Sample.full
              {[ "amp" := VInt 16; "car" := VInt 2 ]} "t1" "t2" (mkConn 3))
    as ((m1 & Hrun1 & Hc & Hi & Hret & _ & _ & Hdel & _) & (m2 & Hrun2 & Hflag & _));
    try (vm_compute; reflexivity).
  split.
  - exists m1. split; [exact Hrun1|]. split; [exact Hc|]. split; [exact Hi|].
    split; [exact Hret|]. rewrite Hdel. vm_compute. reflexivity.
  - exists m2. split; [exact Hrun2|exact Hflag].
Defined.
